(** * AgriGuide backend: chat sessions, daily tip, community feed, tutorials

    A shallow embedding of the request handlers of [agriguide_ai]
    ([views.py], [ai_tip_views.py], [community_views.py], [lms_views.py],
    with the parts of [models.py] and [serializers.py] they use) and the
    properties of these handlers.

    Conventions of the embedding.
    - A database table is the list of its rows in insertion order; a
      queryset [filter] is [List.filter], [order_by] is a sort on the
      column, [objects.get] distinguishes no row, one row, several rows.
    - A handler is a function from the state before the request to the
      HTTP response and the state after it.  A Python exception is a value
      of [exn]; what the state holds when it is raised is kept (the
      project runs no handler inside a transaction).
    - The generative model is an oracle [generate] from the request sent
      to it to a reply text or an exception; the requests a handler sends
      are recorded in order.
    - Text is a [string]; [strip] and [lower] follow Python on the ASCII
      range and leave other bytes alone. *)

From stdpp Require Import base gmap strings.
From Stdlib Require Import ZArith String Ascii List Bool Lia Sorting.Sorted Permutation.
Import ListNotations.
Local Open Scope string_scope.
Local Open Scope Z_scope.
Local Open Scope list_scope.

(** ** Python text helpers *)

Module Py.

(** [str.isspace] on the ASCII range: TAB, LF, VT, FF, CR, FS, GS, RS, US
    and the space. *)
Definition is_space (c : ascii) : bool :=
  let n := nat_of_ascii c in
  ((9 <=? n) && (n <=? 13) || (28 <=? n) && (n <=? 32))%nat.

Fixpoint lstrip (s : string) : string :=
  match s with
  | EmptyString => EmptyString
  | String c r => if is_space c then lstrip r else s
  end.

(** [rstrip]: a character is dropped when it is white space and all that
    follows it has been dropped. *)
Fixpoint rstrip (s : string) : string :=
  match s with
  | EmptyString => EmptyString
  | String c r =>
      match rstrip r with
      | EmptyString => if is_space c then EmptyString else String c EmptyString
      | r' => String c r'
      end
  end.

Definition strip (s : string) : string := rstrip (lstrip s).

Definition lower_char (c : ascii) : ascii :=
  let n := nat_of_ascii c in
  if ((65 <=? n) && (n <=? 90))%nat then ascii_of_nat (n + 32) else c.

Fixpoint lower (s : string) : string :=
  match s with
  | EmptyString => EmptyString
  | String c r => String (lower_char c) (lower r)
  end.

(** Truth value of a string: [if s:] holds unless [s] is empty. *)
Definition truthy (s : string) : bool :=
  match s with EmptyString => false | _ => true end.

End Py.

(** ** JSON bodies, responses, exceptions *)

#[local] Set Warnings "-register-all".
Inductive json : Type :=
| JNull
| JBool (b : bool)
| JNum (z : Z)
| JStr (s : string)
| JDate (day : Z)              (* a date, written in ISO format *)
| JList (l : list json)
| JObj (fields : list (string * json)).

(** [body[key]] of an object. *)
Fixpoint assoc (key : string) (fields : list (string * json)) : option json :=
  match fields with
  | [] => None
  | (k, v) :: rest => if (k =? key)%string then Some v else assoc key rest
  end.

Definition json_get (key : string) (j : json) : option json :=
  match j with
  | JObj fields => assoc key fields
  | _ => None
  end.

Record Response := mkResponse { status : Z; data : json }.

Definition HTTP_200_OK : Z := 200.
Definition HTTP_201_CREATED : Z := 201.
Definition HTTP_204_NO_CONTENT : Z := 204.
Definition HTTP_400_BAD_REQUEST : Z := 400.
Definition HTTP_403_FORBIDDEN : Z := 403.
Definition HTTP_404_NOT_FOUND : Z := 404.
Definition HTTP_500_INTERNAL_SERVER_ERROR : Z := 500.

(** The exceptions the handlers meet.  The first three are the ORM's,
    [ModelError] stands for whatever the generative-AI client raises (the
    call itself or reading [response.text]), [PermissionError] is Python's
    builtin (a subclass of [OSError]), [ValidationError] is
    [rest_framework.serializers.ValidationError], [Http404] what
    [get_object] raises for a missing row, [IndexError] what
    [random.choice] raises on an empty sequence. *)
Inductive exn : Type :=
| DoesNotExist
| MultipleObjectsReturned
| IntegrityError
| ModelError (msg : string)
| PermissionError (msg : string)
| ValidationError (detail : json)
| Http404
| IndexError.

Inductive result (A : Type) : Type :=
| Ok (a : A)
| Raise (e : exn).
Arguments Ok {A} a.
Arguments Raise {A} e.

(** What the framework answers for an exception that leaves a view:
    [rest_framework.views.exception_handler] turns a [ValidationError]
    into a 400 and [Http404] into a 404; any exception it does not know
    (the builtin [PermissionError] among them) is raised again and the
    server answers 500.  The body of the 404 is the one of the framework
    before its version 3.15, later versions pass on the message of
    [get_object_or_404]; only the status is relied on. *)
Definition exception_handler (e : exn) : Response :=
  match e with
  | ValidationError detail => mkResponse HTTP_400_BAD_REQUEST detail
  | Http404 => mkResponse HTTP_404_NOT_FOUND (JObj [("detail", JStr "Not found.")])
  | _ => mkResponse HTTP_500_INTERNAL_SERVER_ERROR JNull
  end.

(** ** The generative model *)

Record content := mkContent { role : string; parts : list string }.

(** [generation_config]: decimal literals are kept as written. *)
Record generation_config := mkConfig {
  temperature : string;
  top_p : string;
  top_k : option Z;
  max_output_tokens : option Z
}.

Record gen_request := mkRequest {
  contents : list content;
  config : option generation_config
}.

(** A chat object of the client library: [send_message] sends the chat's
    history followed by the new user content and, when a reply comes back,
    extends the history with both. *)
Record genai_chat := mkChat { history : list content }.

Definition start_chat (h : list content) : genai_chat := mkChat h.

Section GenAI.
Variable generate : gen_request -> result string.

Definition send_message (chat : genai_chat) (msg : string)
    (cfg : option generation_config)
  : result string * genai_chat * gen_request :=
  let req := mkRequest (history chat ++ [mkContent "user" [msg]]) cfg in
  match generate req with
  | Ok text =>
      (Ok text,
       mkChat (history chat ++ [mkContent "user" [msg]; mkContent "model" [text]]),
       req)
  | Raise e => (Raise e, chat, req)
  end.
End GenAI.

(** ** Chat sessions ([views.py], [models.ChatSession], [models.ChatMessage]) *)

Module Chat.

Record ChatSession := mkChatSession {
  cs_pk : nat;
  cs_user : nat;               (* foreign key to the user *)
  session_id : string;         (* unique *)
  cs_created_at : Z;           (* auto_now_add *)
  cs_updated_at : Z;           (* auto_now: set by every save *)
  is_active : bool
}.

Record ChatMessage := mkChatMessage {
  cm_pk : nat;
  cm_session : nat;            (* foreign key to the session, cascading *)
  cm_role : string;
  message : string;
  cm_created_at : Z            (* auto_now_add *)
}.

(** The two tables, the counters of their primary keys and the clock the
    [auto_now] columns read.  Every write reads the clock and the clock
    moves on before the next write. *)
Record DB := mkDB {
  chat_sessions : list ChatSession;
  chat_messages : list ChatMessage;
  next_session_pk : nat;
  next_message_pk : nat;
  now : Z
}.

Definition empty_db (t0 : Z) : DB := mkDB [] [] 1 1 t0.

(** *** Sorting a queryset *)

Section OrderBy.
Context {A : Type} (key : A -> Z).

Fixpoint insert_by (x : A) (l : list A) : list A :=
  match l with
  | [] => [x]
  | y :: r => if key x <=? key y then x :: l else y :: insert_by x r
  end.

(** [order_by(column)], ascending. *)
Definition order_by (l : list A) : list A := fold_right insert_by [] l.
End OrderBy.

(** [order_by('-column')]. *)
Definition order_by_desc {A : Type} (key : A -> Z) (l : list A) : list A :=
  order_by (fun x => - key x) l.

(** *** The model layer *)

Definition session_matches (sid : string) (user : nat) (s : ChatSession) : bool :=
  (session_id s =? sid)%string && (cs_user s =? user)%nat.

(** [ChatSession.objects.get(session_id=sid, user=user)]. *)
Definition ChatSession_get (d : DB) (sid : string) (user : nat) : result ChatSession :=
  match List.filter (session_matches sid user) (chat_sessions d) with
  | [] => Raise DoesNotExist
  | [s] => Ok s
  | _ => Raise MultipleObjectsReturned
  end.

(** [ChatSession.objects.create(user=user, session_id=sid)]; the column
    [session_id] is unique. *)
Definition ChatSession_create (d : DB) (user : nat) (sid : string)
  : result ChatSession * DB :=
  if existsb (fun s => (session_id s =? sid)%string) (chat_sessions d)
  then (Raise IntegrityError, d)
  else
    let s := mkChatSession (next_session_pk d) user sid (now d) (now d) true in
    (Ok s,
     mkDB (chat_sessions d ++ [s]) (chat_messages d)
          (S (next_session_pk d)) (next_message_pk d) (now d + 1)).

(** [ChatMessage.objects.create(session=s, role=r, message=m)]. *)
Definition ChatMessage_create (d : DB) (s : ChatSession) (r m : string) : DB :=
  let row := mkChatMessage (next_message_pk d) (cs_pk s) r m (now d) in
  mkDB (chat_sessions d) (chat_messages d ++ [row])
       (next_session_pk d) (S (next_message_pk d)) (now d + 1).

(** [s.save()]: the row of that primary key takes the instance's fields,
    [updated_at] the current time; with no such row the instance is
    inserted. *)
Definition ChatSession_save (d : DB) (s : ChatSession) : DB :=
  let s' := mkChatSession (cs_pk s) (cs_user s) (session_id s)
                          (cs_created_at s) (now d) (is_active s) in
  let rows :=
    if existsb (fun r => (cs_pk r =? cs_pk s)%nat) (chat_sessions d)
    then List.map (fun r => if (cs_pk r =? cs_pk s)%nat then s' else r) (chat_sessions d)
    else chat_sessions d ++ [s'] in
  mkDB rows (chat_messages d) (next_session_pk d) (next_message_pk d) (now d + 1).

(** [s.delete()]: the row and, by the cascade, its messages. *)
Definition ChatSession_delete (d : DB) (s : ChatSession) : DB :=
  mkDB (List.filter (fun r => negb (cs_pk r =? cs_pk s)%nat) (chat_sessions d))
       (List.filter (fun m => negb (cm_session m =? cs_pk s)%nat) (chat_messages d))
       (next_session_pk d) (next_message_pk d) (now d).

(** [ChatMessage.objects.filter(session=s)], in table order. *)
Definition messages_of (d : DB) (s : ChatSession) : list ChatMessage :=
  List.filter (fun m => (cm_session m =? cs_pk s)%nat) (chat_messages d).

(** *** The handlers *)

(** The body of a POST to [/api/chat/]: [None] is an absent key. *)
Record ChatRequest := mkChatRequest {
  req_message : option string;
  req_session_id : option string
}.

Definition chat_config : generation_config :=
  mkConfig "0.7" "0.8" (Some 40) None.

Definition error_body (msg : string) : json := JObj [("error", JStr msg)].

Definition session_not_found : Response :=
  mkResponse HTTP_404_NOT_FOUND (error_body "Session not found or access denied").

Section Handlers.
Variable generate : gen_request -> result string.
(** The fixed instruction text of [views.py]; the handlers pass it on and
    never look into it. *)
Variable SYSTEM_INSTRUCTION : string.
(** [str(e)] of an exception caught by [except Exception as e]. *)
Variable str : exn -> string.

Definition server_error (e : exn) : Response :=
  mkResponse HTTP_500_INTERNAL_SERVER_ERROR (error_body (str e)).

(** The conversation contents the handler builds from the stored
    messages and the new one. *)
Definition build_contents (history_messages : list ChatMessage) (msg : string)
  : list content :=
  List.map (fun m => mkContent (cm_role m) [message m]) history_messages
    ++ [mkContent "user" [msg]].

(** From the model call to the end of the [try] block, for the session
    [s] found or created.  Returns the response, the database and the
    requests sent to the model. *)
Definition chat_turn (d : DB) (s : ChatSession) (sid msg : string)
  : Response * DB * list gen_request :=
  let history_messages := order_by cm_created_at (messages_of d s) in
  let contents := build_contents history_messages msg in
  let chat := start_chat [] in
  match send_message generate chat SYSTEM_INSTRUCTION None with
  | (Raise e, _, q1) => (server_error e, d, [q1])
  | (Ok _, chat1, q1) =>
      match send_message generate chat1 msg (Some chat_config) with
      | (Raise e, _, q2) => (server_error e, d, [q1; q2])
      | (Ok ai_response, _, q2) =>
          let d1 := ChatMessage_create d s "user" msg in
          let d2 := ChatMessage_create d1 s "model" ai_response in
          let d3 := ChatSession_save d2 s in
          (mkResponse HTTP_200_OK
             (JObj [("response", JStr ai_response); ("session_id", JStr sid)]),
           d3, [q1; q2])
      end
  end.

(** [chat_with_ai]; [uuid4] is the identifier [uuid.uuid4()] would
    return. *)
Definition chat_with_ai (d : DB) (user : nat) (rq : ChatRequest) (uuid4 : string)
  : Response * DB * list gen_request :=
  let msg := Py.strip (default "" (req_message rq)) in
  if negb (Py.truthy msg) then
    (mkResponse HTTP_400_BAD_REQUEST (error_body "Message is required"), d, [])
  else
    match req_session_id rq with
    | Some sid =>
        if Py.truthy sid then
          match ChatSession_get d sid user with
          | Ok s => chat_turn d s sid msg
          | Raise DoesNotExist => (session_not_found, d, [])
          | Raise e => (server_error e, d, [])
          end
        else
          match ChatSession_create d user uuid4 with
          | (Ok s, d') => chat_turn d' s uuid4 msg
          | (Raise e, d') => (server_error e, d', [])
          end
    | None =>
        match ChatSession_create d user uuid4 with
        | (Ok s, d') => chat_turn d' s uuid4 msg
        | (Raise e, d') => (server_error e, d', [])
        end
    end.

(** [get_chat_sessions]. *)
Definition last_message (l : list ChatMessage) : json :=
  match List.last (List.map Some l) None with
  | Some m => JStr (message m)
  | None => JNull
  end.

Definition session_summary (d : DB) (s : ChatSession) : json :=
  let msgs := order_by cm_created_at (messages_of d s) in
  JObj [("session_id", JStr (session_id s));
        ("created_at", JNum (cs_created_at s));
        ("updated_at", JNum (cs_updated_at s));
        ("message_count", JNum (Z.of_nat (length msgs)));
        ("last_message", last_message msgs)].

Definition active_sessions (d : DB) (user : nat) : list ChatSession :=
  order_by_desc cs_updated_at
    (List.filter (fun s => (cs_user s =? user)%nat && is_active s) (chat_sessions d)).

Definition get_chat_sessions (d : DB) (user : nat) : Response :=
  mkResponse HTTP_200_OK
    (JObj [("sessions", JList (List.map (session_summary d) (active_sessions d user)))]).

(** [get_chat_history]: only [DoesNotExist] is caught. *)
Definition history_entry (m : ChatMessage) : json :=
  JObj [("role", JStr (cm_role m));
        ("message", JStr (message m));
        ("created_at", JNum (cm_created_at m))].

Definition get_chat_history (d : DB) (user : nat) (sid : string) : Response :=
  match ChatSession_get d sid user with
  | Ok s =>
      let messages := order_by cm_created_at (messages_of d s) in
      mkResponse HTTP_200_OK
        (JObj [("session_id", JStr sid);
               ("history", JList (List.map history_entry messages))])
  | Raise DoesNotExist => session_not_found
  | Raise e => exception_handler e
  end.

(** [clear_chat_session]. *)
Definition clear_chat_session (d : DB) (user : nat) (sid : option string)
  : Response * DB :=
  match sid with
  | Some sid' =>
      if Py.truthy sid' then
        match ChatSession_get d sid' user with
        | Ok s =>
            let s' := mkChatSession (cs_pk s) (cs_user s) (session_id s)
                                    (cs_created_at s) (cs_updated_at s) false in
            (mkResponse HTTP_200_OK (JObj [("message", JStr "Session cleared")]),
             ChatSession_save d s')
        | Raise DoesNotExist => (session_not_found, d)
        | Raise e => (server_error e, d)
        end
      else (mkResponse HTTP_400_BAD_REQUEST (error_body "session_id is required"), d)
  | None => (mkResponse HTTP_400_BAD_REQUEST (error_body "session_id is required"), d)
  end.

(** [delete_chat_session]. *)
Definition delete_chat_session (d : DB) (user : nat) (sid : string)
  : Response * DB :=
  match ChatSession_get d sid user with
  | Ok s =>
      (mkResponse HTTP_200_OK (JObj [("message", JStr "Session deleted successfully")]),
       ChatSession_delete d s)
  | Raise DoesNotExist => (session_not_found, d)
  | Raise e => (exception_handler e, d)
  end.

End Handlers.

End Chat.

(** ** The daily tip ([ai_tip_views.py]) *)

Module Tip.

Definition FARMING_TIP_PROMPT : string := "
You are an expert agricultural advisor. Generate ONE practical, actionable farming tip.

Requirements:
- Keep it concise (2-3 sentences maximum, around 50-80 words)
- Make it practical and actionable
- Focus on one specific aspect (crop care, soil health, pest management, water conservation, etc.)
- Use simple, clear language
- Make it relevant for small to medium-scale farmers
- Don't include greetings or sign-offs, just the tip itself

Generate a unique farming tip now:
".

Definition DEFAULT_FALLBACK_TIPS : list string := [
  "Water your plants early in the morning to reduce water loss through evaporation. This also helps prevent fungal diseases that thrive in moist conditions during cooler evening hours.";
  "Rotate your crops each season to prevent soil nutrient depletion and reduce pest buildup. For example, follow nitrogen-fixing legumes with heavy feeders like corn or tomatoes.";
  "Apply mulch around your plants to retain soil moisture, regulate temperature, and suppress weeds. Organic mulches also improve soil health as they decompose.";
  "Monitor your crops regularly for early signs of pests or diseases. Early detection allows for quicker intervention and prevents widespread damage to your harvest.";
  "Test your soil pH annually to ensure optimal nutrient availability. Most crops thrive in slightly acidic to neutral soil (pH 6.0-7.0)."
].

Definition tip_config : generation_config :=
  mkConfig "0.8" "0.9" None (Some 150).

Definition tip_request : gen_request :=
  mkRequest [mkContent "user" [FARMING_TIP_PROMPT]] (Some tip_config).

(** *** Dates *)

(** A [datetime] is a number of seconds of local time, a [date] a number
    of days; [timedelta(days=1)] is 86400 seconds. *)
Definition date_of (t : Z) : Z := t / 86400.
Definition one_day : Z := 86400.

(** *** The cache *)

(** One entry per key [farming_tip_<date>]: the keys are the dates.  An
    entry holds the value and the time it expires at. *)
Record entry := mkEntry { value : string; expires : Z }.

(** [cache.get(key)] at time [t]. *)
Definition cache_get (c : gmap Z entry) (key : Z) (t : Z) : option string :=
  match c !! key with
  | Some e => if t <? expires e then Some (value e) else None
  | None => None
  end.

(** [cache.set(key, v, timeout=timeout)] at time [t]. *)
Definition cache_set (c : gmap Z entry) (key : Z) (v : string) (timeout t : Z)
  : gmap Z entry :=
  <[key := mkEntry v (t + timeout)]> c.

(** [if x:] for the result of [cache.get]: neither [None] nor empty. *)
Definition truthy_opt (o : option string) : option string :=
  match o with
  | Some v => if Py.truthy v then Some v else None
  | None => None
  end.

(** [random.choice(seq)] with [rnd] the random draw: the element at a
    position below the length, an [IndexError] for an empty sequence. *)
Definition random_choice (rnd : nat) (l : list string) : result string :=
  match l with
  | [] => Raise IndexError
  | _ => Ok (nth (rnd mod length l) l "")
  end.

(** *** The handler *)

Definition tip_response (tip : string) (cached : bool) (day : Z) : Response :=
  mkResponse HTTP_200_OK
    (JObj [("tip", JStr tip); ("cached", JBool cached); ("date", JDate day)]).

Definition fallback_response (tip : string) (cached : bool) (day : Z) : Response :=
  mkResponse HTTP_200_OK
    (JObj [("tip", JStr tip); ("cached", JBool cached); ("fallback", JBool true);
           ("date", JDate day)]).

Section Handler.
Variable generate : gen_request -> result string.

(** The [try] block, entered at time [t0]; the model call, when it is
    made, returns or raises at time [t0 + dt]. *)
Definition try_block (c : gmap Z entry) (t0 dt : Z)
  : result Response * gmap Z entry * list gen_request :=
  let today := date_of t0 in
  let cache_key := today in
  match truthy_opt (cache_get c cache_key t0) with
  | Some cached_tip => (Ok (tip_response cached_tip true today), c, [])
  | None =>
      match generate tip_request with
      | Ok text =>
          let tip := Py.strip text in
          (Ok (tip_response tip false today),
           cache_set c cache_key tip (60 * 60 * 48) (t0 + dt),
           [tip_request])
      | Raise e => (Raise e, c, [tip_request])
      end
  end.

(** The [except Exception] block, entered at time [t]. *)
Definition except_block (c : gmap Z entry) (t : Z) (rnd : nat) : result Response :=
  let yesterday := date_of (t - one_day) in
  match truthy_opt (cache_get c yesterday t) with
  | Some yesterday_tip => Ok (fallback_response yesterday_tip true yesterday)
  | None =>
      match random_choice rnd DEFAULT_FALLBACK_TIPS with
      | Ok fallback_tip => Ok (fallback_response fallback_tip false (date_of t))
      | Raise e => Raise e
      end
  end.

Definition get_daily_farming_tip (c : gmap Z entry) (t0 dt : Z) (rnd : nat)
  : result Response * gmap Z entry * list gen_request :=
  match try_block c t0 dt with
  | (Ok r, c', calls) => (Ok r, c', calls)
  | (Raise _, c', calls) => (except_block c' (t0 + dt) rnd, c', calls)
  end.

End Handler.

End Tip.

(** ** The community feed ([community_views.py], [models.CommunityPost],
    [models.PostLike], [models.PostComment]) *)

Module Community.

Record CommunityPost := mkPost {
  post_pk : nat;
  author : nat;                (* foreign key to the user *)
  post_content : string;
  tags : list string;
  post_created_at : Z;
  post_updated_at : Z
}.

Record PostLike := mkLike {
  like_pk : nat;
  like_user : nat;             (* unique together with [like_post] *)
  like_post : nat;
  like_created_at : Z
}.

Record PostComment := mkComment {
  comment_pk : nat;
  comment_user : nat;
  comment_post : nat;
  comment_content : string;
  comment_created_at : Z;
  comment_updated_at : Z
}.

Record DB := mkDB {
  posts : list CommunityPost;
  likes : list PostLike;
  comments : list PostComment;
  next_pk : nat;               (* the next primary key, of any table *)
  now : Z
}.

(** *** The model layer *)

(** [CommunityPost.objects.get(pk=pk)]; the primary key is unique. *)
Definition CommunityPost_get (d : DB) (pk : nat) : result CommunityPost :=
  match List.find (fun p => (post_pk p =? pk)%nat) (posts d) with
  | Some p => Ok p
  | None => Raise DoesNotExist
  end.

Definition is_like_of (user : nat) (post : CommunityPost) (l : PostLike) : bool :=
  (like_user l =? user)%nat && (like_post l =? post_pk post)%nat.

(** [PostLike.objects.filter(user=user, post=post).exists()]. *)
Definition like_exists (d : DB) (user : nat) (post : CommunityPost) : bool :=
  existsb (is_like_of user post) (likes d).

(** [PostLike.objects.filter(user=user, post=post).delete()]. *)
Definition PostLike_delete (d : DB) (user : nat) (post : CommunityPost) : DB :=
  mkDB (posts d) (List.filter (fun l => negb (is_like_of user post l)) (likes d))
       (comments d) (next_pk d) (now d).

(** [PostLike.objects.create(user=user, post=post)]; the pair is unique. *)
Definition PostLike_create (d : DB) (user : nat) (post : CommunityPost) : result DB :=
  if existsb (is_like_of user post) (likes d) then Raise IntegrityError
  else Ok (mkDB (posts d)
                (likes d ++ [mkLike (next_pk d) user (post_pk post) (now d)])
                (comments d) (S (next_pk d)) (now d + 1)).

(** [post.likes.count()] and [post.comments.count()], the properties
    [likes_count] and [comments_count] of the model. *)
Definition likes_count (d : DB) (post : CommunityPost) : nat :=
  length (List.filter (fun l => (like_post l =? post_pk post)%nat) (likes d)).

Definition comments_count (d : DB) (post : CommunityPost) : nat :=
  length (List.filter (fun c => (comment_post c =? post_pk post)%nat) (comments d)).

(** [instance.delete()] of a post, with the cascade to its likes and
    comments. *)
Definition CommunityPost_delete (d : DB) (post : CommunityPost) : DB :=
  mkDB (List.filter (fun p => negb (post_pk p =? post_pk post)%nat) (posts d))
       (List.filter (fun l => negb (like_post l =? post_pk post)%nat) (likes d))
       (List.filter (fun c => negb (comment_post c =? post_pk post)%nat) (comments d))
       (next_pk d) (now d).

(** [instance.save()] of a post that is stored: [updated_at] takes the
    current time. *)
Definition stamped (d : DB) (post : CommunityPost) : CommunityPost :=
  mkPost (post_pk post) (author post) (post_content post) (tags post)
         (post_created_at post) (now d).

Definition CommunityPost_save (d : DB) (post : CommunityPost) : DB :=
  let post' := stamped d post in
  mkDB (List.map (fun p => if (post_pk p =? post_pk post)%nat then post' else p) (posts d))
       (likes d) (comments d) (next_pk d) (now d + 1).

(** [PostComment.objects.get(pk=comment_id, post_id=pk)]. *)
Definition PostComment_get (d : DB) (comment_id pk : nat) : result PostComment :=
  match List.find (fun c => (comment_pk c =? comment_id)%nat && (comment_post c =? pk)%nat)
                  (comments d) with
  | Some c => Ok c
  | None => Raise DoesNotExist
  end.

Definition PostComment_delete (d : DB) (c : PostComment) : DB :=
  mkDB (posts d) (likes d)
       (List.filter (fun c' => negb (comment_pk c' =? comment_pk c)%nat) (comments d))
       (next_pk d) (now d).

(** *** The serializer *)

(** [CommunityPostSerializer], without the fields of the author and of the
    image. *)
Definition serialize_post (d : DB) (user : nat) (p : CommunityPost) : json :=
  JObj [("id", JNum (Z.of_nat (post_pk p)));
        ("content", JStr (post_content p));
        ("tags", JList (List.map JStr (tags p)));
        ("likes_count", JNum (Z.of_nat (likes_count d p)));
        ("comments_count", JNum (Z.of_nat (comments_count d p)));
        ("is_liked", JBool (like_exists d user p));
        ("created_at", JNum (post_created_at p));
        ("updated_at", JNum (post_updated_at p))].

(** The validated fields of an update; [None] leaves the field alone. *)
Record post_attrs := mkAttrs {
  a_content : option string;
  a_tags : option (list string)
}.

Definition apply_attrs (a : post_attrs) (p : CommunityPost) : CommunityPost :=
  mkPost (post_pk p) (author p)
         (default (post_content p) (a_content a))
         (default (tags p) (a_tags a))
         (post_created_at p) (post_updated_at p).

(** *** The handlers *)

(** [toggle_post_like]. *)
Definition toggle_post_like (d : DB) (user pk : nat) : Response * DB :=
  match CommunityPost_get d pk with
  | Raise _ =>
      (mkResponse HTTP_404_NOT_FOUND (JObj [("error", JStr "Post not found")]), d)
  | Ok post =>
      if like_exists d user post then
        let d' := PostLike_delete d user post in
        (mkResponse HTTP_200_OK
           (JObj [("message", JStr "Post unliked"); ("liked", JBool false);
                  ("likes_count", JNum (Z.of_nat (likes_count d' post)))]), d')
      else
        match PostLike_create d user post with
        | Ok d' =>
            (mkResponse HTTP_200_OK
               (JObj [("message", JStr "Post liked"); ("liked", JBool true);
                      ("likes_count", JNum (Z.of_nat (likes_count d' post)))]), d')
        | Raise e => (exception_handler e, d)
        end
  end.

(** [delete_comment]. *)
Definition delete_comment (d : DB) (user pk comment_id : nat) : Response * DB :=
  match PostComment_get d comment_id pk with
  | Raise _ =>
      (mkResponse HTTP_404_NOT_FOUND (JObj [("error", JStr "Comment not found")]), d)
  | Ok comment =>
      if negb (comment_user comment =? user)%nat then
        (mkResponse HTTP_403_FORBIDDEN
           (JObj [("error", JStr "You can only delete your own comments")]), d)
      else
        (mkResponse HTTP_204_NO_CONTENT
           (JObj [("message", JStr "Comment deleted successfully")]),
         PostComment_delete d comment)
  end.

(** [CommunityPostDetailView]: the generic view's [get_object], the two
    hooks the class overrides, and the generic [update] and [destroy]
    around them.  The class overrides neither [update] nor [destroy], so
    an exception of a hook goes to the framework. *)
Definition get_object (d : DB) (pk : nat) : result CommunityPost :=
  match CommunityPost_get d pk with
  | Ok p => Ok p
  | Raise _ => Raise Http404
  end.

Definition perform_update (d : DB) (user : nat) (instance : CommunityPost)
    (a : post_attrs) : result DB :=
  if negb (author instance =? user)%nat
  then Raise (PermissionError "You can only edit your own posts")
  else Ok (CommunityPost_save d (apply_attrs a instance)).

Definition perform_destroy (d : DB) (user : nat) (instance : CommunityPost) : result DB :=
  if negb (author instance =? user)%nat
  then Raise (PermissionError "You can only delete your own posts")
  else Ok (CommunityPost_delete d instance).

Section DetailView.
(** The field validation of the serializer on the body of the request:
    the validated fields, or the errors of a [ValidationError]. *)
Context {payload : Type} (to_internal_value : payload -> post_attrs + json).

(** [serializer.is_valid(raise_exception=True)]. *)
Definition is_valid (body : payload) : result post_attrs :=
  match to_internal_value body with
  | inl a => Ok a
  | inr errors => Raise (ValidationError errors)
  end.

Definition update (d : DB) (user pk : nat) (body : payload) : Response * DB :=
  match get_object d pk with
  | Raise e => (exception_handler e, d)
  | Ok instance =>
      match is_valid body with
      | Raise e => (exception_handler e, d)
      | Ok a =>
          match perform_update d user instance a with
          | Raise e => (exception_handler e, d)
          | Ok d' =>
              (mkResponse HTTP_200_OK
                 (serialize_post d' user (stamped d (apply_attrs a instance))), d')
          end
      end
  end.
End DetailView.

Definition destroy (d : DB) (user pk : nat) : Response * DB :=
  match get_object d pk with
  | Raise e => (exception_handler e, d)
  | Ok instance =>
      match perform_destroy d user instance with
      | Raise e => (exception_handler e, d)
      | Ok d' => (mkResponse HTTP_204_NO_CONTENT JNull, d')
      end
  end.

(** *** Requests in flight *)

(** A request to [toggle_post_like] reads the post, asks whether the like
    exists, then deletes or inserts according to the answer it got. *)
Inductive like_request : Type :=
| LStart (user pk : nat)
| LFound (user : nat) (post : CommunityPost)
| LChecked (user : nat) (post : CommunityPost) (found : bool)
| LDone (r : Response).

(** One database access of a request (the count of the response is read
    with the write). *)
Definition like_step (d : DB) (rq : like_request) : DB * like_request :=
  match rq with
  | LStart user pk =>
      match CommunityPost_get d pk with
      | Ok post => (d, LFound user post)
      | Raise _ =>
          (d, LDone (mkResponse HTTP_404_NOT_FOUND (JObj [("error", JStr "Post not found")])))
      end
  | LFound user post => (d, LChecked user post (like_exists d user post))
  | LChecked user post true =>
      let d' := PostLike_delete d user post in
      (d', LDone (mkResponse HTTP_200_OK
                    (JObj [("message", JStr "Post unliked"); ("liked", JBool false);
                           ("likes_count", JNum (Z.of_nat (likes_count d' post)))])))
  | LChecked user post false =>
      match PostLike_create d user post with
      | Ok d' =>
          (d', LDone (mkResponse HTTP_200_OK
                        (JObj [("message", JStr "Post liked"); ("liked", JBool true);
                               ("likes_count", JNum (Z.of_nat (likes_count d' post)))])))
      | Raise e => (d, LDone (exception_handler e))
      end
  | LDone r => (d, LDone r)
  end.

(** Requests in flight and a schedule: each entry names the request that
    makes its next access. *)
Fixpoint run_likes (sched : list nat) (d : DB) (rqs : list like_request)
  : DB * list like_request :=
  match sched with
  | [] => (d, rqs)
  | i :: rest =>
      match nth_error rqs i with
      | Some rq =>
          let '(d', rq') := like_step d rq in
          run_likes rest d' (firstn i rqs ++ rq' :: skipn (S i) rqs)
      | None => run_likes rest d rqs
      end
  end.

End Community.

(** ** The tutorial catalog ([lms_views.py], [models.Tutorial],
    [serializers.TutorialSerializer]) *)

Module Lms.

Record User := mkUser {
  user_pk : nat;
  username : string;
  user_type : string
}.

Record Tutorial := mkTutorial {
  tutorial_pk : nat;
  uploader : nat;              (* foreign key to the user *)
  title : string;
  description : string;
  category : string;
  video : string;              (* the stored file's name *)
  view_count : Z
}.

Record DB := mkDB {
  tutorials : list Tutorial;
  next_pk : nat
}.

(** The validated fields of an upload. *)
Record tutorial_attrs := mkAttrs {
  a_title : string;
  a_description : string;
  a_category : string;
  a_video : string
}.

Record Request := mkRequest {
  method : string;
  user : User
}.

(** *** Creating a tutorial *)

(** [TutorialSerializer.validate]; [request] is [self.context.get('request')]. *)
Definition validate (request : option Request) (attrs : tutorial_attrs)
  : result tutorial_attrs :=
  match request with
  | Some r =>
      if (method r =? "POST")%string
         && negb (user_type (user r) =? "extension_worker")%string
      then Raise (ValidationError
                    (JObj [("non_field_errors",
                            JList [JStr "Only extension workers can upload tutorials"])]))
      else Ok attrs
  | None => Ok attrs
  end.

(** [Tutorial.objects.create] on the validated data, with the uploader
    the serializer's [create] sets. *)
Definition Tutorial_create (d : DB) (u : User) (a : tutorial_attrs) : Tutorial * DB :=
  let t := mkTutorial (next_pk d) (user_pk u) (a_title a) (a_description a)
                      (a_category a) (a_video a) 0 in
  (t, mkDB (tutorials d ++ [t]) (S (next_pk d))).

(** [TutorialListCreateView.perform_create]. *)
Definition perform_create (d : DB) (request : Request) (a : tutorial_attrs)
  : result (Tutorial * DB) :=
  let user_type' := Py.lower (Py.strip (user_type (user request))) in
  if negb (user_type' =? "extension_worker")%string then
    Raise (PermissionError
             ("Only extension workers can upload tutorials. Your user type is: "
                ++ user_type (user request))%string)
  else Ok (Tutorial_create d (user request) a).

Definition serialize_tutorial (t : Tutorial) : json :=
  JObj [("id", JNum (Z.of_nat (tutorial_pk t)));
        ("title", JStr (title t));
        ("description", JStr (description t));
        ("category", JStr (category t));
        ("video", JStr (video t));
        ("uploader_id", JNum (Z.of_nat (uploader t)));
        ("view_count", JNum (view_count t))].

Section CreateView.
(** The validation of the single fields of the body ([validate_category],
    [validate_video], [validate_thumbnail] and the required fields), which
    runs before [validate]: the validated fields, or the errors of a
    [ValidationError]. *)
Context {payload : Type} (to_internal_value : payload -> tutorial_attrs + json).

(** [serializer.is_valid(raise_exception=True)]. *)
Definition is_valid (request : Request) (body : payload) : result tutorial_attrs :=
  match to_internal_value body with
  | inl a => validate (Some request) a
  | inr errors => Raise (ValidationError errors)
  end.

(** The generic [create] of the framework: validate, then the hook, then
    the 201. *)
Definition super_create (d : DB) (request : Request) (body : payload)
  : result (Response * DB) :=
  match is_valid request body with
  | Raise e => Raise e
  | Ok a =>
      match perform_create d request a with
      | Raise e => Raise e
      | Ok (t, d') => Ok (mkResponse HTTP_201_CREATED (serialize_tutorial t), d')
      end
  end.

(** [TutorialListCreateView.create]: a [PermissionError] becomes the 403,
    any other exception goes to the framework. *)
Definition create (d : DB) (request : Request) (body : payload) : Response * DB :=
  match super_create d request body with
  | Ok (r, d') => (r, d')
  | Raise (PermissionError msg) =>
      (mkResponse HTTP_403_FORBIDDEN (JObj [("error", JStr msg)]), d)
  | Raise e => (exception_handler e, d)
  end.
End CreateView.

(** [my_tutorials], the neighbour that checks the same role itself. *)
Definition my_tutorials (d : DB) (request : Request) : Response :=
  let user_type' := Py.lower (Py.strip (user_type (user request))) in
  if negb (user_type' =? "extension_worker")%string then
    mkResponse HTTP_403_FORBIDDEN
      (JObj [("error", JStr "Only extension workers can access this endpoint");
             ("user_type", JStr (user_type (user request)));
             ("detail", JStr ("Your user type is '" ++ user_type (user request)
                              ++ "', but 'extension_worker' is required")%string)])
  else
    mkResponse HTTP_200_OK
      (JList (List.map serialize_tutorial
                (List.filter (fun t => (uploader t =? user_pk (user request))%nat)
                             (tutorials d)))).

(** *** Counting views *)

(** [Tutorial.objects.get(pk=pk)]. *)
Definition Tutorial_get (d : DB) (pk : nat) : result Tutorial :=
  match List.find (fun t => (tutorial_pk t =? pk)%nat) (tutorials d) with
  | Some t => Ok t
  | None => Raise DoesNotExist
  end.

(** [self.save(update_fields=['view_count'])]: the row of that key takes
    the instance's count (the row is there: nothing here deletes a
    tutorial). *)
Definition save_view_count (d : DB) (instance : Tutorial) : DB :=
  mkDB (List.map (fun t =>
                    if (tutorial_pk t =? tutorial_pk instance)%nat
                    then mkTutorial (tutorial_pk t) (uploader t) (title t) (description t)
                                    (category t) (video t) (view_count instance)
                    else t) (tutorials d))
       (next_pk d).

(** [Tutorial.increment_view_count] on an instance read earlier. *)
Definition increment_view_count (d : DB) (self : Tutorial) : Tutorial * DB :=
  let self' := mkTutorial (tutorial_pk self) (uploader self) (title self) (description self)
                          (category self) (video self) (view_count self + 1) in
  (self', save_view_count d self').

(** [increment_views], run from start to end with nothing in between. *)
Definition increment_views (d : DB) (pk : nat) : Response * DB :=
  match Tutorial_get d pk with
  | Raise _ =>
      (mkResponse HTTP_404_NOT_FOUND (JObj [("error", JStr "Tutorial not found")]), d)
  | Ok tutorial =>
      let '(tutorial', d') := increment_view_count d tutorial in
      (mkResponse HTTP_200_OK
         (JObj [("message", JStr "View count incremented");
                ("view_count", JNum (view_count tutorial'))]), d')
  end.

(** *** Requests in flight *)





Definition views_of (d : DB) (pk : nat) : option Z :=
  match Tutorial_get d pk with
  | Ok t => Some (view_count t)
  | Raise _ => None
  end.

End Lms.

(** ** Properties of the chat handlers *)

Module ChatFacts.
Import Chat.

(** *** Text helpers on examples *)

Example strip_example :
  Py.strip "  How do I store maize?
" = "How do I store maize?".
Proof. reflexivity. Qed.

Example strip_blank : Py.truthy (Py.strip "   ") = false.
Proof. reflexivity. Qed.

Example lower_example : Py.lower (Py.strip " Extension_Worker ") = "extension_worker".
Proof. reflexivity. Qed.

(** *** Sorting *)

Section OrderByFacts.
Context {A : Type} (key : A -> Z).

Lemma insert_by_le_all (x : A) (l : list A) :
  Forall (fun y => key x <= key y) l -> insert_by key x l = x :: l.
Proof.
  destruct l as [|y r]; simpl; [reflexivity|].
  intros H. inversion H as [|? ? Hy _]; subst.
  apply Z.leb_le in Hy. now rewrite Hy.
Qed.

Lemma order_by_cons (x : A) (l : list A) :
  order_by key (x :: l) = insert_by key x (order_by key l).
Proof. reflexivity. Qed.

(** A queryset whose rows already come in ascending order of the column
    is returned as it is. *)
Lemma order_by_sorted (l : list A) :
  StronglySorted (fun a b => key a <= key b) l -> order_by key l = l.
Proof.
  induction 1 as [|a l Hs IH Ha]; [reflexivity|].
  rewrite order_by_cons, IH. now apply insert_by_le_all.
Qed.

Lemma insert_by_In (x y : A) (l : list A) :
  In y (insert_by key x l) <-> y = x \/ In y l.
Proof.
  induction l as [|z r IH]; simpl.
  - intuition.
  - destruct (key x <=? key z); simpl; rewrite ?IH; intuition.
Qed.

Lemma order_by_In (y : A) (l : list A) :
  In y (order_by key l) <-> In y l.
Proof.
  induction l as [|x r IH]; [simpl; tauto|].
  rewrite order_by_cons, insert_by_In, IH. simpl. intuition.
Qed.

Lemma insert_by_length (x : A) (l : list A) :
  length (insert_by key x l) = S (length l).
Proof.
  induction l as [|z r IH]; simpl; [reflexivity|].
  destruct (key x <=? key z); simpl; congruence.
Qed.

Lemma order_by_length (l : list A) : length (order_by key l) = length l.
Proof.
  induction l as [|x r IH]; [reflexivity|].
  rewrite order_by_cons, insert_by_length, IH. reflexivity.
Qed.
End OrderByFacts.

Lemma StronglySorted_filter {A : Type} (R : A -> A -> Prop) (p : A -> bool) (l : list A) :
  StronglySorted R l -> StronglySorted R (List.filter p l).
Proof.
  induction 1 as [|a l Hs IH Ha]; simpl; [constructor|].
  destruct (p a); [|exact IH].
  constructor; [exact IH|].
  rewrite Forall_forall in *. intros x Hx. apply filter_In in Hx. apply Ha, Hx.
Qed.

Lemma StronglySorted_weaken {A : Type} (R S : A -> A -> Prop) (l : list A) :
  (forall a b, R a b -> S a b) -> StronglySorted R l -> StronglySorted S l.
Proof.
  intros HRS. induction 1 as [|a l Hs IH Ha]; constructor; [exact IH|].
  eapply Forall_impl; [|exact Ha]. intros b. apply HRS.
Qed.

Lemma StronglySorted_snoc {A : Type} (R : A -> A -> Prop) (l : list A) (x : A) :
  StronglySorted R l -> Forall (fun a => R a x) l -> StronglySorted R (l ++ [x]).
Proof.
  induction 1 as [|a l Hs IH Ha]; simpl; intros Hx.
  - repeat constructor.
  - inversion Hx; subst. constructor; [now apply IH|].
    apply Forall_app. split; [exact Ha|]. now constructor.
Qed.

(** *** The invariant of the database *)

Definition before (a b : ChatMessage) : Prop := cm_created_at a < cm_created_at b.

Record wf (d : DB) : Prop := mkWf {
  wf_msgs_sorted : StronglySorted before (chat_messages d);
  wf_msgs_past : Forall (fun m => cm_created_at m < now d) (chat_messages d);
  wf_msgs_fk : Forall (fun m => (cm_session m < next_session_pk d)%nat) (chat_messages d);
  wf_pk_unique : NoDup (List.map cs_pk (chat_sessions d));
  wf_pk_bound : Forall (fun s => (cs_pk s < next_session_pk d)%nat) (chat_sessions d);
  wf_sid_unique : NoDup (List.map session_id (chat_sessions d));
  wf_sess_past : Forall (fun s => cs_updated_at s < now d) (chat_sessions d)
}.

Lemma wf_empty (t0 : Z) : wf (empty_db t0).
Proof. split; simpl; constructor. Qed.

Lemma wf_ChatMessage_create (d : DB) (s : ChatSession) (r m : string) :
  wf d -> (cs_pk s < next_session_pk d)%nat -> wf (ChatMessage_create d s r m).
Proof.
  intros [Hs Hp Hfk Hu Hb Hsid Hsp] Hlt. split; simpl; try assumption.
  - apply StronglySorted_snoc; [exact Hs|].
    eapply Forall_impl; [|exact Hp]. intros a Ha. exact Ha.
  - apply Forall_app. split.
    + eapply Forall_impl; [|exact Hp]. simpl. intros; lia.
    + repeat constructor. simpl. lia.
  - apply Forall_app. split; [exact Hfk|]. repeat constructor. exact Hlt.
  - eapply Forall_impl; [|exact Hsp]. simpl. intros; lia.
Qed.

Lemma NoDup_map_eq {A B : Type} (f : A -> B) (l : list A) (x y : A) :
  NoDup (List.map f l) -> In x l -> In y l -> f x = f y -> x = y.
Proof.
  induction l as [|a l IH]; simpl; [tauto|].
  intros Hnd Hx Hy Hf. inversion Hnd as [|? ? Hna Hnd']; subst.
  destruct Hx as [->|Hx], Hy as [->|Hy]; try reflexivity.
  - exfalso. apply Hna. rewrite Hf. now apply in_map.
  - exfalso. apply Hna. rewrite <- Hf. now apply in_map.
  - now apply IH.
Qed.

(** *** Looking a session up *)

Lemma ChatSession_get_Ok (d : DB) (sid : string) (user : nat) (s : ChatSession) :
  ChatSession_get d sid user = Ok s ->
  In s (chat_sessions d) /\ session_id s = sid /\ cs_user s = user.
Proof.
  unfold ChatSession_get.
  destruct (List.filter _ _) as [|a [|b r]] eqn:E; try discriminate.
  intros [= ->].
  assert (In s (List.filter (session_matches sid user) (chat_sessions d))) as Hin
    by (rewrite E; now left).
  apply filter_In in Hin. destruct Hin as [Hin Hm].
  unfold session_matches in Hm. apply andb_true_iff in Hm. destruct Hm as [H1 H2].
  apply String.eqb_eq in H1. apply Nat.eqb_eq in H2. auto.
Qed.

(** No row of that identifier belongs to the caller: either the identifier
    is unknown or its session is somebody else's. *)
Definition not_visible (d : DB) (sid : string) (user : nat) : Prop :=
  forall s, In s (chat_sessions d) -> session_id s = sid -> cs_user s <> user.

Lemma ChatSession_get_not_visible (d : DB) (sid : string) (user : nat) :
  not_visible d sid user -> ChatSession_get d sid user = Raise DoesNotExist.
Proof.
  intros Hnv. unfold ChatSession_get.
  destruct (List.filter _ _) as [|a r] eqn:E; [reflexivity|].
  assert (In a (List.filter (session_matches sid user) (chat_sessions d))) as Hin
    by (rewrite E; now left).
  apply filter_In in Hin. destruct Hin as [Hin Hm].
  unfold session_matches in Hm. apply andb_true_iff in Hm. destruct Hm as [H1 H2].
  apply String.eqb_eq in H1. apply Nat.eqb_eq in H2.
  exfalso. exact (Hnv a Hin H1 H2).
Qed.

(** *** Saving a session *)

Definition upd_row (s' : ChatSession) (pk : nat) (r : ChatSession) : ChatSession :=
  if (cs_pk r =? pk)%nat then s' else r.

Definition saved (d : DB) (s : ChatSession) : ChatSession :=
  mkChatSession (cs_pk s) (cs_user s) (session_id s) (cs_created_at s) (now d) (is_active s).

Lemma existsb_pk (l : list ChatSession) (s0 : ChatSession) :
  In s0 l -> existsb (fun r => (cs_pk r =? cs_pk s0)%nat) l = true.
Proof.
  intros Hin. apply existsb_exists. exists s0. split; [exact Hin|apply Nat.eqb_refl].
Qed.

Lemma ChatSession_save_rows (d : DB) (s s0 : ChatSession) :
  In s0 (chat_sessions d) -> cs_pk s = cs_pk s0 ->
  chat_sessions (ChatSession_save d s)
  = List.map (upd_row (saved d s) (cs_pk s)) (chat_sessions d).
Proof.
  intros Hin Hpk. unfold ChatSession_save. simpl.
  assert (existsb (fun r => (cs_pk r =? cs_pk s)%nat) (chat_sessions d) = true) as ->
    by (rewrite Hpk; now apply existsb_pk).
  reflexivity.
Qed.

Lemma upd_row_eq (s' r : ChatSession) (pk : nat) :
  cs_pk r = pk -> upd_row s' pk r = s'.
Proof. intros <-. unfold upd_row. now rewrite Nat.eqb_refl. Qed.

Lemma upd_row_neq (s' r : ChatSession) (pk : nat) :
  cs_pk r <> pk -> upd_row s' pk r = r.
Proof. intros H. unfold upd_row. apply Nat.eqb_neq in H. now rewrite H. Qed.

Lemma filter_map_upd (p : ChatSession -> bool) (s' s0 : ChatSession) (l : list ChatSession) :
  (forall r, In r l -> cs_pk r = cs_pk s0 -> r = s0) ->
  p s' = p s0 ->
  List.filter p (List.map (upd_row s' (cs_pk s0)) l)
  = List.map (upd_row s' (cs_pk s0)) (List.filter p l).
Proof.
  intros Hdet Hp. induction l as [|r l IH]; simpl; [reflexivity|].
  assert (forall r', In r' l -> cs_pk r' = cs_pk s0 -> r' = s0) as Hdet'
    by (intros r' Hr'; apply Hdet; now right).
  specialize (IH Hdet').
  destruct (Nat.eq_dec (cs_pk r) (cs_pk s0)) as [E|E].
  - rewrite (upd_row_eq s' r _ E).
    rewrite (Hdet r (or_introl eq_refl) E), Hp.
    destruct (p s0); simpl; rewrite IH; [|reflexivity].
    now rewrite (upd_row_eq s' s0 _ eq_refl).
  - rewrite (upd_row_neq s' r _ E).
    destruct (p r); simpl; rewrite IH; [|reflexivity].
    now rewrite (upd_row_neq s' r _ E).
Qed.

Lemma map_upd_proj {B : Type} (f : ChatSession -> B) (s' s0 : ChatSession) (l : list ChatSession) :
  (forall r, In r l -> cs_pk r = cs_pk s0 -> r = s0) ->
  f s' = f s0 ->
  List.map f (List.map (upd_row s' (cs_pk s0)) l) = List.map f l.
Proof.
  intros Hdet Hf. induction l as [|r l IH]; simpl; [reflexivity|].
  rewrite IH by (intros r' Hr'; apply Hdet; now right).
  f_equal. unfold upd_row. destruct (cs_pk r =? cs_pk s0)%nat eqn:E; [|reflexivity].
  apply Nat.eqb_eq in E. now rewrite (Hdet r (or_introl eq_refl) E).
Qed.

Lemma wf_pk_determines (d : DB) (s0 : ChatSession) :
  wf d -> In s0 (chat_sessions d) ->
  forall r, In r (chat_sessions d) -> cs_pk r = cs_pk s0 -> r = s0.
Proof.
  intros Hwf Hin r Hr Hpk. eapply NoDup_map_eq; eauto using wf_pk_unique.
Qed.

(** Saving an instance read from a row, whatever was changed in it apart
    from its key and its identifier, keeps the invariant. *)
Lemma wf_ChatSession_save (d : DB) (s s0 : ChatSession) :
  wf d -> In s0 (chat_sessions d) ->
  cs_pk s = cs_pk s0 -> session_id s = session_id s0 ->
  wf (ChatSession_save d s).
Proof.
  intros Hwf Hin Hpk Hsid.
  pose proof (wf_pk_determines d s0 Hwf Hin) as Hdet.
  pose proof (ChatSession_save_rows d s s0 Hin Hpk) as Hrows.
  destruct Hwf as [Hs Hp Hfk Hu Hb Hsu Hsp].
  split; try rewrite Hrows; try rewrite Hpk; simpl; try assumption.
  - eapply Forall_impl; [|exact Hp]. simpl. intros; lia.
  - now rewrite map_upd_proj.
  - apply Forall_forall. intros r Hr. apply in_map_iff in Hr.
    destruct Hr as [r0 [<- Hr0]]. unfold upd_row.
    rewrite Forall_forall in Hb.
    destruct (cs_pk r0 =? cs_pk s0)%nat; simpl; [rewrite Hpk|]; now apply Hb.
  - now rewrite map_upd_proj.
  - apply Forall_forall. intros r Hr. apply in_map_iff in Hr.
    destruct Hr as [r0 [<- Hr0]]. unfold upd_row.
    rewrite Forall_forall in Hsp. specialize (Hsp r0 Hr0).
    destruct (cs_pk r0 =? cs_pk s0)%nat; simpl; lia.
Qed.

Lemma ChatSession_get_save (d : DB) (s s0 : ChatSession) (sid : string) (user : nat) :
  wf d -> ChatSession_get d sid user = Ok s0 ->
  cs_pk s = cs_pk s0 -> session_id s = session_id s0 -> cs_user s = cs_user s0 ->
  ChatSession_get (ChatSession_save d s) sid user = Ok (saved d s).
Proof.
  intros Hwf Hget Hpk Hsid Hu.
  destruct (ChatSession_get_Ok _ _ _ _ Hget) as [Hin _].
  unfold ChatSession_get in *.
  rewrite (ChatSession_save_rows d s s0 Hin Hpk), Hpk.
  rewrite filter_map_upd.
  - destruct (List.filter _ (chat_sessions d)) as [|a [|b r]]; try discriminate.
    injection Hget as ->. simpl. unfold upd_row. now rewrite Nat.eqb_refl.
  - now apply wf_pk_determines.
  - unfold session_matches. simpl. now rewrite Hsid, Hu.
Qed.

(** *** Creating and deleting a session *)

Lemma ChatSession_get_ext (d1 d2 : DB) (sid : string) (user : nat) :
  chat_sessions d1 = chat_sessions d2 ->
  ChatSession_get d1 sid user = ChatSession_get d2 sid user.
Proof. unfold ChatSession_get. now intros ->. Qed.

Definition fresh_id (d : DB) (sid : string) : Prop :=
  forall s, In s (chat_sessions d) -> session_id s <> sid.

Lemma ChatSession_create_fresh (d : DB) (user : nat) (sid : string) :
  fresh_id d sid ->
  ChatSession_create d user sid
  = (Ok (mkChatSession (next_session_pk d) user sid (now d) (now d) true),
     mkDB (chat_sessions d ++ [mkChatSession (next_session_pk d) user sid (now d) (now d) true])
          (chat_messages d) (S (next_session_pk d)) (next_message_pk d) (now d + 1)).
Proof.
  intros Hf. unfold ChatSession_create.
  destruct (existsb _ _) eqn:E; [|reflexivity].
  apply existsb_exists in E. destruct E as [s [Hin Heq]].
  apply String.eqb_eq in Heq. now destruct (Hf s Hin).
Qed.

Lemma ChatSession_create_inv (d d' : DB) (user : nat) (sid : string) (r : result ChatSession) :
  ChatSession_create d user sid = (r, d') ->
  (r = Raise IntegrityError /\ d' = d) \/
  (fresh_id d sid /\
   r = Ok (mkChatSession (next_session_pk d) user sid (now d) (now d) true) /\
   d' = mkDB (chat_sessions d ++ [mkChatSession (next_session_pk d) user sid (now d) (now d) true])
             (chat_messages d) (S (next_session_pk d)) (next_message_pk d) (now d + 1)).
Proof.
  unfold ChatSession_create. destruct (existsb _ _) eqn:E; intros [= <- <-].
  - now left.
  - right. split; [|split; reflexivity].
    intros s Hin Heq.
    assert (existsb (fun s0 => (session_id s0 =? sid)%string) (chat_sessions d) = true) as H.
    { apply existsb_exists. exists s. split; [exact Hin|]. now apply String.eqb_eq. }
    congruence.
Qed.

Lemma NoDup_snoc {A : Type} (l : list A) (x : A) :
  NoDup l -> ~ In x l -> NoDup (l ++ [x]).
Proof.
  intros Hnd Hx. apply NoDup_app. repeat split.
  - exact Hnd.
  - repeat constructor. simpl. tauto.
  - intros a Ha [<-|[]]. now apply Hx.
Qed.

Lemma wf_ChatSession_create (d : DB) (user : nat) (sid : string) :
  wf d -> wf (snd (ChatSession_create d user sid)).
Proof.
  intros Hwf. destruct (ChatSession_create d user sid) as [r d'] eqn:E.
  apply ChatSession_create_inv in E. destruct E as [[_ ->]|[Hf [_ ->]]]; [exact Hwf|].
  destruct Hwf as [Hs Hp Hfk Hu Hb Hsu Hsp]. split; simpl.
  - exact Hs.
  - eapply Forall_impl; [|exact Hp]. simpl. intros; lia.
  - eapply Forall_impl; [|exact Hfk]. simpl. intros; lia.
  - rewrite map_app. simpl. apply NoDup_snoc; [exact Hu|].
    intros Hin. apply in_map_iff in Hin. destruct Hin as [s [Hpk Hin]].
    rewrite Forall_forall in Hb. specialize (Hb s Hin). lia.
  - apply Forall_app. split.
    + eapply Forall_impl; [|exact Hb]. simpl. intros; lia.
    + constructor; [simpl; lia|constructor].
  - rewrite map_app. simpl. apply NoDup_snoc; [exact Hsu|].
    intros Hin. apply in_map_iff in Hin. destruct Hin as [s [Hsid Hin]].
    exact (Hf s Hin Hsid).
  - apply Forall_app. split.
    + eapply Forall_impl; [|exact Hsp]. simpl. intros; lia.
    + repeat constructor. simpl. lia.
Qed.

Lemma NoDup_map_filter {A B : Type} (f : A -> B) (p : A -> bool) (l : list A) :
  NoDup (List.map f l) -> NoDup (List.map f (List.filter p l)).
Proof.
  induction l as [|a l IH]; simpl; [auto|].
  intros Hnd. inversion Hnd as [|? ? Hna Hnd']; subst.
  destruct (p a); simpl; [|now apply IH].
  constructor; [|now apply IH].
  intros Hin. apply Hna. apply in_map_iff in Hin. destruct Hin as [x [Hx Hin]].
  apply filter_In in Hin. apply in_map_iff. exists x. tauto.
Qed.

Lemma Forall_filter {A : Type} (P : A -> Prop) (p : A -> bool) (l : list A) :
  Forall P l -> Forall P (List.filter p l).
Proof.
  rewrite !Forall_forall. intros H x Hx. apply filter_In in Hx. apply H, Hx.
Qed.

Lemma wf_ChatSession_delete (d : DB) (s : ChatSession) :
  wf d -> wf (ChatSession_delete d s).
Proof.
  intros [Hs Hp Hfk Hu Hb Hsu Hsp]. split; simpl.
  - now apply StronglySorted_filter.
  - now apply Forall_filter.
  - now apply Forall_filter.
  - now apply NoDup_map_filter.
  - now apply Forall_filter.
  - now apply NoDup_map_filter.
  - now apply Forall_filter.
Qed.

(** *** The transcript is stored in creation order *)

Lemma messages_of_sorted (d : DB) (s : ChatSession) :
  wf d -> order_by cm_created_at (messages_of d s) = messages_of d s.
Proof.
  intros Hwf. apply order_by_sorted.
  apply StronglySorted_weaken with (R := before).
  - unfold before. intros; lia.
  - apply StronglySorted_filter, (wf_msgs_sorted d Hwf).
Qed.

(** *** One turn *)

Section Turn.
Variable generate : gen_request -> result string.
Variable SYSTEM_INSTRUCTION : string.
Variable str : exn -> string.

(** The two requests a turn sends: the system instruction on an empty
    chat, then the message on the chat that holds the instruction and
    the reply to it. *)
Definition system_request : gen_request :=
  mkRequest [mkContent "user" [SYSTEM_INSTRUCTION]] None.

Definition message_request (ack msg : string) : gen_request :=
  mkRequest [mkContent "user" [SYSTEM_INSTRUCTION]; mkContent "model" [ack];
             mkContent "user" [msg]] (Some chat_config).

(** The outcome of the model on a turn: the reply to the message, or the
    exception of the first call that fails. *)
Definition model_reply (msg : string) : result string :=
  match generate system_request with
  | Ok ack => generate (message_request ack msg)
  | Raise e => Raise e
  end.

Definition ok_response (reply sid : string) : Response :=
  mkResponse HTTP_200_OK (JObj [("response", JStr reply); ("session_id", JStr sid)]).

Lemma chat_turn_ok (d : DB) (s : ChatSession) (sid msg reply : string) :
  model_reply msg = Ok reply ->
  exists calls,
    chat_turn generate SYSTEM_INSTRUCTION str d s sid msg
    = (ok_response reply sid,
       ChatSession_save
         (ChatMessage_create (ChatMessage_create d s "user" msg) s "model" reply) s,
       calls).
Proof.
  unfold model_reply, chat_turn, send_message, system_request, message_request.
  simpl. destruct (generate _) as [ack|e]; [|discriminate].
  simpl. intros ->. eexists. reflexivity.
Qed.

Lemma chat_turn_fail (d : DB) (s : ChatSession) (sid msg : string) (e : exn) :
  model_reply msg = Raise e ->
  exists calls,
    chat_turn generate SYSTEM_INSTRUCTION str d s sid msg = (server_error str e, d, calls).
Proof.
  unfold model_reply, chat_turn, send_message, system_request, message_request.
  simpl. destruct (generate _) as [ack|e1].
  - simpl. intros ->. eexists. reflexivity.
  - intros [= ->]. eexists. reflexivity.
Qed.

(** The requests of a turn do not depend on the database or the session. *)
Lemma chat_turn_calls (d : DB) (s : ChatSession) (sid msg : string) :
  snd (chat_turn generate SYSTEM_INSTRUCTION str d s sid msg)
  = match generate system_request with
    | Ok ack => [system_request; message_request ack msg]
    | Raise _ => [system_request]
    end.
Proof.
  unfold chat_turn, send_message, system_request, message_request.
  simpl. destruct (generate _) as [ack|e]; [|reflexivity].
  simpl. destruct (generate _); reflexivity.
Qed.

Lemma chat_with_ai_existing (d : DB) (user : nat) (rq : ChatRequest)
    (uuid4 sid : string) (s : ChatSession) :
  Py.truthy (Py.strip (default "" (req_message rq))) = true ->
  req_session_id rq = Some sid -> Py.truthy sid = true ->
  ChatSession_get d sid user = Ok s ->
  chat_with_ai generate SYSTEM_INSTRUCTION str d user rq uuid4
  = chat_turn generate SYSTEM_INSTRUCTION str d s sid
      (Py.strip (default "" (req_message rq))).
Proof.
  intros Hm Hs Ht Hg. unfold chat_with_ai. now rewrite Hm, Hs, Ht, Hg.
Qed.

Lemma chat_with_ai_new (d : DB) (user : nat) (rq : ChatRequest) (uuid4 : string) :
  Py.truthy (Py.strip (default "" (req_message rq))) = true ->
  from_option Py.truthy false (req_session_id rq) = false ->
  fresh_id d uuid4 ->
  chat_with_ai generate SYSTEM_INSTRUCTION str d user rq uuid4
  = chat_turn generate SYSTEM_INSTRUCTION str
      (snd (ChatSession_create d user uuid4))
      (mkChatSession (next_session_pk d) user uuid4 (now d) (now d) true) uuid4
      (Py.strip (default "" (req_message rq))).
Proof.
  intros Hm Hs Hf. unfold chat_with_ai. rewrite Hm. simpl.
  rewrite (ChatSession_create_fresh d user uuid4 Hf).
  destruct (req_session_id rq) as [sid|]; simpl in *; [rewrite Hs|]; reflexivity.
Qed.

(** The rows a successful turn on session [s] appends when the clock
    reads [t]. *)
Definition turn_rows (d : DB) (s : ChatSession) (msg reply : string) (t : Z)
  : list ChatMessage :=
  [mkChatMessage (next_message_pk d) (cs_pk s) "user" msg t;
   mkChatMessage (S (next_message_pk d)) (cs_pk s) "model" reply (t + 1)].

Lemma turn_on_existing_ok (d : DB) (user : nat) (rq : ChatRequest)
    (uuid4 sid : string) (s : ChatSession) (reply : string) :
  wf d ->
  Py.truthy (Py.strip (default "" (req_message rq))) = true ->
  req_session_id rq = Some sid -> Py.truthy sid = true ->
  ChatSession_get d sid user = Ok s ->
  model_reply (Py.strip (default "" (req_message rq))) = Ok reply ->
  exists d' calls,
    chat_with_ai generate SYSTEM_INSTRUCTION str d user rq uuid4
    = (ok_response reply sid, d', calls) /\
    chat_messages d'
    = chat_messages d
        ++ turn_rows d s (Py.strip (default "" (req_message rq))) reply (now d) /\
    ChatSession_get d' sid user
    = Ok (mkChatSession (cs_pk s) (cs_user s) (session_id s) (cs_created_at s)
                        (now d + 2) (is_active s)) /\
    cs_updated_at s < now d + 2 /\
    wf d'.
Proof.
  intros Hwf Hm Hs Ht Hg Hr.
  rewrite (chat_with_ai_existing d user rq uuid4 sid s Hm Hs Ht Hg).
  destruct (chat_turn_ok d s sid _ reply Hr) as [calls ->].
  set (msg := Py.strip (default "" (req_message rq))).
  set (d2 := ChatMessage_create (ChatMessage_create d s "user" msg) s "model" reply).
  destruct (ChatSession_get_Ok _ _ _ _ Hg) as [Hin [Hsid Hu]].
  assert ((cs_pk s < next_session_pk d)%nat) as Hlt.
  { pose proof (wf_pk_bound d Hwf) as Hb. rewrite Forall_forall in Hb. now apply Hb. }
  assert (wf d2) as Hwf2.
  { unfold d2. apply wf_ChatMessage_create; [|exact Hlt].
    apply wf_ChatMessage_create; assumption. }
  assert (ChatSession_get d2 sid user = Ok s) as Hg2.
  { rewrite <- Hg. now apply ChatSession_get_ext. }
  exists (ChatSession_save d2 s), calls.
  split; [reflexivity|]. split; [|split; [|split]].
  - simpl. rewrite <- app_assoc. reflexivity.
  - rewrite (ChatSession_get_save d2 s s sid user Hwf2 Hg2 eq_refl eq_refl eq_refl).
    unfold saved, d2. simpl. do 2 f_equal. lia.
  - pose proof (wf_sess_past d Hwf) as Hp. rewrite Forall_forall in Hp.
    specialize (Hp s Hin). lia.
  - apply wf_ChatSession_save with (s0 := s); auto.
Qed.





(** *** The handlers keep the invariant *)

Lemma wf_chat_turn (d : DB) (s : ChatSession) (sid msg : string) :
  wf d -> In s (chat_sessions d) ->
  wf (snd (fst (chat_turn generate SYSTEM_INSTRUCTION str d s sid msg))).
Proof.
  intros Hwf Hin. unfold chat_turn, send_message. simpl.
  destruct (generate _) as [ack|e]; simpl; [|exact Hwf].
  destruct (generate _) as [reply|e]; simpl; [|exact Hwf].
  assert ((cs_pk s < next_session_pk d)%nat) as Hlt.
  { pose proof (wf_pk_bound d Hwf) as Hb. rewrite Forall_forall in Hb. now apply Hb. }
  apply wf_ChatSession_save with (s0 := s); auto.
  apply wf_ChatMessage_create; [|exact Hlt].
  apply wf_ChatMessage_create; assumption.
Qed.

Lemma wf_chat_with_ai (d : DB) (user : nat) (rq : ChatRequest) (uuid4 : string) :
  wf d ->
  wf (snd (fst (chat_with_ai generate SYSTEM_INSTRUCTION str d user rq uuid4))).
Proof.
  intros Hwf.
  assert (wf (snd (fst
            match ChatSession_create d user uuid4 with
            | (Ok s, d') => chat_turn generate SYSTEM_INSTRUCTION str d' s uuid4
                              (Py.strip (default "" (req_message rq)))
            | (Raise e, d') => (server_error str e, d', [])
            end))) as Hnew.
  { pose proof (wf_ChatSession_create d user uuid4 Hwf) as Hc.
    destruct (ChatSession_create d user uuid4) as [r d'] eqn:E.
    destruct (ChatSession_create_inv _ _ _ _ _ E) as [[-> ->]|[_ [-> Hd]]];
      [exact Hwf|].
    apply wf_chat_turn; [exact Hc|].
    rewrite Hd. simpl. apply in_or_app. right. now left. }
  unfold chat_with_ai.
  destruct (negb _); [exact Hwf|].
  destruct (req_session_id rq) as [sid|]; [|exact Hnew].
  destruct (Py.truthy sid); [|exact Hnew].
  destruct (ChatSession_get d sid user) as [s|e] eqn:Hg.
  - apply wf_chat_turn; [exact Hwf|]. now apply ChatSession_get_Ok in Hg.
  - destruct e; exact Hwf.
Qed.

Lemma wf_clear_chat_session (d : DB) (user : nat) (sid : option string) :
  wf d -> wf (snd (clear_chat_session str d user sid)).
Proof.
  intros Hwf. unfold clear_chat_session.
  destruct sid as [sid|]; [|exact Hwf].
  destruct (Py.truthy sid); [|exact Hwf].
  destruct (ChatSession_get d sid user) as [s|e] eqn:Hg.
  - simpl. apply ChatSession_get_Ok in Hg.
    apply wf_ChatSession_save with (s0 := s); tauto.
  - destruct e; exact Hwf.
Qed.

Lemma wf_delete_chat_session (d : DB) (user : nat) (sid : string) :
  wf d -> wf (snd (delete_chat_session d user sid)).
Proof.
  intros Hwf. unfold delete_chat_session.
  destruct (ChatSession_get d sid user) as [s|e].
  - now apply wf_ChatSession_delete.
  - destruct e; exact Hwf.
Qed.

(** Time passing between two requests. *)
Definition elapse (d : DB) (dt : Z) : DB :=
  mkDB (chat_sessions d) (chat_messages d) (next_session_pk d) (next_message_pk d)
       (now d + dt).

Lemma wf_elapse (d : DB) (dt : Z) : wf d -> 0 <= dt -> wf (elapse d dt).
Proof.
  intros [Hs Hp Hfk Hu Hb Hsu Hsp] Hdt. split; simpl; try assumption.
  - eapply Forall_impl; [|exact Hp]. simpl. intros; lia.
  - eapply Forall_impl; [|exact Hsp]. simpl. intros; lia.
Qed.

(** The states the service can be in: it starts with empty tables and
    runs requests one after the other. *)
Inductive reachable : DB -> Prop :=
| reach_empty (t0 : Z) : reachable (empty_db t0)
| reach_wait (d : DB) (dt : Z) :
    reachable d -> 0 <= dt -> reachable (elapse d dt)
| reach_chat (d : DB) (user : nat) (rq : ChatRequest) (uuid4 : string) :
    reachable d ->
    reachable (snd (fst (chat_with_ai generate SYSTEM_INSTRUCTION str d user rq uuid4)))
| reach_clear (d : DB) (user : nat) (sid : option string) :
    reachable d -> reachable (snd (clear_chat_session str d user sid))
| reach_delete (d : DB) (user : nat) (sid : string) :
    reachable d -> reachable (snd (delete_chat_session d user sid)).

Lemma reachable_wf (d : DB) : reachable d -> wf d.
Proof.
  induction 1.
  - apply wf_empty.
  - now apply wf_elapse.
  - now apply wf_chat_with_ai.
  - now apply wf_clear_chat_session.
  - now apply wf_delete_chat_session.
Qed.

(** *** The transcript across a turn *)


(** *** Unknown sessions and sessions of somebody else *)

Lemma unknown_not_visible (d : DB) (sid : string) (user : nat) :
  fresh_id d sid -> not_visible d sid user.
Proof. intros Hf s Hin Hsid. now destruct (Hf s Hin). Qed.

Lemma foreign_not_visible (d : DB) (sid : string) (user : nat) (s : ChatSession) :
  wf d -> In s (chat_sessions d) -> session_id s = sid -> cs_user s <> user ->
  not_visible d sid user.
Proof.
  intros Hwf Hin Hsid Hu r Hr Hrsid.
  assert (r = s) as ->; [|exact Hu].
  apply (NoDup_map_eq session_id (chat_sessions d)); auto using wf_sid_unique.
  congruence.
Qed.

Lemma chat_with_ai_not_visible (d : DB) (user : nat) (rq : ChatRequest)
    (uuid4 sid : string) :
  req_session_id rq = Some sid -> Py.truthy sid = true ->
  Py.truthy (Py.strip (default "" (req_message rq))) = true ->
  not_visible d sid user ->
  chat_with_ai generate SYSTEM_INSTRUCTION str d user rq uuid4 = (session_not_found, d, [])
  /\ get_chat_history d user sid = session_not_found.
Proof.
  intros Hs Ht Hm Hnv. unfold chat_with_ai, get_chat_history.
  rewrite Hm, Hs, Ht, (ChatSession_get_not_visible d sid user Hnv). auto.
Qed.

(** A chat request that carries a session identifier that is not empty
    (and a message that is not blank) is answered 200 only when a session
    of that identifier owned by the caller is stored.  When no session has the
    identifier, and when one has it but belongs to another user, the
    answer is the same 404 with the same body, the database is untouched
    and the model is not called; the history endpoint answers the two
    cases with that same 404. *)
Theorem chat_session_lookup_signals_alike
    (d : DB) (user : nat) (rq : ChatRequest) (uuid4 sid : string) :
  wf d ->
  req_session_id rq = Some sid -> Py.truthy sid = true ->
  Py.truthy (Py.strip (default "" (req_message rq))) = true ->
  (status (fst (fst (chat_with_ai generate SYSTEM_INSTRUCTION str d user rq uuid4))) = 200 ->
   exists s, In s (chat_sessions d) /\ session_id s = sid /\ cs_user s = user) /\
  ((forall s, In s (chat_sessions d) -> session_id s <> sid) ->
   chat_with_ai generate SYSTEM_INSTRUCTION str d user rq uuid4
   = (mkResponse 404 (JObj [("error", JStr "Session not found or access denied")]), d, [])
   /\ get_chat_history d user sid
      = mkResponse 404 (JObj [("error", JStr "Session not found or access denied")])) /\
  ((exists s, In s (chat_sessions d) /\ session_id s = sid /\ cs_user s <> user) ->
   chat_with_ai generate SYSTEM_INSTRUCTION str d user rq uuid4
   = (mkResponse 404 (JObj [("error", JStr "Session not found or access denied")]), d, [])
   /\ get_chat_history d user sid
      = mkResponse 404 (JObj [("error", JStr "Session not found or access denied")])).
Proof.
  intros Hwf Hs Ht Hm. split; [|split].
  - unfold chat_with_ai. rewrite Hm, Hs, Ht. simpl.
    destruct (ChatSession_get d sid user) as [s|e] eqn:Hg.
    + intros _. exists s. now apply ChatSession_get_Ok.
    + destruct e; simpl; discriminate.
  - intros Hf. apply chat_with_ai_not_visible; auto using unknown_not_visible.
  - intros [s [Hin [Hsid Hu]]].
    apply chat_with_ai_not_visible; eauto using foreign_not_visible.
Qed.

(** *** Cleared sessions *)

Definition listed (user : nat) (s : ChatSession) : bool :=
  (cs_user s =? user)%nat && is_active s.






End Turn.

(** *** What the model is sent *)

(** On an existing session the requests sent to the model are those of
    [model_reply]: they are built from the system instruction and the new
    message, whatever the stored transcript. *)
Lemma chat_with_ai_calls
    (generate : gen_request -> result string) (SYSTEM_INSTRUCTION : string)
    (str : exn -> string)
    (d : DB) (user : nat) (rq : ChatRequest) (uuid4 sid : string) (s : ChatSession) :
  Py.truthy (Py.strip (default "" (req_message rq))) = true ->
  req_session_id rq = Some sid -> Py.truthy sid = true ->
  ChatSession_get d sid user = Ok s ->
  snd (chat_with_ai generate SYSTEM_INSTRUCTION str d user rq uuid4)
  = match generate (system_request SYSTEM_INSTRUCTION) with
    | Ok ack => [system_request SYSTEM_INSTRUCTION;
                 message_request SYSTEM_INSTRUCTION ack
                   (Py.strip (default "" (req_message rq)))]
    | Raise _ => [system_request SYSTEM_INSTRUCTION]
    end.
Proof.
  intros Hm Hs Ht Hg.
  rewrite (chat_with_ai_existing generate SYSTEM_INSTRUCTION str d user rq uuid4 sid s
             Hm Hs Ht Hg).
  apply chat_turn_calls.
Qed.

(** A concrete service: a model that always gives the same advice. *)
Definition advisor (q : gen_request) : result string := Ok "Apply nitrogen fertilizer.".
Definition broken_model (q : gen_request) : result string := Raise (ModelError "503").
Definition instruction : string := "You are AgriGuide AI".
Definition str_of (e : exn) : string :=
  match e with
  | ModelError m => m
  | PermissionError m => m
  | _ => "error"
  end.

(** User 1 opens session [s-1] with a first question. *)
Definition db_one_turn : DB :=
  snd (fst (chat_with_ai advisor instruction str_of (empty_db 0) 1
              (mkChatRequest (Some "My maize leaves are yellow") None) "s-1")).

(** The same session before that turn was stored. *)
Definition db_no_turn : DB :=
  snd (ChatSession_create (empty_db 0) 1 "s-1").

Definition session_one : ChatSession := mkChatSession 1 1 "s-1" 0 3 true.

Definition next_question : ChatRequest :=
  mkChatRequest (Some "What should I do next?") (Some "s-1").

Lemma db_one_turn_wf : wf db_one_turn.
Proof. apply wf_chat_with_ai, wf_empty. Qed.

Lemma db_one_turn_messages :
  messages_of db_one_turn session_one
  = [mkChatMessage 1 1 "user" "My maize leaves are yellow" 1;
     mkChatMessage 2 1 "model" "Apply nitrogen fertilizer." 2].
Proof. reflexivity. Qed.

(** C1.  The session [s-1] holds a question and its answer; on the next
    turn the handler builds the conversation contents from them, and sends
    the model the system instruction alone and then the instruction, the
    reply to it and the new message: the same two requests as for the
    session with no message stored.  The stored transcript reaches no
    request. *)
Theorem chat_with_ai_drops_history
    (generate : gen_request -> result string) (SYSTEM_INSTRUCTION : string)
    (str : exn -> string) :
  build_contents (order_by cm_created_at (messages_of db_one_turn session_one))
    "What should I do next?"
  = [mkContent "user" ["My maize leaves are yellow"];
     mkContent "model" ["Apply nitrogen fertilizer."];
     mkContent "user" ["What should I do next?"]] /\
  snd (chat_with_ai generate SYSTEM_INSTRUCTION str db_one_turn 1 next_question "u")
  = match generate (mkRequest [mkContent "user" [SYSTEM_INSTRUCTION]] None) with
    | Ok ack =>
        [mkRequest [mkContent "user" [SYSTEM_INSTRUCTION]] None;
         mkRequest [mkContent "user" [SYSTEM_INSTRUCTION]; mkContent "model" [ack];
                    mkContent "user" ["What should I do next?"]] (Some chat_config)]
    | Raise _ => [mkRequest [mkContent "user" [SYSTEM_INSTRUCTION]] None]
    end /\
  snd (chat_with_ai generate SYSTEM_INSTRUCTION str db_one_turn 1 next_question "u")
  = snd (chat_with_ai generate SYSTEM_INSTRUCTION str db_no_turn 1 next_question "u").
Proof.
  split; [reflexivity|].
  rewrite (chat_with_ai_calls generate SYSTEM_INSTRUCTION str db_one_turn 1
             next_question "u" "s-1" session_one eq_refl eq_refl eq_refl eq_refl).
  rewrite (chat_with_ai_calls generate SYSTEM_INSTRUCTION str db_no_turn 1
             next_question "u" "s-1" (mkChatSession 1 1 "s-1" 0 0 true)
             eq_refl eq_refl eq_refl eq_refl).
  split; reflexivity.
Qed.

(** *** Instances *)


Lemma chat_session_lookup_signals_alike_witness :
  chat_with_ai advisor instruction str_of db_one_turn 2 next_question "u"
  = (mkResponse 404 (JObj [("error", JStr "Session not found or access denied")]),
     db_one_turn, []) /\
  chat_with_ai advisor instruction str_of db_one_turn 2
    (mkChatRequest (Some "What should I do next?") (Some "s-9")) "u"
  = (mkResponse 404 (JObj [("error", JStr "Session not found or access denied")]),
     db_one_turn, []).
Proof.
  split.
  - destruct (chat_session_lookup_signals_alike advisor instruction str_of
                db_one_turn 2 next_question "u" "s-1"
                db_one_turn_wf eq_refl eq_refl eq_refl) as [_ [_ H]].
    apply H. exists session_one. split; [now left|]. split; [reflexivity|discriminate].
  - destruct (chat_session_lookup_signals_alike advisor instruction str_of
                db_one_turn 2
                (mkChatRequest (Some "What should I do next?") (Some "s-9")) "u" "s-9"
                db_one_turn_wf eq_refl eq_refl eq_refl) as [_ [H _]].
    apply H. intros s [<-|[]]. discriminate.
Defined.

(** The session of [db_one_turn] after its owner has cleared it. *)
Definition db_cleared : DB :=
  snd (clear_chat_session str_of db_one_turn 1 (Some "s-1")).

Definition session_cleared : ChatSession := mkChatSession 1 1 "s-1" 0 4 false.



End ChatFacts.

(** ** Properties of the daily tip *)

Module TipFacts.
Import Tip.

(** *** The fallback pool *)

Lemma pool_length : length DEFAULT_FALLBACK_TIPS = 5%nat.
Proof. reflexivity. Qed.

Lemma pool_NoDup : NoDup DEFAULT_FALLBACK_TIPS.
Proof.
  unfold DEFAULT_FALLBACK_TIPS.
  repeat (constructor; [simpl; intuition discriminate|]). constructor.
Qed.

Lemma random_choice_pool (rnd : nat) :
  exists tip,
    random_choice rnd DEFAULT_FALLBACK_TIPS = Ok tip /\
    nth_error DEFAULT_FALLBACK_TIPS (rnd mod 5) = Some tip /\
    In tip DEFAULT_FALLBACK_TIPS.
Proof.
  assert (rnd mod 5 < 5)%nat as Hlt by (apply Nat.mod_upper_bound; lia).
  exists (nth (rnd mod 5) DEFAULT_FALLBACK_TIPS "").
  split; [reflexivity|]. split.
  - apply nth_error_nth'. exact Hlt.
  - apply nth_In. exact Hlt.
Qed.

(** *** Days *)

Lemma date_of_bounds (t : Z) : date_of t * 86400 <= t < (date_of t + 1) * 86400.
Proof.
  unfold date_of. pose proof (Z.div_mod t 86400 ltac:(lia)) as Hdm.
  pose proof (Z.mod_pos_bound t 86400 ltac:(lia)) as Hb. lia.
Qed.

(** *** The cache *)

(** Every entry lives to the end of the day after the day of its key:
    what [cache.set] with its 48 hours gives an entry set on the day of
    its key. *)
Definition cache_ok (c : gmap Z entry) : Prop :=
  forall (k : Z) (e : entry), c !! k = Some e -> ((k + 2) * 86400 <= expires e)%Z.

Lemma cache_ok_empty : cache_ok ∅.
Proof. intros k e H. rewrite lookup_empty in H. discriminate. Qed.

Lemma cache_ok_set (c : gmap Z entry) (t0 dt : Z) (v : string) :
  cache_ok c -> 0 <= dt ->
  cache_ok (cache_set c (date_of t0) v (60 * 60 * 48) (t0 + dt)).
Proof.
  intros Hc Hdt k e. unfold cache_set.
  destruct (Z.eq_dec k (date_of t0)) as [->|Hne].
  - rewrite lookup_insert_eq. intros [= <-]. simpl.
    pose proof (date_of_bounds t0). lia.
  - rewrite lookup_insert_ne by congruence. apply Hc.
Qed.


Lemma cache_get_set (c : gmap Z entry) (k : Z) (v : string) (timeout t t' : Z) :
  t' < t + timeout -> cache_get (cache_set c k v timeout t) k t' = Some v.
Proof.
  intros Hlt. unfold cache_get, cache_set. rewrite lookup_insert_eq. simpl.
  apply Z.ltb_lt in Hlt. now rewrite Hlt.
Qed.

Lemma truthy_opt_Some (o : option string) (v : string) :
  truthy_opt o = Some v <-> o = Some v /\ Py.truthy v = true.
Proof.
  unfold truthy_opt. destruct o as [w|]; [|split; [discriminate|intros [? _]; discriminate]].
  destruct (Py.truthy w) eqn:E; split.
  - intros [= <-]. auto.
  - intros [[= <-] _]. reflexivity.
  - discriminate.
  - intros [[= <-] H]. congruence.
Qed.

Lemma tip_hit (generate : gen_request -> result string) (c : gmap Z entry) (t0 dt : Z) (rnd : nat) (tip : string) :
  truthy_opt (cache_get c (date_of t0) t0) = Some tip ->
  get_daily_farming_tip generate c t0 dt rnd
  = (Ok (tip_response tip true (date_of t0)), c, []).
Proof.
  intros H. unfold get_daily_farming_tip, try_block. now rewrite H.
Qed.

Lemma tip_fresh (generate : gen_request -> result string) (c : gmap Z entry) (t0 dt : Z) (rnd : nat) (text : string) :
  truthy_opt (cache_get c (date_of t0) t0) = None ->
  generate tip_request = Ok text ->
  get_daily_farming_tip generate c t0 dt rnd
  = (Ok (tip_response (Py.strip text) false (date_of t0)),
     cache_set c (date_of t0) (Py.strip text) (60 * 60 * 48) (t0 + dt),
     [tip_request]).
Proof.
  intros H Hg. unfold get_daily_farming_tip, try_block. now rewrite H, Hg.
Qed.

Lemma tip_failed (generate : gen_request -> result string) (c : gmap Z entry) (t0 dt : Z) (rnd : nat) (e : exn) :
  truthy_opt (cache_get c (date_of t0) t0) = None ->
  generate tip_request = Raise e ->
  get_daily_farming_tip generate c t0 dt rnd
  = (except_block c (t0 + dt) rnd, c, [tip_request]).
Proof.
  intros H Hg. unfold get_daily_farming_tip, try_block. now rewrite H, Hg.
Qed.

Lemma except_block_yesterday (c : gmap Z entry) (t : Z) (rnd : nat) (y : string) :
  truthy_opt (cache_get c (date_of (t - 86400)) t) = Some y ->
  except_block c t rnd = Ok (fallback_response y true (date_of (t - 86400))).
Proof. intros H. unfold except_block, one_day. now rewrite H. Qed.

Lemma except_block_pool (c : gmap Z entry) (t : Z) (rnd : nat) :
  truthy_opt (cache_get c (date_of (t - 86400)) t) = None ->
  exists tip,
    except_block c t rnd = Ok (fallback_response tip false (date_of t)) /\
    nth_error DEFAULT_FALLBACK_TIPS (rnd mod 5) = Some tip /\
    In tip DEFAULT_FALLBACK_TIPS.
Proof.
  intros H. destruct (random_choice_pool rnd) as [tip [Hc [Hn Hin]]].
  exists tip. unfold except_block, one_day. rewrite H, Hc. auto.
Qed.

(** On a cache whose calls answer: whatever the cache holds, whatever the
    model does and whatever the random draw, the handler returns a
    response, a 200 with a tip in it, and raises nothing.  With no usable entry for today: a reply of
    the model is returned stripped with [cached] false; when the model
    call raises, a usable entry of the day before is returned with
    [fallback] true and [cached] true, and without one the tip is the
    element of the pool at the drawn position, with [fallback] true and
    [cached] false.  The pool has five elements, all different, so equally
    likely positions give equally likely tips. *)
Theorem get_daily_farming_tip_never_raises
    (generate : gen_request -> result string)
    (c : gmap Z entry) (t0 dt : Z) (rnd : nat) :
  exists resp c' calls,
    get_daily_farming_tip generate c t0 dt rnd = (Ok resp, c', calls) /\
    status resp = 200 /\
    (exists tip rest, data resp = JObj (("tip", JStr tip) :: rest)) /\
    (forall text,
        truthy_opt (cache_get c (date_of t0) t0) = None ->
        generate tip_request = Ok text ->
        resp = tip_response (Py.strip text) false (date_of t0)) /\
    (forall e y,
        truthy_opt (cache_get c (date_of t0) t0) = None ->
        generate tip_request = Raise e ->
        truthy_opt (cache_get c (date_of (t0 + dt - 86400)) (t0 + dt)) = Some y ->
        resp = fallback_response y true (date_of (t0 + dt - 86400))) /\
    (forall e,
        truthy_opt (cache_get c (date_of t0) t0) = None ->
        generate tip_request = Raise e ->
        truthy_opt (cache_get c (date_of (t0 + dt - 86400)) (t0 + dt)) = None ->
        exists tip,
          nth_error DEFAULT_FALLBACK_TIPS (rnd mod 5) = Some tip /\
          resp = fallback_response tip false (date_of (t0 + dt))) /\
    length DEFAULT_FALLBACK_TIPS = 5%nat /\
    NoDup DEFAULT_FALLBACK_TIPS.
Proof.
  destruct (truthy_opt (cache_get c (date_of t0) t0)) as [tip|] eqn:Hc.
  - rewrite (tip_hit generate c t0 dt rnd tip Hc).
    eexists _, _, _. split; [reflexivity|]. split; [reflexivity|].
    split; [eexists _, _; reflexivity|].
    repeat split; try discriminate; auto using pool_length, pool_NoDup.
  - destruct (generate tip_request) as [text|e] eqn:Hg.
    + rewrite (tip_fresh generate c t0 dt rnd text Hc Hg).
      eexists _, _, _. split; [reflexivity|]. split; [reflexivity|].
      split; [eexists _, _; reflexivity|].
      split; [intros ? _ [= <-]; reflexivity|].
      repeat split; try discriminate; auto using pool_length, pool_NoDup.
    + rewrite (tip_failed generate c t0 dt rnd e Hc Hg).
      destruct (truthy_opt (cache_get c (date_of (t0 + dt - 86400)) (t0 + dt)))
        as [y|] eqn:Hy.
      * rewrite (except_block_yesterday c (t0 + dt) rnd y Hy).
        eexists _, _, _. split; [reflexivity|]. split; [reflexivity|].
        split; [eexists _, _; reflexivity|].
        split; [discriminate|].
        split; [intros ? ? _ _ [= <-]; reflexivity|].
        repeat split; try discriminate; auto using pool_length, pool_NoDup.
      * destruct (except_block_pool c (t0 + dt) rnd Hy) as [tip [-> [Hn _]]].
        eexists _, _, _. split; [reflexivity|]. split; [reflexivity|].
        split; [eexists _, _; reflexivity|].
        split; [discriminate|]. split; [discriminate|].
        split; [intros; exists tip; auto|].
        auto using pool_length, pool_NoDup.
Qed.



(** The tip generated on one day is within reach as the fallback during
    the whole of the next day: the 48 hours outlast it. *)
Lemma fresh_tip_is_the_fallback_of_the_next_day
    (generate : gen_request -> result string)
    (c : gmap Z entry) (t0 dt t1 dt1 : Z) (rnd : nat) (text : string) (e : exn) :
  0 <= dt ->
  date_of (t1 + dt1 - 86400) = date_of t0 -> date_of t1 <> date_of t0 ->
  Py.truthy (Py.strip text) = true ->
  truthy_opt
    (cache_get (cache_set c (date_of t0) (Py.strip text) (60 * 60 * 48) (t0 + dt))
               (date_of t1) t1) = None ->
  generate tip_request = Raise e ->
  get_daily_farming_tip generate
    (cache_set c (date_of t0) (Py.strip text) (60 * 60 * 48) (t0 + dt)) t1 dt1 rnd
  = (Ok (fallback_response (Py.strip text) true (date_of t0)),
     cache_set c (date_of t0) (Py.strip text) (60 * 60 * 48) (t0 + dt),
     [tip_request]).
Proof.
  intros Hdt Hy Hne Ht Hmiss Hg.
  rewrite (tip_failed generate _ t1 dt1 rnd e Hmiss Hg).
  rewrite (except_block_yesterday _ (t1 + dt1) rnd (Py.strip text)).
  - now rewrite Hy.
  - rewrite Hy. apply truthy_opt_Some. split; [|exact Ht].
    apply cache_get_set.
    pose proof (date_of_bounds t0). pose proof (date_of_bounds (t1 + dt1 - 86400)).
    rewrite Hy in *. lia.
Qed.

(** *** Instances *)

Definition unreachable_model (q : gen_request) : result string :=
  Raise (ModelError "503 Service Unavailable").

Definition mulch_model (q : gen_request) : result string :=
  Ok "Mulch your beds before the dry season.
".

(** Eight in the morning of some day, and a minute later. *)
Definition morning : Z := 20000 * 86400 + 8 * 3600.

Example tier_fresh :
  fst (fst (get_daily_farming_tip mulch_model ∅ morning 2 0))
  = Ok (tip_response "Mulch your beds before the dry season." false 20000).
Proof. reflexivity. Qed.

Example tier_yesterday :
  fst (fst (get_daily_farming_tip unreachable_model
              (<[19999 := mkEntry "Stake your tomatoes." (morning + 3600)]> ∅) morning 2 0))
  = Ok (fallback_response "Stake your tomatoes." true 19999).
Proof. reflexivity. Qed.

Example tier_pool :
  fst (fst (get_daily_farming_tip unreachable_model ∅ morning 2 4))
  = Ok (fallback_response
          "Test your soil pH annually to ensure optimal nutrient availability. Most crops thrive in slightly acidic to neutral soil (pH 6.0-7.0)."
          false 20000).
Proof. reflexivity. Qed.



End TipFacts.

(** ** Properties of the community feed *)

Module CommunityFacts.
Import Community.

(** *** Likes *)

(** The user likes the post of key [pk]. *)
Definition liked (d : DB) (user pk : nat) : bool :=
  existsb (fun l => (like_user l =? user)%nat && (like_post l =? pk)%nat) (likes d).

(** The number of like rows of the post of key [pk]. *)
Definition count_likes (d : DB) (pk : nat) : nat :=
  length (List.filter (fun l => (like_post l =? pk)%nat) (likes d)).

(** The users of [us] toggle their like of the post one after the other. *)
Definition toggle_all (d : DB) (pk : nat) (us : list nat) : DB :=
  fold_left (fun d' u => snd (toggle_post_like d' u pk)) us d.

Lemma CommunityPost_get_pk (d : DB) (pk : nat) (post : CommunityPost) :
  CommunityPost_get d pk = Ok post -> post_pk post = pk.
Proof.
  unfold CommunityPost_get. destruct (List.find _ _) as [p|] eqn:E; [|discriminate].
  intros [= <-]. apply find_some in E. now apply Nat.eqb_eq.
Qed.

Lemma CommunityPost_get_ext (d d' : DB) (pk : nat) :
  posts d' = posts d -> CommunityPost_get d' pk = CommunityPost_get d pk.
Proof. unfold CommunityPost_get. now intros ->. Qed.

Lemma like_exists_liked (d : DB) (user pk : nat) (post : CommunityPost) :
  post_pk post = pk -> like_exists d user post = liked d user pk.
Proof. intros <-. reflexivity. Qed.

Lemma likes_count_count (d : DB) (pk : nat) (post : CommunityPost) :
  post_pk post = pk -> likes_count d post = count_likes d pk.
Proof. intros <-. reflexivity. Qed.

Definition liked_response (n : nat) : Response :=
  mkResponse 200 (JObj [("message", JStr "Post liked"); ("liked", JBool true);
                        ("likes_count", JNum (Z.of_nat n))]).

Definition unliked_response (n : nat) : Response :=
  mkResponse 200 (JObj [("message", JStr "Post unliked"); ("liked", JBool false);
                        ("likes_count", JNum (Z.of_nat n))]).

Lemma toggle_when_unliked (d : DB) (user pk : nat) (post : CommunityPost) :
  CommunityPost_get d pk = Ok post -> liked d user pk = false ->
  toggle_post_like d user pk
  = (liked_response (S (count_likes d pk)),
     mkDB (posts d) (likes d ++ [mkLike (next_pk d) user pk (now d)])
          (comments d) (S (next_pk d)) (now d + 1)).
Proof.
  intros Hg Hl. pose proof (CommunityPost_get_pk d pk post Hg) as Hpk.
  unfold toggle_post_like, PostLike_create. rewrite Hg.
  fold (like_exists d user post).
  rewrite (like_exists_liked d user pk post Hpk), Hl.
  unfold liked_response, likes_count, count_likes. simpl.
  rewrite Hpk, filter_app, length_app. simpl. rewrite Nat.eqb_refl. simpl.
  now rewrite Nat.add_1_r.
Qed.

Lemma toggle_when_liked (d : DB) (user pk : nat) (post : CommunityPost) :
  CommunityPost_get d pk = Ok post -> liked d user pk = true ->
  toggle_post_like d user pk
  = (unliked_response (count_likes (PostLike_delete d user post) pk),
     PostLike_delete d user post).
Proof.
  intros Hg Hl. pose proof (CommunityPost_get_pk d pk post Hg) as Hpk.
  unfold toggle_post_like. rewrite Hg.
  rewrite (like_exists_liked d user pk post Hpk), Hl.
  unfold unliked_response. now rewrite (likes_count_count _ pk post Hpk).
Qed.

Lemma liked_after_delete (d : DB) (user pk : nat) (post : CommunityPost) :
  post_pk post = pk -> liked (PostLike_delete d user post) user pk = false.
Proof.
  intros <-. unfold liked, PostLike_delete. simpl.
  induction (likes d) as [|l ls IH]; simpl; [reflexivity|].
  unfold is_like_of at 1.
  destruct ((like_user l =? user)%nat && (like_post l =? post_pk post)%nat) eqn:E;
    simpl; [exact IH|].
  now rewrite E.
Qed.

Lemma liked_other_after_delete (d : DB) (user u pk : nat) (post : CommunityPost) :
  u <> user -> liked (PostLike_delete d user post) u pk = liked d u pk.
Proof.
  intros Hne. unfold liked, PostLike_delete. simpl.
  induction (likes d) as [|l ls IH]; simpl; [reflexivity|].
  unfold is_like_of at 1.
  destruct (like_user l =? user)%nat eqn:E; simpl.
  - apply Nat.eqb_eq in E.
    assert ((like_user l =? u)%nat = false) as Hu by (apply Nat.eqb_neq; congruence).
    destruct (like_post l =? post_pk post)%nat; simpl; rewrite ?Hu; simpl; exact IH.
  - now rewrite IH.
Qed.

Lemma delete_unliked_id (d : DB) (user pk : nat) (post : CommunityPost) :
  post_pk post = pk -> liked d user pk = false ->
  likes (PostLike_delete d user post) = likes d.
Proof.
  intros <-. unfold liked, PostLike_delete. simpl.
  induction (likes d) as [|l ls IH]; simpl; [reflexivity|].
  intros H. apply orb_false_iff in H. destruct H as [H1 H2].
  unfold is_like_of at 1. rewrite H1. simpl. now rewrite IH.
Qed.

Lemma filter_snoc_drop {A : Type} (p : A -> bool) (l : list A) (x : A) :
  p x = false -> List.filter p (l ++ [x]) = List.filter p l.
Proof. intros H. rewrite filter_app. simpl. rewrite H. apply app_nil_r. Qed.

(** A like and the unlike that follows it leave the table of likes as it
    was. *)
Lemma toggle_twice_likes (d : DB) (user pk : nat) (post : CommunityPost) :
  CommunityPost_get d pk = Ok post -> liked d user pk = false ->
  likes (snd (toggle_post_like (snd (toggle_post_like d user pk)) user pk)) = likes d.
Proof.
  intros Hg Hl. pose proof (CommunityPost_get_pk d pk post Hg) as Hpk.
  rewrite (toggle_when_unliked d user pk post Hg Hl). simpl.
  rewrite (toggle_when_liked _ user pk post).
  - simpl. rewrite filter_snoc_drop.
    + apply (delete_unliked_id d user pk post Hpk Hl).
    + unfold is_like_of. simpl. now rewrite Hpk, !Nat.eqb_refl.
  - rewrite <- Hg. now apply CommunityPost_get_ext.
  - unfold liked. simpl. rewrite existsb_app. simpl.
    rewrite !Nat.eqb_refl. simpl. apply orb_true_r.
Qed.

Lemma toggle_flips (d : DB) (user pk : nat) (post : CommunityPost) :
  CommunityPost_get d pk = Ok post ->
  liked (snd (toggle_post_like d user pk)) user pk = negb (liked d user pk).
Proof.
  intros Hg. pose proof (CommunityPost_get_pk d pk post Hg) as Hpk.
  destruct (liked d user pk) eqn:Hl.
  - rewrite (toggle_when_liked d user pk post Hg Hl). simpl.
    now apply liked_after_delete.
  - rewrite (toggle_when_unliked d user pk post Hg Hl). unfold liked. simpl.
    rewrite existsb_app. simpl. rewrite !Nat.eqb_refl. simpl. apply orb_true_r.
Qed.

Lemma toggle_keeps_posts (d : DB) (user pk : nat) :
  posts (snd (toggle_post_like d user pk)) = posts d.
Proof.
  unfold toggle_post_like. destruct (CommunityPost_get d pk) as [post|e]; [|reflexivity].
  destruct (like_exists d user post); [reflexivity|].
  unfold PostLike_create. destruct (existsb _ _); reflexivity.
Qed.

Lemma toggle_keeps_comments (d : DB) (user pk : nat) :
  comments (snd (toggle_post_like d user pk)) = comments d.
Proof.
  unfold toggle_post_like. destruct (CommunityPost_get d pk) as [post|e]; [|reflexivity].
  destruct (like_exists d user post); [reflexivity|].
  unfold PostLike_create. destruct (existsb _ _); reflexivity.
Qed.

Lemma toggle_status (d : DB) (user pk : nat) (post : CommunityPost) :
  CommunityPost_get d pk = Ok post -> status (fst (toggle_post_like d user pk)) = 200.
Proof.
  intros Hg. destruct (liked d user pk) eqn:Hl.
  - now rewrite (toggle_when_liked d user pk post Hg Hl).
  - now rewrite (toggle_when_unliked d user pk post Hg Hl).
Qed.

Lemma toggle_other_unliked (d : DB) (user u pk : nat) (post : CommunityPost) :
  CommunityPost_get d pk = Ok post -> liked d user pk = false -> u <> user ->
  liked (snd (toggle_post_like d user pk)) u pk = liked d u pk.
Proof.
  intros Hg Hl Hne. rewrite (toggle_when_unliked d user pk post Hg Hl).
  unfold liked. simpl. rewrite existsb_app. simpl.
  assert ((user =? u)%nat = false) as -> by (apply Nat.eqb_neq; congruence).
  simpl. apply orb_false_r.
Qed.

(** Users who do not like the post yet, one toggle each: one more like
    per user. *)
Lemma toggle_all_count (us : list nat) :
  forall (d : DB) (pk : nat) (post : CommunityPost),
    CommunityPost_get d pk = Ok post -> NoDup us ->
    (forall u, In u us -> liked d u pk = false) ->
    count_likes (toggle_all d pk us) pk = (count_likes d pk + length us)%nat.
Proof.
  induction us as [|u us IH]; intros d pk post Hg Hnd Hun; simpl.
  - lia.
  - inversion Hnd as [|? ? Hnu Hnd']; subst.
    assert (liked d u pk = false) as Hl by (apply Hun; now left).
    unfold toggle_all in *. simpl.
    rewrite (IH _ pk post).
    + rewrite (toggle_when_unliked d u pk post Hg Hl). unfold count_likes. simpl.
      rewrite filter_app, length_app. simpl. rewrite Nat.eqb_refl. simpl. lia.
    + rewrite <- Hg. apply CommunityPost_get_ext, toggle_keeps_posts.
    + exact Hnd'.
    + intros u' Hu'. rewrite (toggle_other_unliked d u u' pk post Hg Hl).
      * apply Hun. now right.
      * intros ->. contradiction.
Qed.

(** C7.  For a stored post: a toggle flips whether the user likes it and
    answers 200, so a second toggle by the same user brings the pair back
    to where it was, and the unlike that follows a like restores the table
    of likes; the count in the response is the number of like rows after
    the toggle.  When users who did not like the post toggle once each,
    the count grows by their number, in whatever order they come.  The
    counts the serializer reports are the numbers of rows at that
    moment. *)
Theorem like_toggle_is_an_involution
    (d : DB) (user pk : nat) (post : CommunityPost) :
  CommunityPost_get d pk = Ok post ->
  let r1 := toggle_post_like d user pk in
  let r2 := toggle_post_like (snd r1) user pk in
  liked (snd r1) user pk = negb (liked d user pk) /\
  liked (snd r2) user pk = liked d user pk /\
  status (fst r1) = 200 /\ status (fst r2) = 200 /\
  json_get "liked" (data (fst r1)) = Some (JBool (negb (liked d user pk))) /\
  json_get "liked" (data (fst r2)) = Some (JBool (liked d user pk)) /\
  json_get "likes_count" (data (fst r1))
  = Some (JNum (Z.of_nat (count_likes (snd r1) pk))) /\
  (liked d user pk = false -> likes (snd r2) = likes d) /\
  (forall us,
      NoDup us -> (forall u, In u us -> liked d u pk = false) ->
      count_likes (toggle_all d pk us) pk = (count_likes d pk + length us)%nat /\
      (forall us', Permutation us us' ->
                   count_likes (toggle_all d pk us') pk
                   = count_likes (toggle_all d pk us) pk)) /\
  (forall viewer,
      json_get "likes_count" (serialize_post d viewer post)
      = Some (JNum (Z.of_nat
                      (length (List.filter (fun l => (like_post l =? pk)%nat) (likes d))))) /\
      json_get "comments_count" (serialize_post d viewer post)
      = Some (JNum (Z.of_nat
                      (length (List.filter (fun c => (comment_post c =? pk)%nat)
                                           (comments d)))))).
Proof.
  intros Hg r1 r2.
  pose proof (CommunityPost_get_pk d pk post Hg) as Hpk.
  assert (CommunityPost_get (snd r1) pk = Ok post) as Hg1.
  { rewrite <- Hg. apply CommunityPost_get_ext, toggle_keeps_posts. }
  assert (liked (snd r1) user pk = negb (liked d user pk)) as H1
    by (apply (toggle_flips d user pk post Hg)).
  assert (liked (snd r2) user pk = liked d user pk) as H2.
  { unfold r2. rewrite (toggle_flips (snd r1) user pk post Hg1), H1.
    apply negb_involutive. }
  split; [exact H1|]. split; [exact H2|].
  split; [apply (toggle_status d user pk post Hg)|].
  split; [apply (toggle_status (snd r1) user pk post Hg1)|].
  split; [|split; [|split; [|split; [|split]]]].
  - unfold r1. destruct (liked d user pk) eqn:Hl.
    + now rewrite (toggle_when_liked d user pk post Hg Hl).
    + now rewrite (toggle_when_unliked d user pk post Hg Hl).
  - unfold r2. destruct (liked (snd r1) user pk) eqn:Hl.
    + rewrite (toggle_when_liked (snd r1) user pk post Hg1 Hl). simpl.
      destruct (liked d user pk); [discriminate|reflexivity].
    + rewrite (toggle_when_unliked (snd r1) user pk post Hg1 Hl). simpl.
      destruct (liked d user pk); [reflexivity|discriminate].
  - unfold r1. destruct (liked d user pk) eqn:Hl.
    + now rewrite (toggle_when_liked d user pk post Hg Hl).
    + rewrite (toggle_when_unliked d user pk post Hg Hl). simpl.
      unfold count_likes. simpl. rewrite filter_app, length_app. simpl.
      rewrite Nat.eqb_refl. simpl. now rewrite Nat.add_1_r.
  - intros Hl. apply (toggle_twice_likes d user pk post Hg Hl).
  - intros us Hnd Hun. split; [now apply (toggle_all_count us d pk post)|].
    intros us' Hperm.
    rewrite (toggle_all_count us d pk post Hg Hnd Hun).
    rewrite (toggle_all_count us' d pk post Hg).
    + now rewrite (Permutation_length Hperm).
    + now apply (Permutation_NoDup Hperm).
    + intros u Hu. apply Hun. now apply (Permutation_in _ (Permutation_sym Hperm)).
  - intros viewer. unfold serialize_post, likes_count, comments_count. simpl.
    rewrite Hpk. split; reflexivity.
Qed.

(** *** Who may change a post or a comment *)

Lemma destroy_by_other (d : DB) (user pk : nat) (post : CommunityPost) :
  CommunityPost_get d pk = Ok post -> author post <> user ->
  destroy d user pk = (mkResponse 500 JNull, d).
Proof.
  intros Hg Hne. unfold destroy, get_object, perform_destroy. rewrite Hg.
  apply Nat.eqb_neq in Hne. now rewrite Hne.
Qed.

Lemma update_by_other {payload : Type} (to_internal_value : payload -> post_attrs + json)
    (d : DB) (user pk : nat) (body : payload) (post : CommunityPost) (a : post_attrs) :
  CommunityPost_get d pk = Ok post -> author post <> user ->
  to_internal_value body = inl a ->
  update to_internal_value d user pk body = (mkResponse 500 JNull, d).
Proof.
  intros Hg Hne Hv. unfold update, get_object, is_valid, perform_update.
  rewrite Hg, Hv. apply Nat.eqb_neq in Hne. now rewrite Hne.
Qed.

Lemma delete_comment_by_other (d : DB) (user pk comment_id : nat) (c : PostComment) :
  PostComment_get d comment_id pk = Ok c -> comment_user c <> user ->
  delete_comment d user pk comment_id
  = (mkResponse 403 (JObj [("error", JStr "You can only delete your own comments")]), d).
Proof.
  intros Hg Hne. unfold delete_comment. rewrite Hg.
  apply Nat.eqb_neq in Hne. now rewrite Hne.
Qed.

(** A post or a comment goes away only at the hands of its author. *)
Lemma destroy_only_by_author (d : DB) (user pk : nat) :
  status (fst (destroy d user pk)) = 204 ->
  exists post, CommunityPost_get d pk = Ok post /\ author post = user.
Proof.
  unfold destroy, get_object, perform_destroy.
  destruct (CommunityPost_get d pk) as [post|e]; [|discriminate].
  destruct (author post =? user)%nat eqn:E; simpl; [|discriminate].
  intros _. exists post. split; [reflexivity|now apply Nat.eqb_eq].
Qed.

Lemma delete_comment_only_by_author (d : DB) (user pk comment_id : nat) :
  status (fst (delete_comment d user pk comment_id)) = 204 ->
  exists c, PostComment_get d comment_id pk = Ok c /\ comment_user c = user.
Proof.
  unfold delete_comment.
  destruct (PostComment_get d comment_id pk) as [c|e]; [|discriminate].
  destruct (comment_user c =? user)%nat eqn:E; simpl; [|discriminate].
  intros _. exists c. split; [reflexivity|now apply Nat.eqb_eq].
Qed.

(** A feed with one post of user 1, liked by user 3, and one comment of
    user 1 on it. *)
Definition feed : DB :=
  mkDB [mkPost 1 1 "First rains have come, planting maize this week." ["maize"] 10 10]
       [mkLike 2 3 1 11]
       [mkComment 3 1 1 "Good luck!" 12 12]
       4 13.

Definition any_body (_ : unit) : post_attrs + json :=
  inl (mkAttrs (Some "Edited by somebody else") None).

(** C6.  User 2 is not the author of post 1.  Deleting it and updating it
    (with a valid body) both leave the feed as it was, but the answer is
    the 500 of an exception nobody handles, not a 403: the hooks raise the
    builtin [PermissionError] and the view catches nothing.  The comment
    handler, and the tutorial views for the same check, answer 403. *)
Theorem post_owner_check_answers_500 :
  destroy feed 2 1 = (mkResponse 500 JNull, feed) /\
  update any_body feed 2 1 tt = (mkResponse 500 JNull, feed) /\
  delete_comment feed 2 1 3
  = (mkResponse 403 (JObj [("error", JStr "You can only delete your own comments")]), feed) /\
  status (fst (destroy feed 1 1)) = 204.
Proof. repeat split; reflexivity. Qed.

Lemma like_toggle_is_an_involution_witness :
  liked feed 2 1 = false /\
  liked (snd (toggle_post_like feed 2 1)) 2 1 = true /\
  likes (snd (toggle_post_like (snd (toggle_post_like feed 2 1)) 2 1)) = likes feed /\
  count_likes (toggle_all feed 1 [2; 4; 5]%nat) 1 = 4%nat.
Proof.
  pose proof (like_toggle_is_an_involution feed 2 1
                (mkPost 1 1 "First rains have come, planting maize this week." ["maize"] 10 10)
                eq_refl) as H.
  cbv zeta in H.
  destruct H as [H1 [_ [_ [_ [_ [_ [_ [H8 [H9 _]]]]]]]]].
  split; [reflexivity|]. split; [exact H1|]. split; [exact (H8 eq_refl)|].
  destruct (H9 [2; 4; 5]%nat) as [Hc _].
  - repeat (constructor; [simpl; lia|]). constructor.
  - intros u [<-|[<-|[<-|[]]]]; reflexivity.
  - exact Hc.
Defined.

(** *** Toggles in flight *)




(** Two toggles of user 2 on post 1 in flight, each asking before the
    other writes: one like row is inserted, the second insert runs into
    the unique constraint and its request ends in a 500. *)
Example concurrent_toggles_of_one_user :
  exists d' r,
    run_likes [0; 1; 0; 1; 0; 1]%nat feed [LStart 2 1; LStart 2 1]
    = (d', [LDone r; LDone (mkResponse 500 JNull)]) /\
    status r = 200 /\ count_likes d' 1 = 2%nat /\ liked d' 2 1 = true.
Proof. eexists _, _. repeat split. Qed.

End CommunityFacts.

(** ** Properties of the tutorial catalog *)

Module LmsFacts.
Import Lms.

(** *** Who may upload *)

Section Upload.
Context {payload : Type} (to_internal_value : payload -> tutorial_attrs + json).

Lemma create_refused (d : DB) (request : Request) (body : payload) :
  method request = "POST" -> user_type (user request) <> "extension_worker" ->
  exists detail,
    create to_internal_value d request body = (mkResponse 400 detail, d).
Proof.
  intros Hm Hu. unfold create, super_create, is_valid.
  destruct (to_internal_value body) as [a|errors]; [|eexists; reflexivity].
  unfold validate. rewrite Hm. simpl.
  apply String.eqb_neq in Hu. rewrite Hu. simpl. eexists. reflexivity.
Qed.

Lemma create_accepted (d : DB) (request : Request) (body : payload) (a : tutorial_attrs) :
  user_type (user request) = "extension_worker" ->
  to_internal_value body = inl a ->
  create to_internal_value d request body
  = (mkResponse 201 (serialize_tutorial (fst (Tutorial_create d (user request) a))),
     snd (Tutorial_create d (user request) a)).
Proof.
  intros Hu Hv. unfold create, super_create, is_valid, validate, perform_create.
  rewrite Hv, Hu. simpl. rewrite andb_false_r. reflexivity.
Qed.

(** Only an extension worker gets a tutorial stored, and the 403 of the
    view is never the answer to an upload. *)
Lemma create_outcomes (d : DB) (request : Request) (body : payload) :
  method request = "POST" ->
  (status (fst (create to_internal_value d request body)) = 201 ->
   user_type (user request) = "extension_worker") /\
  (status (fst (create to_internal_value d request body)) <> 201 ->
   snd (create to_internal_value d request body) = d) /\
  status (fst (create to_internal_value d request body)) <> 403.
Proof.
  intros Hm.
  destruct (string_dec (user_type (user request)) "extension_worker") as [Hu|Hu].
  - destruct (to_internal_value body) as [a|errors] eqn:Hv.
    + rewrite (create_accepted d request body a Hu Hv). simpl.
      split; [auto|]. split; [congruence|discriminate].
    + unfold create, super_create, is_valid. rewrite Hv. simpl.
      split; [discriminate|]. split; [reflexivity|discriminate].
  - destruct (create_refused d request body Hm Hu) as [detail ->]. simpl.
    split; [discriminate|]. split; [reflexivity|discriminate].
Qed.

End Upload.

Definition kofi : User := mkUser 7 "kofi" "farmer".
Definition catalog : DB :=
  mkDB [mkTutorial 1 3 "Composting" "How to build a compost heap" "soil_management"
                   "composting.mp4" 5] 2.
Definition upload : tutorial_attrs :=
  mkAttrs "Pruning" "How to prune cocoa" "crops" "pruning.mp4".
Definition accept_all (a : tutorial_attrs) : tutorial_attrs + json := inl a.

(** C5.  A farmer posts a tutorial whose fields are all valid.  No row is
    stored, but the answer is the 400 of the serializer's validation, not
    a 403: [validate] refuses the role before [perform_create] and its
    [PermissionError] are reached.  For the same user [my_tutorials]
    answers 403. *)
Theorem farmer_upload_answers_400 :
  create accept_all catalog (mkRequest "POST" kofi) upload
  = (mkResponse 400
       (JObj [("non_field_errors",
               JList [JStr "Only extension workers can upload tutorials"])]),
     catalog) /\
  perform_create catalog (mkRequest "POST" kofi) upload
  = Raise (PermissionError
             "Only extension workers can upload tutorials. Your user type is: farmer") /\
  status (my_tutorials catalog (mkRequest "GET" kofi)) = 403.
Proof. repeat split; reflexivity. Qed.

(** *** Counting views, one request after the other and interleaved *)

Lemma Tutorial_get_Ok (d : DB) (pk : nat) (t : Tutorial) :
  Tutorial_get d pk = Ok t -> tutorial_pk t = pk /\ views_of d pk = Some (view_count t).
Proof.
  unfold views_of, Tutorial_get.
  destruct (List.find _ _) as [t'|] eqn:E; [|discriminate].
  intros [= ->]. apply find_some in E. split; [now apply Nat.eqb_eq|reflexivity].
Qed.

Lemma views_of_Some (d : DB) (pk : nat) (c : Z) :
  views_of d pk = Some c -> exists t, Tutorial_get d pk = Ok t /\ view_count t = c.
Proof.
  unfold views_of. destruct (Tutorial_get d pk) as [t|e]; [|discriminate].
  intros [= <-]. now exists t.
Qed.

(** After the write the row holds the count of the instance written. *)
Lemma views_of_save (d : DB) (pk : nat) (c : Z) (t : Tutorial) :
  views_of d pk = Some c -> tutorial_pk t = pk ->
  views_of (save_view_count d t) pk = Some (view_count t).
Proof.
  intros Hv <-. unfold views_of, Tutorial_get, save_view_count in *. simpl.
  induction (tutorials d) as [|r rs IH]; simpl in *; [discriminate|].
  destruct (tutorial_pk r =? tutorial_pk t)%nat eqn:E; simpl.
  - rewrite E. reflexivity.
  - rewrite E. apply IH. exact Hv.
Qed.








Lemma increment_views_adds_one (d : DB) (pk : nat) (t : Tutorial) :
  Tutorial_get d pk = Ok t ->
  status (fst (increment_views d pk)) = 200 /\
  views_of (snd (increment_views d pk)) pk = Some (view_count t + 1).
Proof.
  intros Hg. destruct (Tutorial_get_Ok d pk t Hg) as [Hpk Hv].
  unfold increment_views. rewrite Hg. simpl. split; [reflexivity|].
  apply (views_of_save d pk (view_count t)); [exact Hv|exact Hpk].
Qed.




End LmsFacts.

(** ** More on the chat handlers *)

Module ChatMore.
Import Chat ChatFacts.

(** *** What a request does to the message table *)

(** The session a request runs its turn on: the one it names, or one with
    the next primary key. *)
Definition turn_target (d : DB) (user : nat) (rq : ChatRequest) (s : ChatSession) : Prop :=
  (exists sid, req_session_id rq = Some sid /\ ChatSession_get d sid user = Ok s) \/
  cs_pk s = next_session_pk d.

Lemma chat_turn_effect
    (generate : gen_request -> result string) (SYSTEM_INSTRUCTION : string)
    (str : exn -> string) (d : DB) (s : ChatSession) (sid msg : string) :
  (exists e calls,
      chat_turn generate SYSTEM_INSTRUCTION str d s sid msg = (server_error str e, d, calls)
      /\ (length calls <= 2)%nat) \/
  (exists reply calls,
      chat_turn generate SYSTEM_INSTRUCTION str d s sid msg
      = (ok_response reply sid,
         ChatSession_save
           (ChatMessage_create (ChatMessage_create d s "user" msg) s "model" reply) s,
         calls)
      /\ (length calls <= 2)%nat).
Proof.
  unfold chat_turn, send_message. simpl.
  destruct (generate _) as [ack|e]; simpl.
  - destruct (generate _) as [reply|e]; simpl.
    + right. eexists _, _. split; [reflexivity|simpl; lia].
    + left. eexists _, _. split; [reflexivity|simpl; lia].
  - left. eexists _, _. split; [reflexivity|simpl; lia].
Qed.

(** Every outcome of [chat_with_ai]: either the message table is what it
    was and the answer is not a 200, or the answer is the 200 with the
    reply and the table has grown by the two rows of the turn. *)
Lemma chat_with_ai_effect
    (generate : gen_request -> result string) (SYSTEM_INSTRUCTION : string)
    (str : exn -> string) (d : DB) (user : nat) (rq : ChatRequest) (uuid4 : string) :
  (exists resp d' calls,
      chat_with_ai generate SYSTEM_INSTRUCTION str d user rq uuid4 = (resp, d', calls) /\
      status resp <> 200 /\ chat_messages d' = chat_messages d /\
      (length calls <= 2)%nat) \/
  (exists s reply sid d' calls t,
      chat_with_ai generate SYSTEM_INSTRUCTION str d user rq uuid4
      = (ok_response reply sid, d', calls) /\
      turn_target d user rq s /\ now d <= t /\
      chat_messages d'
      = chat_messages d
          ++ turn_rows d s (Py.strip (default "" (req_message rq))) reply t /\
      (length calls <= 2)%nat).
Proof.
  assert (forall d0 s,
             chat_messages d0 = chat_messages d ->
             next_message_pk d0 = next_message_pk d -> now d <= now d0 ->
             turn_target d user rq s ->
             forall sid,
             (exists resp d' calls,
                 chat_turn generate SYSTEM_INSTRUCTION str d0 s sid
                   (Py.strip (default "" (req_message rq))) = (resp, d', calls) /\
                 status resp <> 200 /\ chat_messages d' = chat_messages d /\
                 (length calls <= 2)%nat) \/
             (exists s' reply sid' d' calls t,
                 chat_turn generate SYSTEM_INSTRUCTION str d0 s sid
                   (Py.strip (default "" (req_message rq)))
                 = (ok_response reply sid', d', calls) /\
                 turn_target d user rq s' /\ now d <= t /\
                 chat_messages d'
                 = chat_messages d
                     ++ turn_rows d s' (Py.strip (default "" (req_message rq))) reply t /\
                 (length calls <= 2)%nat)) as Hturn.
  { intros d0 s Hm Hn Ht Htg sid.
    destruct (chat_turn_effect generate SYSTEM_INSTRUCTION str d0 s sid
                (Py.strip (default "" (req_message rq))))
      as [[e [calls [-> Hc]]]|[reply [calls [-> Hc]]]].
    - left. eexists _, _, _. split; [reflexivity|].
      split; [discriminate|]. split; [exact Hm|exact Hc].
    - right. exists s, reply, sid. eexists _, calls, (now d0).
      split; [reflexivity|]. split; [exact Htg|]. split; [exact Ht|].
      split; [|exact Hc].
      simpl. rewrite <- app_assoc, Hm. unfold turn_rows. simpl. now rewrite Hn. }
  unfold chat_with_ai.
  destruct (negb _).
  { left. eexists _, _, _. split; [reflexivity|].
    split; [discriminate|]. split; [reflexivity|simpl; lia]. }
  assert ((exists resp d' calls,
              match ChatSession_create d user uuid4 with
              | (Ok s, d') => chat_turn generate SYSTEM_INSTRUCTION str d' s uuid4
                                (Py.strip (default "" (req_message rq)))
              | (Raise e, d') => (server_error str e, d', [])
              end = (resp, d', calls) /\
              status resp <> 200 /\ chat_messages d' = chat_messages d /\
              (length calls <= 2)%nat) \/
          (exists s reply sid d' calls t,
              match ChatSession_create d user uuid4 with
              | (Ok s, d') => chat_turn generate SYSTEM_INSTRUCTION str d' s uuid4
                                (Py.strip (default "" (req_message rq)))
              | (Raise e, d') => (server_error str e, d', [])
              end = (ok_response reply sid, d', calls) /\
              turn_target d user rq s /\ now d <= t /\
              chat_messages d'
              = chat_messages d
                  ++ turn_rows d s (Py.strip (default "" (req_message rq))) reply t /\
              (length calls <= 2)%nat)) as Hnew.
  { destruct (ChatSession_create d user uuid4) as [r d'] eqn:E.
    destruct (ChatSession_create_inv _ _ _ _ _ E) as [[-> ->]|[_ [-> ->]]].
    - left. eexists _, _, _. split; [reflexivity|].
      split; [discriminate|]. split; [reflexivity|simpl; lia].
    - apply Hturn; simpl; try reflexivity; try lia. now right. }
  destruct (req_session_id rq) as [sid|] eqn:Hs; [|exact Hnew].
  destruct (Py.truthy sid); [|exact Hnew].
  destruct (ChatSession_get d sid user) as [s|e] eqn:Hg.
  - apply Hturn; try reflexivity; try lia. left. now exists sid.
  - left. destruct e; eexists _, _, _; (split; [reflexivity|]);
      (split; [discriminate|]); (split; [reflexivity|simpl; lia]).
Qed.


(** *** A turn and the other sessions *)

Lemma messages_of_app_other (d d' : DB) (s2 : ChatSession) (rows : list ChatMessage) :
  chat_messages d' = chat_messages d ++ rows ->
  Forall (fun m => cm_session m <> cs_pk s2) rows ->
  messages_of d' s2 = messages_of d s2.
Proof.
  intros Heq Hrows. unfold messages_of. rewrite Heq, filter_app. clear Heq.
  assert (List.filter (fun m => (cm_session m =? cs_pk s2)%nat) rows = []) as ->;
    [|apply app_nil_r].
  induction Hrows as [|m rows Hne _ IH]; simpl; [reflexivity|].
  apply Nat.eqb_neq in Hne. rewrite Hne. exact IH.
Qed.

(** X2.  On a well-formed database a chat request changes the transcript
    of no stored session but the one it names as its caller's: for every
    other session, of this user or of another, the messages are what they
    were, whatever the model answers. *)
Theorem chat_with_ai_keeps_other_transcripts
    (generate : gen_request -> result string) (SYSTEM_INSTRUCTION : string)
    (str : exn -> string) (d : DB) (user : nat) (rq : ChatRequest) (uuid4 : string)
    (s2 : ChatSession) :
  wf d -> In s2 (chat_sessions d) ->
  req_session_id rq <> Some (session_id s2) \/ cs_user s2 <> user ->
  messages_of (snd (fst (chat_with_ai generate SYSTEM_INSTRUCTION str d user rq uuid4))) s2
  = messages_of d s2.
Proof.
  intros Hwf Hin Hother.
  destruct (chat_with_ai_effect generate SYSTEM_INSTRUCTION str d user rq uuid4)
    as [[resp [d' [calls [-> [_ [Hm _]]]]]]|[s [reply [sid [d' [calls [t [-> [Htg [_ [Hm _]]]]]]]]]]];
    simpl.
  - unfold messages_of. now rewrite Hm.
  - apply (messages_of_app_other d d' s2 _ Hm).
    assert (cs_pk s <> cs_pk s2) as Hne.
    { intros Hpk. destruct Htg as [[sid' [Hs Hg]]|Hnew].
      - apply ChatSession_get_Ok in Hg. destruct Hg as [Hin' [Hsid Hu]].
        assert (s = s2) as -> by (now apply (wf_pk_determines d s2 Hwf Hin)).
        destruct Hother as [H|H]; [apply H; congruence|now apply H].
      - pose proof (wf_pk_bound d Hwf) as Hb. rewrite Forall_forall in Hb.
        specialize (Hb s2 Hin). lia. }
    unfold turn_rows. repeat constructor; simpl; exact Hne.
Qed.

Lemma chat_with_ai_keeps_other_transcripts_witness :
  messages_of
    (snd (fst (chat_with_ai advisor instruction str_of db_one_turn 2
                 (mkChatRequest (Some "Is cassava drought tolerant?") None) "s-2")))
    session_one
  = messages_of db_one_turn session_one.
Proof.
  apply (chat_with_ai_keeps_other_transcripts advisor instruction str_of db_one_turn 2
           (mkChatRequest (Some "Is cassava drought tolerant?") None) "s-2" session_one
           db_one_turn_wf).
  - now left.
  - left. discriminate.
Defined.

(** *** Deleting a session *)

Lemma delete_chat_session_ok (d : DB) (user : nat) (sid : string) (s : ChatSession) :
  ChatSession_get d sid user = Ok s ->
  delete_chat_session d user sid
  = (mkResponse 200 (JObj [("message", JStr "Session deleted successfully")]),
     ChatSession_delete d s).
Proof. intros Hg. unfold delete_chat_session. now rewrite Hg. Qed.

Lemma not_visible_after_delete (d : DB) (user : nat) (sid : string) (s : ChatSession) :
  wf d -> ChatSession_get d sid user = Ok s ->
  fresh_id (ChatSession_delete d s) sid.
Proof.
  intros Hwf Hg r Hr Hsid. apply ChatSession_get_Ok in Hg.
  destruct Hg as [Hin [Hs _]].
  simpl in Hr. apply filter_In in Hr. destruct Hr as [Hr Hne].
  apply negb_true_iff, Nat.eqb_neq in Hne. apply Hne. f_equal.
  apply (NoDup_map_eq session_id (chat_sessions d)); auto using wf_sid_unique.
  congruence.
Qed.

Lemma filter_filter_other (pk pk2 : nat) (l : list ChatMessage) :
  pk2 <> pk ->
  List.filter (fun m => (cm_session m =? pk2)%nat)
    (List.filter (fun m => negb (cm_session m =? pk)%nat) l)
  = List.filter (fun m => (cm_session m =? pk2)%nat) l.
Proof.
  intros Hne. induction l as [|m l IH]; simpl; [reflexivity|].
  destruct (cm_session m =? pk)%nat eqn:E; simpl.
  - apply Nat.eqb_eq in E.
    assert ((cm_session m =? pk2)%nat = false) as -> by (apply Nat.eqb_neq; lia).
    exact IH.
  - now rewrite IH.
Qed.

(** X3.  The owner deletes a session: the answer is 200; no message of
    that session is left; every other stored session is still there with
    its transcript; and the identifier is unknown from then on, to the
    history endpoint, to a chat turn and to a second delete, which all
    answer the 404 and change nothing. *)
Theorem delete_chat_session_forgets_the_session
    (generate : gen_request -> result string) (SYSTEM_INSTRUCTION : string)
    (str : exn -> string) (d : DB) (user : nat) (sid : string) (s : ChatSession) :
  wf d -> Py.truthy sid = true -> ChatSession_get d sid user = Ok s ->
  exists d',
    delete_chat_session d user sid
    = (mkResponse 200 (JObj [("message", JStr "Session deleted successfully")]), d') /\
    wf d' /\
    (forall m, In m (chat_messages d') -> cm_session m <> cs_pk s) /\
    (forall s2, In s2 (chat_sessions d) -> session_id s2 <> sid ->
                In s2 (chat_sessions d') /\ messages_of d' s2 = messages_of d s2) /\
    get_chat_history d' user sid
    = mkResponse 404 (JObj [("error", JStr "Session not found or access denied")]) /\
    delete_chat_session d' user sid
    = (mkResponse 404 (JObj [("error", JStr "Session not found or access denied")]), d') /\
    (forall rq uuid4,
        req_session_id rq = Some sid ->
        Py.truthy (Py.strip (default "" (req_message rq))) = true ->
        chat_with_ai generate SYSTEM_INSTRUCTION str d' user rq uuid4
        = (mkResponse 404 (JObj [("error", JStr "Session not found or access denied")]),
           d', [])).
Proof.
  intros Hwf Ht Hg. exists (ChatSession_delete d s).
  pose proof (not_visible_after_delete d user sid s Hwf Hg) as Hfresh.
  pose proof (unknown_not_visible _ sid user Hfresh) as Hnv.
  destruct (ChatSession_get_Ok _ _ _ _ Hg) as [Hin [Hsid Hu]].
  split; [now apply delete_chat_session_ok|].
  split; [now apply wf_ChatSession_delete|].
  split; [|split; [|split; [|split]]].
  - intros m Hm. simpl in Hm. apply filter_In in Hm. destruct Hm as [_ Hne].
    now apply negb_true_iff, Nat.eqb_neq in Hne.
  - intros s2 Hin2 Hne.
    assert (cs_pk s2 <> cs_pk s) as Hpk.
    { intros Hpk. apply Hne. rewrite <- Hsid. f_equal.
      now apply (wf_pk_determines d s Hwf Hin). }
    split.
    + simpl. apply filter_In. split; [exact Hin2|].
      now apply negb_true_iff, Nat.eqb_neq.
    + unfold messages_of. simpl. now apply filter_filter_other.
  - unfold get_chat_history. now rewrite (ChatSession_get_not_visible _ sid user Hnv).
  - unfold delete_chat_session. now rewrite (ChatSession_get_not_visible _ sid user Hnv).
  - intros rq uuid4 Hs Hm.
    now apply (chat_with_ai_not_visible generate SYSTEM_INSTRUCTION str _ user rq uuid4 sid).
Qed.

Lemma delete_chat_session_forgets_the_session_witness :
  exists d',
    delete_chat_session db_one_turn 1 "s-1"
    = (mkResponse 200 (JObj [("message", JStr "Session deleted successfully")]), d') /\
    chat_messages d' = [] /\
    status (get_chat_history d' 1 "s-1") = 404.
Proof.
  destruct (delete_chat_session_forgets_the_session advisor instruction str_of
              db_one_turn 1 "s-1" session_one db_one_turn_wf eq_refl eq_refl)
    as [d' [E [_ [_ [_ [Hh _]]]]]].
  exists d'. split; [exact E|]. split.
  - injection E as <-. reflexivity.
  - now rewrite Hh.
Defined.

(** X4.  Clearing or deleting a session that is not the caller's, because
    nobody has that identifier or because somebody else has it, answers
    the same 404 in both cases and leaves the database as it was: nobody
    can hide or remove another user's conversation. *)
Theorem clear_and_delete_need_the_owner
    (str : exn -> string) (d : DB) (user : nat) (sid : string) :
  wf d -> Py.truthy sid = true ->
  (forall s, In s (chat_sessions d) -> session_id s <> sid) \/
  (exists s, In s (chat_sessions d) /\ session_id s = sid /\ cs_user s <> user) ->
  clear_chat_session str d user (Some sid)
  = (mkResponse 404 (JObj [("error", JStr "Session not found or access denied")]), d) /\
  delete_chat_session d user sid
  = (mkResponse 404 (JObj [("error", JStr "Session not found or access denied")]), d).
Proof.
  intros Hwf Ht Hcase.
  assert (not_visible d sid user) as Hnv.
  { destruct Hcase as [Hf|[s [Hin [Hsid Hu]]]].
    - now apply unknown_not_visible.
    - now apply (foreign_not_visible d sid user s). }
  unfold clear_chat_session, delete_chat_session.
  now rewrite Ht, (ChatSession_get_not_visible d sid user Hnv).
Qed.

Lemma clear_and_delete_need_the_owner_witness :
  clear_chat_session str_of db_one_turn 2 (Some "s-1")
  = (mkResponse 404 (JObj [("error", JStr "Session not found or access denied")]),
     db_one_turn) /\
  delete_chat_session db_one_turn 2 "s-1"
  = (mkResponse 404 (JObj [("error", JStr "Session not found or access denied")]),
     db_one_turn).
Proof.
  apply (clear_and_delete_need_the_owner str_of db_one_turn 2 "s-1" db_one_turn_wf eq_refl).
  right. exists session_one. split; [now left|]. split; [reflexivity|discriminate].
Defined.

(** *** The list of sessions *)

Section Sorting.
Context {A : Type} (key : A -> Z).

Lemma insert_by_sorted (x : A) (l : list A) :
  StronglySorted (fun a b => key a <= key b) l ->
  StronglySorted (fun a b => key a <= key b) (insert_by key x l).
Proof.
  induction 1 as [|y l Hs IH Hy]; simpl.
  - repeat constructor.
  - destruct (key x <=? key y) eqn:E.
    + apply Z.leb_le in E. constructor; [now constructor|].
      constructor; [exact E|].
      eapply Forall_impl; [|exact Hy]. simpl. intros; lia.
    + apply Z.leb_gt in E. constructor; [exact IH|].
      apply Forall_forall. intros z Hz. apply insert_by_In in Hz.
      destruct Hz as [->|Hz]; [lia|].
      rewrite Forall_forall in Hy. now apply Hy.
Qed.

Lemma order_by_is_sorted (l : list A) :
  StronglySorted (fun a b => key a <= key b) (order_by key l).
Proof.
  induction l as [|x l IH]; [constructor|].
  rewrite order_by_cons. now apply insert_by_sorted.
Qed.

Lemma insert_by_perm (x : A) (l : list A) : Permutation (x :: l) (insert_by key x l).
Proof.
  induction l as [|y l IH]; simpl; [reflexivity|].
  destruct (key x <=? key y); [reflexivity|].
  rewrite perm_swap. now constructor.
Qed.

Lemma order_by_perm (l : list A) : Permutation l (order_by key l).
Proof.
  induction l as [|x l IH]; [constructor|].
  rewrite order_by_cons, <- insert_by_perm. now constructor.
Qed.

(** In a list in descending order, an element above all the others is
    the first. *)
Lemma sorted_desc_head (x : A) (l : list A) :
  StronglySorted (fun a b => key b <= key a) l -> In x l ->
  (forall y, In y l -> y = x \/ key y < key x) ->
  exists rest, l = x :: rest.
Proof.
  intros Hs Hin Hmax. destruct l as [|h t]; [contradiction|].
  inversion Hs as [|? ? _ Hh]; subst.
  destruct (Hmax h (or_introl eq_refl)) as [->|Hlt]; [now exists t|].
  destruct Hin as [->|Hin]; [now exists t|].
  rewrite Forall_forall in Hh. specialize (Hh x Hin). lia.
Qed.
End Sorting.

Lemma active_sessions_sorted (d : DB) (user : nat) :
  StronglySorted (fun a b => cs_updated_at b <= cs_updated_at a) (active_sessions d user).
Proof.
  unfold active_sessions, order_by_desc.
  eapply StronglySorted_weaken; [|apply order_by_is_sorted]. simpl. intros; lia.
Qed.

Lemma active_sessions_In (d : DB) (user : nat) (s : ChatSession) :
  In s (active_sessions d user)
  <-> In s (chat_sessions d) /\ cs_user s = user /\ is_active s = true.
Proof.
  unfold active_sessions, order_by_desc. rewrite order_by_In, filter_In.
  rewrite andb_true_iff, Nat.eqb_eq. tauto.
Qed.

Lemma last_message_snoc (l : list ChatMessage) (m : ChatMessage) :
  last_message (l ++ [m]) = JStr (message m).
Proof. unfold last_message. rewrite map_app. simpl. now rewrite last_last. Qed.

(** X5.  The session list of a user holds exactly the stored sessions of
    that user that are active, each once, the most recently updated
    first; the summary of each gives the number of its messages and the
    text of the one appended last ([null] for a session with none). *)
Theorem get_chat_sessions_lists_active_newest_first (d : DB) (user : nat) :
  wf d ->
  (forall s, In s (active_sessions d user)
             <-> In s (chat_sessions d) /\ cs_user s = user /\ is_active s = true) /\
  StronglySorted (fun a b => cs_updated_at b <= cs_updated_at a) (active_sessions d user) /\
  NoDup (List.map session_id (active_sessions d user)) /\
  get_chat_sessions d user
  = mkResponse 200
      (JObj [("sessions",
              JList (List.map
                       (fun s =>
                          JObj [("session_id", JStr (session_id s));
                                ("created_at", JNum (cs_created_at s));
                                ("updated_at", JNum (cs_updated_at s));
                                ("message_count",
                                 JNum (Z.of_nat (length (messages_of d s))));
                                ("last_message",
                                 match rev (messages_of d s) with
                                 | m :: _ => JStr (message m)
                                 | [] => JNull
                                 end)])
                       (active_sessions d user)))]).
Proof.
  intros Hwf. split; [apply active_sessions_In|].
  split; [apply active_sessions_sorted|]. split.
  - unfold active_sessions, order_by_desc.
    eapply Permutation_NoDup.
    + apply Permutation_map, order_by_perm.
    + apply NoDup_map_filter, (wf_sid_unique d Hwf).
  - unfold get_chat_sessions. f_equal. f_equal. f_equal. f_equal. f_equal.
    apply map_ext. intros s. unfold session_summary.
    rewrite (messages_of_sorted d s Hwf).
    assert (last_message (messages_of d s)
            = match rev (messages_of d s) with
              | m :: _ => JStr (message m)
              | [] => JNull
              end) as ->; [|reflexivity].
    destruct (messages_of d s) as [|m l _] using rev_ind; [reflexivity|].
    rewrite last_message_snoc, rev_app_distr. reflexivity.
Qed.

Lemma get_chat_sessions_lists_active_newest_first_witness :
  active_sessions db_one_turn 1 = [session_one] /\
  active_sessions db_cleared 1 = [] /\
  json_get "sessions" (data (get_chat_sessions db_one_turn 1))
  = Some (JList [JObj [("session_id", JStr "s-1"); ("created_at", JNum 0);
                       ("updated_at", JNum 3); ("message_count", JNum 2);
                       ("last_message", JStr "Apply nitrogen fertilizer.")]]).
Proof.
  destruct (get_chat_sessions_lists_active_newest_first db_one_turn 1 db_one_turn_wf)
    as [_ [_ [_ H]]].
  split; [reflexivity|]. split; [reflexivity|]. now rewrite H.
Defined.

(** X6.  After a turn that the model answered on an active session of the
    caller, that session is the first of the caller's session list, its
    summary counts two messages more than before and shows the reply as
    the last message. *)
Theorem answered_turn_moves_session_to_front
    (generate : gen_request -> result string) (SYSTEM_INSTRUCTION : string)
    (str : exn -> string)
    (d : DB) (user : nat) (rq : ChatRequest) (uuid4 sid : string) (s : ChatSession)
    (reply : string) :
  wf d ->
  Py.truthy (Py.strip (default "" (req_message rq))) = true ->
  req_session_id rq = Some sid -> Py.truthy sid = true ->
  ChatSession_get d sid user = Ok s -> is_active s = true ->
  model_reply generate SYSTEM_INSTRUCTION (Py.strip (default "" (req_message rq))) = Ok reply ->
  exists d' calls s' rest,
    chat_with_ai generate SYSTEM_INSTRUCTION str d user rq uuid4
    = (mkResponse 200 (JObj [("response", JStr reply); ("session_id", JStr sid)]),
       d', calls) /\
    active_sessions d' user = s' :: rest /\
    session_summary d' s'
    = JObj [("session_id", JStr sid);
            ("created_at", JNum (cs_created_at s));
            ("updated_at", JNum (now d + 2));
            ("message_count", JNum (Z.of_nat (length (messages_of d s) + 2)));
            ("last_message", JStr reply)].
Proof.
  intros Hwf Hm Hs Ht Hg Hact Hr.
  destruct (ChatSession_get_Ok _ _ _ _ Hg) as [Hin [Hsid Hu]].
  destruct (turn_on_existing_ok generate SYSTEM_INSTRUCTION str d user rq uuid4 sid s reply
              Hwf Hm Hs Ht Hg Hr) as [d' [calls [E [Hmsgs [Hget [Hlt Hwf']]]]]].
  set (msg := Py.strip (default "" (req_message rq))) in *.
  set (s' := mkChatSession (cs_pk s) (cs_user s) (session_id s) (cs_created_at s)
                           (now d + 2) (is_active s)) in *.
  (* the rows of the sessions after the turn *)
  assert (forall y, In y (chat_sessions d') -> y = s' \/ cs_updated_at y < now d + 2) as Hrows.
  { rewrite (chat_with_ai_existing generate SYSTEM_INSTRUCTION str d user rq uuid4 sid s
               Hm Hs Ht Hg) in E.
    destruct (chat_turn_ok generate SYSTEM_INSTRUCTION str d s sid msg reply Hr)
      as [calls' E'].
    fold msg in E. rewrite E' in E. injection E as <- _.
    intros y Hy.
    rewrite (ChatSession_save_rows _ s s) in Hy; [|exact Hin|reflexivity].
    apply in_map_iff in Hy. destruct Hy as [r [<- Hr0]].
    unfold upd_row. destruct (cs_pk r =? cs_pk s)%nat.
    - left. unfold saved, s'. simpl. f_equal. lia.
    - right. pose proof (wf_sess_past d Hwf) as Hp. rewrite Forall_forall in Hp.
      specialize (Hp r Hr0). lia. }
  destruct (ChatSession_get_Ok _ _ _ _ Hget) as [Hin' [Hsid' Hu']].
  assert (In s' (active_sessions d' user)) as Hlisted.
  { apply active_sessions_In. split; [exact Hin'|]. split; [exact Hu'|exact Hact]. }
  destruct (sorted_desc_head cs_updated_at s' (active_sessions d' user)
              (active_sessions_sorted d' user) Hlisted) as [rest Hrest].
  { intros y Hy. apply active_sessions_In in Hy. destruct Hy as [Hy _].
    destruct (Hrows y Hy) as [->|Hlt']; [now left|right; exact Hlt']. }
  exists d', calls, s', rest. split; [exact E|]. split; [exact Hrest|].
  unfold session_summary. rewrite (messages_of_sorted d' s' Hwf').
  assert (messages_of d' s' = messages_of d s ++ turn_rows d s msg reply (now d)) as ->.
  { unfold messages_of. rewrite Hmsgs, filter_app. f_equal.
    unfold turn_rows. simpl. now rewrite Nat.eqb_refl. }
  unfold turn_rows at 2.
  replace (messages_of d s
             ++ [mkChatMessage (next_message_pk d) (cs_pk s) "user" msg (now d);
                 mkChatMessage (S (next_message_pk d)) (cs_pk s) "model" reply (now d + 1)])
    with ((messages_of d s
             ++ [mkChatMessage (next_message_pk d) (cs_pk s) "user" msg (now d)])
            ++ [mkChatMessage (S (next_message_pk d)) (cs_pk s) "model" reply (now d + 1)])
    by (now rewrite <- app_assoc).
  rewrite last_message_snoc. unfold turn_rows. rewrite length_app. simpl.
  now rewrite Hsid.
Qed.

Lemma answered_turn_moves_session_to_front_witness :
  exists d' calls s' rest,
    chat_with_ai advisor instruction str_of db_one_turn 1 next_question "u"
    = (mkResponse 200 (JObj [("response", JStr "Apply nitrogen fertilizer.");
                             ("session_id", JStr "s-1")]), d', calls) /\
    active_sessions d' 1 = s' :: rest /\
    json_get "message_count" (session_summary d' s') = Some (JNum 4).
Proof.
  destruct (answered_turn_moves_session_to_front advisor instruction str_of
              db_one_turn 1 next_question "u" "s-1" session_one
              "Apply nitrogen fertilizer." db_one_turn_wf
              eq_refl eq_refl eq_refl eq_refl eq_refl eq_refl)
    as [d' [calls [s' [rest [E [Hl Hs]]]]]].
  exists d', calls, s', rest. split; [exact E|]. split; [exact Hl|].
  now rewrite Hs.
Defined.

(** *** Whole turns *)

(** A transcript made of whole turns: a message of the user, then one of
    the model, and so on. *)
Inductive whole_turns : list ChatMessage -> Prop :=
| turns_none : whole_turns []
| turns_more (u m : ChatMessage) (rest : list ChatMessage) :
    cm_role u = "user" -> cm_role m = "model" -> whole_turns rest ->
    whole_turns (u :: m :: rest).

Lemma whole_turns_app (l1 l2 : list ChatMessage) :
  whole_turns l1 -> whole_turns l2 -> whole_turns (l1 ++ l2).
Proof. induction 1; simpl; [auto|]. intros H2. constructor; auto. Qed.

Lemma whole_turns_even (l : list ChatMessage) :
  whole_turns l -> exists n, length l = (2 * n)%nat.
Proof.
  induction 1 as [|u m rest _ _ _ [n IH]]; [now exists 0%nat|].
  exists (S n). simpl. lia.
Qed.

Definition by_turns (d : DB) : Prop :=
  forall pk, whole_turns (List.filter (fun m => (cm_session m =? pk)%nat) (chat_messages d)).

Lemma by_turns_chat_with_ai
    (generate : gen_request -> result string) (SYSTEM_INSTRUCTION : string)
    (str : exn -> string) (d : DB) (user : nat) (rq : ChatRequest) (uuid4 : string) :
  by_turns d ->
  by_turns (snd (fst (chat_with_ai generate SYSTEM_INSTRUCTION str d user rq uuid4))).
Proof.
  intros Hd pk.
  destruct (chat_with_ai_effect generate SYSTEM_INSTRUCTION str d user rq uuid4)
    as [[resp [d' [calls [-> [_ [Hm _]]]]]]|[s [reply [sid [d' [calls [t [-> [_ [_ [Hm _]]]]]]]]]]];
    simpl; rewrite Hm; [apply Hd|].
  rewrite filter_app. apply whole_turns_app; [apply Hd|].
  unfold turn_rows. simpl. destruct (cs_pk s =? pk)%nat; repeat constructor.
Qed.

Lemma by_turns_clear (str : exn -> string) (d : DB) (user : nat) (sid : option string) :
  by_turns d -> by_turns (snd (clear_chat_session str d user sid)).
Proof.
  intros Hd. unfold clear_chat_session.
  destruct sid as [sid|]; [|exact Hd].
  destruct (Py.truthy sid); [|exact Hd].
  destruct (ChatSession_get d sid user) as [s|e]; [exact Hd|].
  destruct e; exact Hd.
Qed.

Lemma by_turns_delete (d : DB) (user : nat) (sid : string) :
  by_turns d -> by_turns (snd (delete_chat_session d user sid)).
Proof.
  intros Hd. unfold delete_chat_session.
  destruct (ChatSession_get d sid user) as [s|e]; [|destruct e; exact Hd].
  intros pk. simpl. destruct (Nat.eq_dec pk (cs_pk s)) as [->|Hne].
  - assert (List.filter (fun m => (cm_session m =? cs_pk s)%nat)
              (List.filter (fun m => negb (cm_session m =? cs_pk s)%nat) (chat_messages d))
            = []) as ->; [|constructor].
    induction (chat_messages d) as [|m l IH]; simpl; [reflexivity|].
    destruct (cm_session m =? cs_pk s)%nat eqn:E; simpl; [exact IH|].
    now rewrite E.
  - rewrite (filter_filter_other (cs_pk s) pk _ Hne). apply Hd.
Qed.

(** X7.  In every state the service reaches from empty tables by chat
    turns, clears and deletes, whatever the model answered on the way:
    the transcript of every session is a sequence of whole turns (a user
    message followed by a model message), so its length is even; session
    identifiers are pairwise different; and the message table is in
    strictly increasing order of creation time. *)
Theorem reachable_transcripts_are_whole_turns
    (generate : gen_request -> result string) (SYSTEM_INSTRUCTION : string)
    (str : exn -> string) (d : DB) :
  reachable generate SYSTEM_INSTRUCTION str d ->
  (forall s, whole_turns (messages_of d s) /\
             exists n, length (messages_of d s) = (2 * n)%nat) /\
  NoDup (List.map session_id (chat_sessions d)) /\
  StronglySorted (fun a b => cm_created_at a < cm_created_at b) (chat_messages d).
Proof.
  intros Hr.
  assert (by_turns d) as Hbt.
  { induction Hr.
    - intros pk. constructor.
    - exact IHHr.
    - now apply by_turns_chat_with_ai.
    - now apply by_turns_clear.
    - now apply by_turns_delete. }
  pose proof (reachable_wf generate SYSTEM_INSTRUCTION str d Hr) as Hwf.
  split; [|split].
  - intros s. split; [apply Hbt|]. apply whole_turns_even, Hbt.
  - apply (wf_sid_unique d Hwf).
  - apply (wf_msgs_sorted d Hwf).
Qed.

Lemma reachable_transcripts_are_whole_turns_witness :
  whole_turns (messages_of db_cleared session_cleared) /\
  length (messages_of db_cleared session_cleared) = 2%nat.
Proof.
  destruct (reachable_transcripts_are_whole_turns advisor instruction str_of db_cleared)
    as [H _].
  - apply reach_clear. apply reach_chat. apply reach_empty.
  - split; [apply H|reflexivity].
Defined.

End ChatMore.

(** ** More on the daily tip *)

Module TipMore.
Import Tip TipFacts.



(** X9.  What a request does to the cache, on a cache whose entries this
    handler has set: the entries keep outliving the day after their key's;
    no key but today's is touched; the model is called at most once, and
    not at all when the answer reports [cached] true without [fallback];
    an answer that carries [fallback] leaves the cache exactly as it was,
    so a fallback tip is never stored. *)
Theorem get_daily_farming_tip_cache_effect
    (generate : gen_request -> result string)
    (c : gmap Z entry) (t0 dt : Z) (rnd : nat) :
  cache_ok c -> 0 <= dt ->
  let r := get_daily_farming_tip generate c t0 dt rnd in
  cache_ok (snd (fst r)) /\
  (forall k, k <> date_of t0 -> snd (fst r) !! k = c !! k) /\
  (length (snd r) <= 1)%nat /\
  (forall resp,
      fst (fst r) = Ok resp ->
      (json_get "fallback" (data resp) = Some (JBool true) -> snd (fst r) = c) /\
      (json_get "fallback" (data resp) = None ->
       json_get "cached" (data resp) = Some (JBool true) ->
       snd (fst r) = c /\ snd r = [])).
Proof.
  intros Hok Hdt r. subst r.
  destruct (truthy_opt (cache_get c (date_of t0) t0)) as [tip|] eqn:Hc.
  - rewrite (tip_hit generate c t0 dt rnd tip Hc). simpl.
    split; [exact Hok|]. split; [auto|]. split; [lia|].
    intros resp [= <-]. simpl. split; [discriminate|auto].
  - destruct (generate tip_request) as [text|e] eqn:Hg.
    + rewrite (tip_fresh generate c t0 dt rnd text Hc Hg). simpl.
      split; [now apply cache_ok_set|]. split.
      * intros k Hk. unfold cache_set. now rewrite lookup_insert_ne by congruence.
      * split; [lia|]. intros resp [= <-]. simpl. split; discriminate.
    + rewrite (tip_failed generate c t0 dt rnd e Hc Hg). simpl.
      split; [exact Hok|]. split; [auto|]. split; [lia|].
      intros resp Hresp. split; [auto|].
      destruct (truthy_opt (cache_get c (date_of (t0 + dt - 86400)) (t0 + dt)))
        as [y|] eqn:Hy.
      * rewrite (except_block_yesterday c (t0 + dt) rnd y Hy) in Hresp.
        injection Hresp as <-. discriminate.
      * destruct (except_block_pool c (t0 + dt) rnd Hy) as [tip [E _]].
        rewrite E in Hresp. injection Hresp as <-. discriminate.
Qed.

Lemma get_daily_farming_tip_cache_effect_witness :
  snd (fst (get_daily_farming_tip unreachable_model ∅ morning 1 2)) = ∅ /\
  (length (snd (get_daily_farming_tip mulch_model ∅ morning 1 2)) <= 1)%nat.
Proof.
  destruct (get_daily_farming_tip_cache_effect unreachable_model ∅ morning 1 2
              cache_ok_empty ltac:(lia)) as [_ [_ [_ H]]].
  destruct (get_daily_farming_tip_cache_effect mulch_model ∅ morning 1 2
              cache_ok_empty ltac:(lia)) as [_ [_ [Hl _]]].
  split; [|exact Hl].
  destruct (H _ eq_refl) as [Hf _]. exact (Hf eq_refl).
Defined.




End TipMore.

(** ** More on the community feed: comments, deleting a post *)

Module CommunityMore.
Import Community CommunityFacts.

(** *** Comments ([post_comments]) *)

(** [serializer.save(user=request.user, post=post)] of a comment. *)
Definition PostComment_create (d : DB) (user : nat) (post : CommunityPost) (content : string)
  : PostComment * DB :=
  let c := mkComment (next_pk d) user (post_pk post) content (now d) (now d) in
  (c, mkDB (posts d) (likes d) (comments d ++ [c]) (S (next_pk d)) (now d + 1)).

(** [PostCommentSerializer], without the fields of the user. *)
Definition serialize_comment (c : PostComment) : json :=
  JObj [("id", JNum (Z.of_nat (comment_pk c)));
        ("content", JStr (comment_content c));
        ("created_at", JNum (comment_created_at c));
        ("updated_at", JNum (comment_updated_at c))].

Inductive comments_method : Type := GET | POST.

(** [PostComment.objects.filter(post=post).order_by('created_at')]. *)
Definition comments_of (d : DB) (post : CommunityPost) : list PostComment :=
  Chat.order_by comment_created_at
    (List.filter (fun c => (comment_post c =? post_pk post)%nat) (comments d)).

Section Comments.
(** The field validation of the comment serializer on the body: the
    content, or the errors. *)
Context {payload : Type} (to_internal_value : payload -> string + json).

Definition post_comments (d : DB) (method : comments_method) (user pk : nat)
    (body : payload) : Response * DB :=
  match CommunityPost_get d pk with
  | Raise _ =>
      (mkResponse HTTP_404_NOT_FOUND (JObj [("error", JStr "Post not found")]), d)
  | Ok post =>
      match method with
      | GET =>
          (mkResponse HTTP_200_OK (JList (List.map serialize_comment (comments_of d post))), d)
      | POST =>
          match to_internal_value body with
          | inl content =>
              let '(c, d') := PostComment_create d user post content in
              (mkResponse HTTP_201_CREATED (serialize_comment c), d')
          | inr errors => (mkResponse HTTP_400_BAD_REQUEST errors, d)
          end
      end
  end.
End Comments.

(** The comments come in the order of their timestamps, none from the
    future, and their keys are below the next one. *)
Record comments_wf (d : DB) : Prop := mkCommentsWf {
  cw_sorted : StronglySorted (fun a b => comment_created_at a <= comment_created_at b)
                (comments d);
  cw_past : Forall (fun c => comment_created_at c <= now d) (comments d);
  cw_keys : Forall (fun c => (comment_pk c < next_pk d)%nat) (comments d)
}.

Lemma comments_of_sorted (d : DB) (post : CommunityPost) :
  comments_wf d ->
  comments_of d post
  = List.filter (fun c => (comment_post c =? post_pk post)%nat) (comments d).
Proof.
  intros Hwf. apply ChatFacts.order_by_sorted.
  apply ChatFacts.StronglySorted_filter, (cw_sorted d Hwf).
Qed.

Lemma find_app_none {A : Type} (p : A -> bool) (l : list A) (x : A) :
  List.find p l = None -> p x = true -> List.find p (l ++ [x]) = Some x.
Proof.
  induction l as [|a l IH]; simpl; intros Hn Hx; [now rewrite Hx|].
  destruct (p a); [discriminate|]. now apply IH.
Qed.

Lemma find_all_false {A : Type} (p : A -> bool) (l : list A) :
  (forall x, In x l -> p x = false) -> List.find p l = None.
Proof.
  induction l as [|a l IH]; simpl; intros H; [reflexivity|].
  rewrite (H a (or_introl eq_refl)). apply IH. intros x Hx. apply H. now right.
Qed.

Lemma filter_drop_last_key (l : list PostComment) (c : PostComment) :
  Forall (fun c' => (comment_pk c' < comment_pk c)%nat) l ->
  List.filter (fun c' => negb (comment_pk c' =? comment_pk c)%nat) (l ++ [c]) = l.
Proof.
  intros Hl. rewrite filter_app. simpl. rewrite Nat.eqb_refl. simpl.
  rewrite app_nil_r. induction Hl as [|a l Ha _ IH]; simpl; [reflexivity|].
  assert ((comment_pk a =? comment_pk c)%nat = false) as -> by (apply Nat.eqb_neq; lia).
  simpl. now rewrite IH.
Qed.

(** X11.  On a stored post a valid comment is stored as one new row, of
    the caller, on that post, with the validated content: the answer is
    the 201, the comment count of the post grows by one, and the list of
    its comments is the list before followed by the new one.  When its
    author deletes it again, the answer is the 204 and the table of
    comments is exactly what it was before. *)
Theorem comment_then_delete_restores
    {payload : Type} (to_internal_value : payload -> string + json)
    (d : DB) (user pk : nat) (body : payload) (post : CommunityPost) (content : string) :
  comments_wf d ->
  CommunityPost_get d pk = Ok post ->
  to_internal_value body = inl content ->
  exists c d',
    post_comments to_internal_value d POST user pk body
    = (mkResponse 201 (serialize_comment c), d') /\
    c = mkComment (next_pk d) user pk content (now d) (now d) /\
    comments d' = comments d ++ [c] /\
    comments_count d' post = S (comments_count d post) /\
    fst (post_comments to_internal_value d' GET user pk body)
    = mkResponse 200
        (JList (List.map serialize_comment (comments_of d post ++ [c]))) /\
    comments_wf d' /\
    exists d'',
      delete_comment d' user pk (comment_pk c)
      = (mkResponse 204 (JObj [("message", JStr "Comment deleted successfully")]), d'') /\
      comments d'' = comments d /\ posts d'' = posts d /\ likes d'' = likes d.
Proof.
  intros Hwf Hg Hv. pose proof (CommunityPost_get_pk d pk post Hg) as Hpk.
  destruct Hwf as [Hs Hp Hk].
  set (c := mkComment (next_pk d) user pk content (now d) (now d)).
  set (d' := mkDB (posts d) (likes d) (comments d ++ [c]) (S (next_pk d)) (now d + 1)).
  assert (comments_wf d') as Hwf'.
  { split; simpl.
    - apply ChatFacts.StronglySorted_snoc; [exact Hs|exact Hp].
    - apply Forall_app. split.
      + eapply Forall_impl; [|exact Hp]. simpl. intros; lia.
      + constructor; [simpl; lia|constructor].
    - apply Forall_app. split.
      + eapply Forall_impl; [|exact Hk]. simpl. intros; lia.
      + constructor; [simpl; lia|constructor]. }
  exists c, d'. split.
  { unfold post_comments, PostComment_create. rewrite Hg, Hv, Hpk. reflexivity. }
  split; [reflexivity|]. split; [reflexivity|]. split.
  { unfold comments_count. simpl. rewrite filter_app, length_app. simpl.
    rewrite Hpk, Nat.eqb_refl. simpl. lia. }
  split.
  { unfold post_comments.
    assert (CommunityPost_get d' pk = Ok post) as -> by exact Hg.
    simpl. do 2 f_equal.
    rewrite (comments_of_sorted d' post Hwf'), (comments_of_sorted d post (mkCommentsWf d Hs Hp Hk)).
    simpl. rewrite filter_app. simpl. now rewrite Hpk, Nat.eqb_refl. }
  split; [exact Hwf'|].
  exists (mkDB (posts d) (likes d) (comments d) (S (next_pk d)) (now d + 1)).
  unfold delete_comment, PostComment_get.
  assert (List.find (fun c0 => (comment_pk c0 =? comment_pk c)%nat && (comment_post c0 =? pk)%nat)
            (comments d') = Some c) as ->.
  { simpl. apply find_app_none.
    - apply find_all_false. intros x Hx. rewrite Forall_forall in Hk. specialize (Hk x Hx).
      assert ((comment_pk x =? next_pk d)%nat = false) as -> by (apply Nat.eqb_neq; lia).
      reflexivity.
    - simpl. now rewrite !Nat.eqb_refl. }
  simpl. rewrite Nat.eqb_refl. simpl. split; [|auto].
  unfold PostComment_delete. simpl. do 2 f_equal.
  apply (filter_drop_last_key (comments d) c). exact Hk.
Qed.

(** A field validation for the examples: the content stripped, refused
    when nothing is left. *)
Definition content_of (body : string) : string + json :=
  match Py.strip body with
  | EmptyString => inr (JObj [("content", JList [JStr "This field may not be blank."])])
  | s => inl s
  end.

Lemma feed_comments_wf : comments_wf feed.
Proof. split; simpl; repeat constructor; simpl; lia. Qed.

Lemma comment_then_delete_restores_witness :
  exists c d' d'',
    post_comments content_of feed POST 2 1 "When did you plant?"
    = (mkResponse 201 (serialize_comment c), d') /\
    comments_count d' (mkPost 1 1 "First rains have come, planting maize this week."
                              ["maize"] 10 10) = 2%nat /\
    delete_comment d' 2 1 (comment_pk c)
    = (mkResponse 204 (JObj [("message", JStr "Comment deleted successfully")]), d'') /\
    comments d'' = comments feed.
Proof.
  destruct (comment_then_delete_restores content_of feed 2 1 "When did you plant?"
              (mkPost 1 1 "First rains have come, planting maize this week." ["maize"] 10 10)
              "When did you plant?" feed_comments_wf eq_refl eq_refl)
    as [c [d' [E [_ [_ [Hc [_ [_ [d'' [Ed [Hcs _]]]]]]]]]]].
  exists c, d', d''. auto.
Defined.

(** *** Deleting a post *)

Definition count_comments (d : DB) (pk : nat) : nat :=
  length (List.filter (fun c => (comment_post c =? pk)%nat) (comments d)).

Lemma find_filter_other (pk pk2 : nat) (l : list CommunityPost) :
  pk2 <> pk ->
  List.find (fun p => (post_pk p =? pk2)%nat)
    (List.filter (fun p => negb (post_pk p =? pk)%nat) l)
  = List.find (fun p => (post_pk p =? pk2)%nat) l.
Proof.
  intros Hne. induction l as [|p l IH]; simpl; [reflexivity|].
  destruct (post_pk p =? pk)%nat eqn:E; simpl.
  - apply Nat.eqb_eq in E.
    assert ((post_pk p =? pk2)%nat = false) as -> by (apply Nat.eqb_neq; lia).
    exact IH.
  - destruct (post_pk p =? pk2)%nat; [reflexivity|exact IH].
Qed.

Lemma find_filter_same (pk : nat) (l : list CommunityPost) :
  List.find (fun p => (post_pk p =? pk)%nat)
    (List.filter (fun p => negb (post_pk p =? pk)%nat) l) = None.
Proof.
  apply find_all_false. intros x Hx. apply filter_In in Hx.
  destruct Hx as [_ Hx]. now apply negb_true_iff in Hx.
Qed.

Lemma count_filter_other {A : Type} (key : A -> nat) (pk pk2 : nat) (l : list A) :
  pk2 <> pk ->
  length (List.filter (fun x => (key x =? pk2)%nat)
            (List.filter (fun x => negb (key x =? pk)%nat) l))
  = length (List.filter (fun x => (key x =? pk2)%nat) l).
Proof.
  intros Hne. induction l as [|x l IH]; simpl; [reflexivity|].
  destruct (key x =? pk)%nat eqn:E; simpl.
  - apply Nat.eqb_eq in E.
    assert ((key x =? pk2)%nat = false) as -> by (apply Nat.eqb_neq; lia).
    exact IH.
  - destruct (key x =? pk2)%nat; simpl; now rewrite IH.
Qed.

Lemma count_filter_same {A : Type} (key : A -> nat) (pk : nat) (l : list A) :
  List.filter (fun x => (key x =? pk)%nat)
    (List.filter (fun x => negb (key x =? pk)%nat) l) = [].
Proof.
  induction l as [|x l IH]; simpl; [reflexivity|].
  destruct (key x =? pk)%nat eqn:E; simpl; [exact IH|]. now rewrite E.
Qed.

(** X12.  The author deletes a post: the answer is the 204; the post is
    gone, with every like and every comment on it, so that a like toggle
    on it, and a request to list its comments or to add one, answer the
    404 of their handlers and change nothing; every other post is still
    found, with the same numbers of likes and comments as before. *)
Theorem destroy_removes_post_likes_and_comments
    (d : DB) (user pk : nat) (post : CommunityPost) :
  CommunityPost_get d pk = Ok post -> author post = user ->
  exists d',
    destroy d user pk = (mkResponse 204 JNull, d') /\
    CommunityPost_get d' pk = Raise DoesNotExist /\
    count_likes d' pk = 0%nat /\ count_comments d' pk = 0%nat /\
    (forall u, toggle_post_like d' u pk
               = (mkResponse 404 (JObj [("error", JStr "Post not found")]), d')) /\
    (forall (payload : Type) (to_internal_value : payload -> string + json)
            (method : comments_method) (u : nat) (body : payload),
        post_comments to_internal_value d' method u pk body
        = (mkResponse 404 (JObj [("error", JStr "Post not found")]), d')) /\
    (forall pk2, pk2 <> pk ->
                 CommunityPost_get d' pk2 = CommunityPost_get d pk2 /\
                 count_likes d' pk2 = count_likes d pk2 /\
                 count_comments d' pk2 = count_comments d pk2).
Proof.
  intros Hg Ha. pose proof (CommunityPost_get_pk d pk post Hg) as Hpk.
  exists (CommunityPost_delete d post).
  assert (CommunityPost_get (CommunityPost_delete d post) pk = Raise DoesNotExist) as Hgone.
  { unfold CommunityPost_get, CommunityPost_delete. simpl.
    now rewrite Hpk, find_filter_same. }
  split.
  { unfold destroy, get_object, perform_destroy. rewrite Hg, Ha, Nat.eqb_refl. reflexivity. }
  split; [exact Hgone|]. split.
  { unfold count_likes, CommunityPost_delete. simpl.
    now rewrite Hpk, (count_filter_same like_post). }
  split.
  { unfold count_comments, CommunityPost_delete. simpl.
    now rewrite Hpk, (count_filter_same comment_post). }
  split; [intros u; unfold toggle_post_like; now rewrite Hgone|].
  split; [intros payload to_internal_value method u body; unfold post_comments;
          now rewrite Hgone|].
  intros pk2 Hne. unfold CommunityPost_get, count_likes, count_comments, CommunityPost_delete.
  simpl. rewrite Hpk.
  rewrite (find_filter_other pk pk2 _ Hne).
  rewrite (count_filter_other like_post pk pk2 _ Hne).
  rewrite (count_filter_other comment_post pk pk2 _ Hne). auto.
Qed.

Lemma destroy_removes_post_likes_and_comments_witness :
  exists d',
    destroy feed 1 1 = (mkResponse 204 JNull, d') /\
    likes d' = [] /\ comments d' = [] /\ posts d' = [] /\
    post_comments (fun body : string => inl body) d' POST 2 1 "Well done"
    = (mkResponse 404 (JObj [("error", JStr "Post not found")]), d').
Proof.
  destruct (destroy_removes_post_likes_and_comments feed 1 1
              (mkPost 1 1 "First rains have come, planting maize this week." ["maize"] 10 10)
              eq_refl eq_refl) as (d' & E & _ & _ & _ & _ & Hc & _).
  exists d'. split; [exact E|].
  split; [injection E as <-; reflexivity|].
  split; [injection E as <-; reflexivity|].
  split; [injection E as <-; reflexivity|].
  apply Hc.
Defined.

End CommunityMore.

(** ** More on the tutorial catalog: changing, deleting, counting *)

Module LmsMore.
Import Lms LmsFacts.

(** *** [TutorialDetailView] *)

(** The validated fields of an update; [None] leaves the field alone (a
    partial update). *)
Record tutorial_update := mkUpdate {
  u_title : option string;
  u_description : option string;
  u_category : option string;
  u_video : option string
}.

Definition apply_update (a : tutorial_update) (t : Tutorial) : Tutorial :=
  mkTutorial (tutorial_pk t) (uploader t)
             (default (title t) (u_title a))
             (default (description t) (u_description a))
             (default (category t) (u_category a))
             (default (video t) (u_video a))
             (view_count t).

(** [instance.save()] and [instance.delete()]. *)
Definition Tutorial_save (d : DB) (t' : Tutorial) : DB :=
  mkDB (List.map (fun t => if (tutorial_pk t =? tutorial_pk t')%nat then t' else t)
                 (tutorials d))
       (next_pk d).

Definition Tutorial_delete (d : DB) (t' : Tutorial) : DB :=
  mkDB (List.filter (fun t => negb (tutorial_pk t =? tutorial_pk t')%nat) (tutorials d))
       (next_pk d).

Definition get_object (d : DB) (pk : nat) : result Tutorial :=
  match Tutorial_get d pk with
  | Ok t => Ok t
  | Raise _ => Raise Http404
  end.

(** [TutorialSerializer.validate] on the fields of an update. *)
Definition validate_update (request : option Request) (attrs : tutorial_update)
  : result tutorial_update :=
  match request with
  | Some r =>
      if (method r =? "POST")%string
         && negb (user_type (user r) =? "extension_worker")%string
      then Raise (ValidationError
                    (JObj [("non_field_errors",
                            JList [JStr "Only extension workers can upload tutorials"])]))
      else Ok attrs
  | None => Ok attrs
  end.

Definition perform_update (d : DB) (request : Request) (instance : Tutorial)
    (a : tutorial_update) : result DB :=
  if negb (uploader instance =? user_pk (user request))%nat
  then Raise (PermissionError "You can only edit your own tutorials")
  else Ok (Tutorial_save d (apply_update a instance)).

Definition perform_destroy (d : DB) (request : Request) (instance : Tutorial) : result DB :=
  if negb (uploader instance =? user_pk (user request))%nat
  then Raise (PermissionError "You can only delete your own tutorials")
  else Ok (Tutorial_delete d instance).

Section DetailView.
Context {payload : Type} (to_internal_value : payload -> tutorial_update + json).

(** The generic [update]: the object, the validation, the hook. *)
Definition super_update (d : DB) (request : Request) (pk : nat) (body : payload)
  : result (Response * DB) :=
  match get_object d pk with
  | Raise e => Raise e
  | Ok instance =>
      match to_internal_value body with
      | inr errors => Raise (ValidationError errors)
      | inl a0 =>
          match validate_update (Some request) a0 with
          | Raise e => Raise e
          | Ok a =>
              match perform_update d request instance a with
              | Raise e => Raise e
              | Ok d' =>
                  Ok (mkResponse HTTP_200_OK (serialize_tutorial (apply_update a instance)), d')
              end
          end
      end
  end.

(** [TutorialDetailView.update]. *)
Definition update (d : DB) (request : Request) (pk : nat) (body : payload)
  : Response * DB :=
  match super_update d request pk body with
  | Ok (r, d') => (r, d')
  | Raise (PermissionError msg) =>
      (mkResponse HTTP_403_FORBIDDEN (JObj [("error", JStr msg)]), d)
  | Raise e => (exception_handler e, d)
  end.
End DetailView.

(** [TutorialDetailView.destroy]. *)
Definition destroy (d : DB) (request : Request) (pk : nat) : Response * DB :=
  match get_object d pk with
  | Raise (PermissionError msg) =>
      (mkResponse HTTP_403_FORBIDDEN (JObj [("error", JStr msg)]), d)
  | Raise e => (exception_handler e, d)
  | Ok instance =>
      match perform_destroy d request instance with
      | Raise (PermissionError msg) =>
          (mkResponse HTTP_403_FORBIDDEN (JObj [("error", JStr msg)]), d)
      | Raise e => (exception_handler e, d)
      | Ok d' => (mkResponse HTTP_204_NO_CONTENT JNull, d')
      end
  end.

Lemma Tutorial_get_after_delete (d : DB) (pk : nat) (t : Tutorial) :
  tutorial_pk t = pk -> Tutorial_get (Tutorial_delete d t) pk = Raise DoesNotExist.
Proof.
  intros <-. unfold Tutorial_get, Tutorial_delete. simpl.
  assert (List.find (fun t0 => (tutorial_pk t0 =? tutorial_pk t)%nat)
            (List.filter (fun t0 => negb (tutorial_pk t0 =? tutorial_pk t)%nat) (tutorials d))
          = None) as ->; [|reflexivity].
  apply CommunityMore.find_all_false. intros x Hx. apply filter_In in Hx.
  destruct Hx as [_ Hx]. now apply negb_true_iff in Hx.
Qed.

(** X13.  A tutorial is changed or deleted by its uploader only.  For
    anybody else a delete, and an update whose body is valid, answer the
    403 with the view's message and leave the catalog as it was.  A delete
    answers 204 only to the uploader, and the tutorial is not found
    afterwards. *)
Theorem tutorial_detail_needs_the_uploader
    {payload : Type} (to_internal_value : payload -> tutorial_update + json)
    (d : DB) (request : Request) (pk : nat) (t : Tutorial) :
  Tutorial_get d pk = Ok t ->
  (uploader t <> user_pk (user request) ->
   destroy d request pk
   = (mkResponse 403 (JObj [("error", JStr "You can only delete your own tutorials")]), d) /\
   (forall body a,
       method request <> "POST" -> to_internal_value body = inl a ->
       update to_internal_value d request pk body
       = (mkResponse 403 (JObj [("error", JStr "You can only edit your own tutorials")]), d))) /\
  (status (fst (destroy d request pk)) = 204 ->
   uploader t = user_pk (user request) /\
   Tutorial_get (snd (destroy d request pk)) pk = Raise DoesNotExist) /\
  (forall body,
      status (fst (update to_internal_value d request pk body)) = 200 ->
      uploader t = user_pk (user request)).
Proof.
  intros Hg. destruct (Tutorial_get_Ok d pk t Hg) as [Hpk _].
  split; [|split].
  - intros Hne. apply Nat.eqb_neq in Hne. split.
    + unfold destroy, get_object, perform_destroy. now rewrite Hg, Hne.
    + intros body a Hm Hv. unfold update, super_update, get_object, validate_update,
        perform_update. rewrite Hg, Hv. apply String.eqb_neq in Hm. rewrite Hm. simpl.
      now rewrite Hne.
  - unfold destroy, get_object, perform_destroy. rewrite Hg.
    destruct (uploader t =? user_pk (user request))%nat eqn:E; simpl; [|discriminate].
    intros _. split; [now apply Nat.eqb_eq|]. now apply Tutorial_get_after_delete.
  - intros body. unfold update, super_update, get_object, perform_update. rewrite Hg.
    destruct (to_internal_value body) as [a0|errors]; [|discriminate].
    destruct (validate_update (Some request) a0) as [a|e] eqn:Ev.
    + destruct (uploader t =? user_pk (user request))%nat eqn:E; simpl; [|discriminate].
      intros _. now apply Nat.eqb_eq.
    + unfold validate_update in Ev.
      destruct ((method request =? "POST")%string
                && negb (user_type (user request) =? "extension_worker")%string);
        [|discriminate].
      injection Ev as <-. discriminate.
Qed.

Definition rename_all (new_title : string) : tutorial_update + json :=
  inl (mkUpdate (Some new_title) None None None).

Lemma tutorial_detail_needs_the_uploader_witness :
  destroy catalog (mkRequest "DELETE" kofi) 1
  = (mkResponse 403 (JObj [("error", JStr "You can only delete your own tutorials")]),
     catalog) /\
  update rename_all catalog (mkRequest "PUT" kofi) 1 "Mine now"
  = (mkResponse 403 (JObj [("error", JStr "You can only edit your own tutorials")]),
     catalog).
Proof.
  destruct (tutorial_detail_needs_the_uploader rename_all catalog (mkRequest "DELETE" kofi) 1
              (mkTutorial 1 3 "Composting" "How to build a compost heap" "soil_management"
                          "composting.mp4" 5) eq_refl) as [H _].
  destruct (tutorial_detail_needs_the_uploader rename_all catalog (mkRequest "PUT" kofi) 1
              (mkTutorial 1 3 "Composting" "How to build a compost heap" "soil_management"
                          "composting.mp4" 5) eq_refl) as [H' _].
  split.
  - apply H. simpl. lia.
  - destruct H' as [_ H']; [simpl; lia|].
    apply (H' "Mine now" (mkUpdate (Some "Mine now") None None None)); [discriminate|reflexivity].
Defined.

(** *** Views, counted one request after the other *)

(** [view_count] is an [IntegerField]: its column holds the integers up
    to a largest one, [column_max] (2147483647 where the column has 32
    bits).  The database refuses to write a larger value and the write
    raises; [increment_views] has no [try] around it, so the exception
    leaves the view and the server answers 500.  The row is then what it
    was. *)
Module Column.
Section Width.
Variable column_max : Z.

(** What the database raises for a value out of the range of the column
    ([django.db.utils.DataError], or the driver's overflow error). *)
Inductive db_error : Type := OutOfRange.

(** [self.save(update_fields=['view_count'])]. *)
Definition save (d : DB) (instance : Tutorial) : DB + db_error :=
  if column_max <? view_count instance then inr OutOfRange
  else inl (save_view_count d instance).

(** [Tutorial.increment_view_count] on an instance read earlier. *)
Definition increment_view_count (d : DB) (self : Tutorial)
  : (Tutorial * DB) + db_error :=
  let self' := mkTutorial (tutorial_pk self) (uploader self) (title self) (description self)
                          (category self) (video self) (view_count self + 1) in
  match save d self' with
  | inl d' => inl (self', d')
  | inr e => inr e
  end.

(** [increment_views], run from start to end with nothing in between. *)
Definition increment_views (d : DB) (pk : nat) : Response * DB :=
  match Tutorial_get d pk with
  | Raise _ =>
      (mkResponse HTTP_404_NOT_FOUND (JObj [("error", JStr "Tutorial not found")]), d)
  | Ok tutorial =>
      match increment_view_count d tutorial with
      | inl (tutorial', d') =>
          (mkResponse HTTP_200_OK
             (JObj [("message", JStr "View count incremented");
                    ("view_count", JNum (view_count tutorial'))]), d')
      | inr _ => (mkResponse HTTP_500_INTERNAL_SERVER_ERROR JNull, d)
      end
  end.

(** [n] requests to [increment_views] for the tutorial of key [pk], each
    started after the one before has ended. *)
Fixpoint increment_times (n : nat) (d : DB) (pk : nat) : DB :=
  match n with
  | O => d
  | S n' => increment_times n' (snd (increment_views d pk)) pk
  end.

End Width.
End Column.

Lemma views_of_save_other (d : DB) (pk pk2 : nat) (t : Tutorial) :
  tutorial_pk t = pk -> pk2 <> pk ->
  views_of (save_view_count d t) pk2 = views_of d pk2.
Proof.
  intros <- Hne. unfold views_of, Tutorial_get, save_view_count. simpl.
  induction (tutorials d) as [|r rs IH]; simpl; [reflexivity|].
  destruct (tutorial_pk r =? tutorial_pk t)%nat eqn:E; simpl.
  - apply Nat.eqb_eq in E.
    assert ((tutorial_pk r =? pk2)%nat = false) as -> by (apply Nat.eqb_neq; lia).
    exact IH.
  - destruct (tutorial_pk r =? pk2)%nat; [reflexivity|exact IH].
Qed.

Lemma increment_views_other (d : DB) (pk pk2 : nat) :
  pk2 <> pk -> views_of (snd (increment_views d pk)) pk2 = views_of d pk2.
Proof.
  intros Hne. unfold increment_views.
  destruct (Tutorial_get d pk) as [t|e] eqn:Hg; [|reflexivity].
  destruct (Tutorial_get_Ok d pk t Hg) as [Hpk _]. simpl.
  now apply (views_of_save_other d pk pk2).
Qed.

Lemma increment_views_keeps_length (d : DB) (pk : nat) :
  length (tutorials (snd (increment_views d pk))) = length (tutorials d).
Proof.
  unfold increment_views. destruct (Tutorial_get d pk) as [t|e]; [|reflexivity].
  simpl. apply length_map.
Qed.

(** Below the largest value the column behaves as if it had no bound. *)
Lemma column_increment_views_in_range (column_max : Z) (d : DB) (pk : nat) (t : Tutorial) :
  Tutorial_get d pk = Ok t -> view_count t < column_max ->
  Column.increment_views column_max d pk = increment_views d pk.
Proof.
  intros Hg Hlt. unfold Column.increment_views, Column.increment_view_count, Column.save,
    increment_views, increment_view_count.
  rewrite Hg. simpl.
  assert ((column_max <? view_count t + 1) = false) as -> by (apply Z.ltb_ge; lia).
  reflexivity.
Qed.

Lemma column_increment_views_at_bound (column_max : Z) (d : DB) (pk : nat) (t : Tutorial) :
  Tutorial_get d pk = Ok t -> column_max <= view_count t ->
  Column.increment_views column_max d pk
  = (mkResponse 500 JNull, d).
Proof.
  intros Hg Hle. unfold Column.increment_views, Column.increment_view_count, Column.save.
  rewrite Hg. simpl.
  assert ((column_max <? view_count t + 1) = true) as -> by (apply Z.ltb_lt; lia).
  reflexivity.
Qed.

Lemma column_increment_views_missing (column_max : Z) (d : DB) (pk : nat) (e : exn) :
  Tutorial_get d pk = Raise e ->
  Column.increment_views column_max d pk
  = (mkResponse 404 (JObj [("error", JStr "Tutorial not found")]), d).
Proof.
  intros Hg. unfold Column.increment_views. rewrite Hg. reflexivity.
Qed.

Lemma column_increment_views_cases (column_max : Z) (d : DB) (pk : nat) :
  snd (Column.increment_views column_max d pk) = d \/
  snd (Column.increment_views column_max d pk) = snd (increment_views d pk).
Proof.
  destruct (Tutorial_get d pk) as [t|e] eqn:Hg.
  - destruct (Z_lt_le_dec (view_count t) column_max) as [Hlt|Hle].
    + right. now rewrite (column_increment_views_in_range column_max d pk t Hg Hlt).
    + left. now rewrite (column_increment_views_at_bound column_max d pk t Hg Hle).
  - left. now rewrite (column_increment_views_missing column_max d pk e Hg).
Qed.

(** X14.  Requests to count a view, run one after the other, on a column
    whose largest value is [column_max]: [n] of them on a stored tutorial
    raise its count by exactly [n] as long as the column holds the result,
    each answering 200 with the count it has reached; once the count is
    the largest value of the column every further request answers 500 and
    leaves the count where it is, so that after [n] requests the count is
    the smaller of the old count plus [n] and [column_max] (or the old
    count, if that is larger).  The count of every other tutorial and the
    number of tutorials stay what they were.  For a key that is not stored
    the answer is the 404 and nothing changes. *)
Theorem view_count_counts_requests (column_max : Z) (n : nat) :
  forall (d : DB) (pk : nat),
    (forall t,
        Tutorial_get d pk = Ok t ->
        views_of (Column.increment_times column_max n d pk) pk
        = Some (Z.max (view_count t) (Z.min (view_count t + Z.of_nat n) column_max)) /\
        (view_count t + Z.of_nat n <= column_max ->
         views_of (Column.increment_times column_max n d pk) pk
         = Some (view_count t + Z.of_nat n)) /\
        (view_count t < column_max ->
         fst (Column.increment_views column_max d pk)
         = mkResponse 200 (JObj [("message", JStr "View count incremented");
                                 ("view_count", JNum (view_count t + 1))])) /\
        (column_max <= view_count t ->
         Column.increment_views column_max d pk = (mkResponse 500 JNull, d))) /\
    (forall pk2, pk2 <> pk ->
                 views_of (Column.increment_times column_max n d pk) pk2 = views_of d pk2) /\
    length (tutorials (Column.increment_times column_max n d pk)) = length (tutorials d) /\
    (Tutorial_get d pk = Raise DoesNotExist ->
     Column.increment_views column_max d pk
     = (mkResponse 404 (JObj [("error", JStr "Tutorial not found")]), d)).
Proof.
  assert (Hcount : forall m d pk t,
             Tutorial_get d pk = Ok t ->
             views_of (Column.increment_times column_max m d pk) pk
             = Some (Z.max (view_count t) (Z.min (view_count t + Z.of_nat m) column_max))).
  { induction m as [|m IH]; intros d pk t Hg.
    - destruct (Tutorial_get_Ok d pk t Hg) as [_ Hv]. simpl. rewrite Hv. f_equal. lia.
    - simpl. destruct (Z_lt_le_dec (view_count t) column_max) as [Hlt|Hle].
      + rewrite (column_increment_views_in_range column_max d pk t Hg Hlt).
        destruct (increment_views_adds_one d pk t Hg) as [_ Hv].
        destruct (views_of_Some _ _ _ Hv) as [t1 [Hg1 Hc1]].
        rewrite (IH _ pk t1 Hg1), Hc1. f_equal. lia.
      + rewrite (column_increment_views_at_bound column_max d pk t Hg Hle). simpl.
        rewrite (IH d pk t Hg). f_equal. lia. }
  assert (Hother : forall m d pk pk2,
             pk2 <> pk ->
             views_of (Column.increment_times column_max m d pk) pk2 = views_of d pk2).
  { induction m as [|m IH]; intros d pk pk2 Hne; [reflexivity|]. simpl.
    rewrite (IH _ pk pk2 Hne).
    destruct (column_increment_views_cases column_max d pk) as [->| ->];
      [reflexivity|now apply increment_views_other]. }
  assert (Hlen : forall m d pk,
             length (tutorials (Column.increment_times column_max m d pk))
             = length (tutorials d)).
  { induction m as [|m IH]; intros d pk; [reflexivity|]. simpl. rewrite IH.
    destruct (column_increment_views_cases column_max d pk) as [->| ->];
      [reflexivity|apply increment_views_keeps_length]. }
  intros d pk. split; [|split; [|split]].
  - intros t Hg. split; [now apply Hcount|]. split; [|split].
    + intros Hle. rewrite (Hcount n d pk t Hg). f_equal. lia.
    + intros Hlt. rewrite (column_increment_views_in_range column_max d pk t Hg Hlt).
      unfold increment_views. now rewrite Hg.
    + intros Hle. now apply (column_increment_views_at_bound column_max d pk t).
  - intros pk2 Hne. now apply Hother.
  - apply Hlen.
  - intros Hg. now apply (column_increment_views_missing column_max d pk DoesNotExist).
Qed.

(** The tutorial of the catalog, five views so far, on a column that
    holds the counts up to seven: two requests bring it to seven, and the
    third is refused with the 500 and counts nothing. *)
Example view_count_stops_at_the_bound :
  views_of (Column.increment_times 7 2 catalog 1) 1 = Some 7 /\
  views_of (Column.increment_times 7 3 catalog 1) 1 = Some 7 /\
  status (fst (Column.increment_views 7 (Column.increment_times 7 2 catalog 1) 1)) = 500.
Proof. repeat split; reflexivity. Qed.

(** *** Who may list his tutorials *)

(** X15.  [my_tutorials] answers 200 exactly when the caller's
    [user_type], stripped and in lower case, is [extension_worker], and
    403 otherwise.  The upload is stricter: a role that only becomes
    [extension_worker] by stripping or lowering is let in here and still
    refused there with the 400. *)
Theorem my_tutorials_normalises_the_role
    {payload : Type} (to_internal_value : payload -> tutorial_attrs + json)
    (d : DB) (request : Request) :
  (status (my_tutorials d request) = 200
   <-> Py.lower (Py.strip (user_type (user request))) = "extension_worker") /\
  (status (my_tutorials d request) = 200 \/ status (my_tutorials d request) = 403) /\
  (forall body,
      method request = "POST" ->
      Py.lower (Py.strip (user_type (user request))) = "extension_worker" ->
      user_type (user request) <> "extension_worker" ->
      status (my_tutorials d request) = 200 /\
      status (fst (create to_internal_value d request body)) = 400 /\
      snd (create to_internal_value d request body) = d).
Proof.
  assert (status (my_tutorials d request) = 200
          <-> Py.lower (Py.strip (user_type (user request))) = "extension_worker") as Hiff.
  { unfold my_tutorials.
    destruct (Py.lower (Py.strip (user_type (user request))) =? "extension_worker")%string
      eqn:E; simpl.
    - apply String.eqb_eq in E. tauto.
    - apply String.eqb_neq in E. split; [discriminate|tauto]. }
  split; [exact Hiff|]. split.
  - unfold my_tutorials.
    destruct (negb _); simpl; auto.
  - intros body Hm Hn Hne. split; [now apply Hiff|].
    destruct (create_refused to_internal_value d request body Hm Hne) as [detail ->].
    auto.
Qed.

End LmsMore.

(** ** The field checks of [TutorialSerializer] ([serializers.py]) *)

Module Serializers.

(** *** [validate_category] *)

Definition valid_categories : list string :=
  ["crops"; "livestock"; "irrigation"; "pest_control";
   "soil_management"; "harvesting"; "post_harvest";
   "farm_equipment"; "marketing"; "other"].

(** [x in l] for strings. *)
Definition mem (x : string) (l : list string) : bool := existsb (String.eqb x) l.

(** The detail of a [ValidationError] raised with one message. *)
Definition one_error (msg : string) : exn := ValidationError (JList [JStr msg]).

Definition validate_category (value : string) : result string :=
  if negb (mem (Py.lower value) valid_categories) then
    Raise (one_error ("Invalid category. Must be one of: "
                        ++ String.concat ", " valid_categories)%string)
  else Ok (Py.lower value).

(** *** [os.path.splitext], as [posixpath] has it *)

(** [p.rfind(c)]: the last position of [c], or -1. *)
Fixpoint rfind_from (c : ascii) (p : list ascii) (i : Z) : Z :=
  match p with
  | [] => -1
  | a :: r =>
      let j := rfind_from c r (i + 1) in
      if 0 <=? j then j else if Ascii.eqb a c then i else -1
  end.

Definition rfind (c : ascii) (p : list ascii) : Z := rfind_from c p 0.

(** The loop that skips the leading dots of the file name: [true] when a
    character other than the dot comes before [dotIndex]. *)
Fixpoint name_before_dot (steps : nat) (p : list ascii) (filenameIndex : nat) : bool :=
  match steps with
  | O => false
  | S steps' =>
      if negb (Ascii.eqb (nth filenameIndex p "."%char) "."%char) then true
      else name_before_dot steps' p (S filenameIndex)
  end.

Definition splitext (path : string) : string * string :=
  let p := list_ascii_of_string path in
  let sepIndex := rfind "/"%char p in
  let dotIndex := rfind "."%char p in
  if (sepIndex <? dotIndex)
     && name_before_dot (Z.to_nat (dotIndex - (sepIndex + 1))) p (Z.to_nat (sepIndex + 1))
  then (string_of_list_ascii (firstn (Z.to_nat dotIndex) p),
        string_of_list_ascii (skipn (Z.to_nat dotIndex) p))
  else (path, "").

(** *** [validate_video] and [validate_thumbnail] *)

Record uploaded_file := mkFile { file_name : string; file_size : Z }.

(** [if value:] for a file: [None] is no file, a file is true when it has
    a name. *)
Definition file_truthy (value : option uploaded_file) : bool :=
  match value with
  | Some f => Py.truthy (file_name f)
  | None => false
  end.

Definition video_extensions : list string := [".mp4"; ".mov"; ".avi"; ".mkv"; ".webm"].
Definition thumbnail_extensions : list string := [".jpg"; ".jpeg"; ".png"; ".webp"].

Definition validate_video (value : option uploaded_file) : result (option uploaded_file) :=
  match value with
  | Some f =>
      if file_truthy value then
        if 100 * 1024 * 1024 <? file_size f then
          Raise (one_error "Video file size must be under 100MB")
        else
          let allowed_extensions := video_extensions in
          let file_extension := Py.lower (snd (splitext (file_name f))) in
          if negb (mem file_extension allowed_extensions) then
            Raise (one_error ("Video file must be one of: "
                                ++ String.concat ", " allowed_extensions)%string)
          else Ok value
      else Ok value
  | None => Ok value
  end.

Definition validate_thumbnail (value : option uploaded_file)
  : result (option uploaded_file) :=
  match value with
  | Some f =>
      if file_truthy value then
        if 5 * 1024 * 1024 <? file_size f then
          Raise (one_error "Thumbnail file size must be under 5MB")
        else
          let allowed_extensions := thumbnail_extensions in
          let file_extension := Py.lower (snd (splitext (file_name f))) in
          if negb (mem file_extension allowed_extensions) then
            Raise (one_error ("Thumbnail must be one of: "
                                ++ String.concat ", " allowed_extensions)%string)
          else Ok value
      else Ok value
  | None => Ok value
  end.

Example splitext_examples :
  splitext "clip.MP4" = ("clip", ".MP4") /\
  splitext "archive.tar.gz" = ("archive.tar", ".gz") /\
  splitext ".mp4" = (".mp4", "") /\
  splitext "...mp4" = ("...mp4", "") /\
  splitext "a.b/c" = ("a.b/c", "") /\
  splitext "dir/.hidden.mov" = ("dir/.hidden", ".mov") /\
  splitext "noext" = ("noext", "").
Proof. repeat split. Qed.

End Serializers.

(** ** Properties of the field checks *)

Module SerializerFacts.
Import Serializers.

Lemma mem_In (x : string) (l : list string) : mem x l = true <-> In x l.
Proof.
  unfold mem. rewrite existsb_exists. split.
  - intros [y [Hy E]]. apply String.eqb_eq in E. now subst.
  - intros H. exists x. split; [exact H|apply String.eqb_refl].
Qed.

Lemma lower_char_idem (c : ascii) : Py.lower_char (Py.lower_char c) = Py.lower_char c.
Proof. destruct c as [[] [] [] [] [] [] [] []]; reflexivity. Qed.

Lemma lower_idem (s : string) : Py.lower (Py.lower s) = Py.lower s.
Proof. induction s as [|c s IH]; simpl; [reflexivity|]. now rewrite lower_char_idem, IH. Qed.

(** X16.  [validate_category] accepts a value exactly when its lower-case
    form is one of the ten categories, and returns that lower-case form:
    the case the client used does not matter, and a value that was
    returned is accepted again unchanged.  Any other value is refused
    with a validation error. *)
Theorem validate_category_normalises_case (value : string) :
  (forall c, validate_category value = Ok c
             <-> c = Py.lower value /\ In (Py.lower value) valid_categories) /\
  (forall c, validate_category value = Ok c ->
             In c valid_categories /\ validate_category c = Ok c) /\
  (forall other, Py.lower other = Py.lower value ->
                 validate_category other = validate_category value) /\
  (~ In (Py.lower value) valid_categories ->
   exists detail, validate_category value = Raise (ValidationError detail)).
Proof.
  assert (forall c, validate_category value = Ok c
                    <-> c = Py.lower value /\ In (Py.lower value) valid_categories) as Hiff.
  { intros c. unfold validate_category.
    destruct (mem (Py.lower value) valid_categories) eqn:E; cbn [negb].
    - apply mem_In in E. split; [intros [= <-]; auto|intros [-> _]; reflexivity].
    - split; [discriminate|]. intros [_ H]. apply mem_In in H. congruence. }
  split; [exact Hiff|]. split; [|split].
  - intros c Hc. apply Hiff in Hc. destruct Hc as [-> Hin]. split; [exact Hin|].
    unfold validate_category. rewrite lower_idem.
    apply mem_In in Hin. now rewrite Hin.
  - intros other Ho. unfold validate_category. now rewrite Ho.
  - intros Hn. unfold validate_category.
    destruct (mem (Py.lower value) valid_categories) eqn:E; cbn [negb].
    + apply mem_In in E. contradiction.
    + eexists. reflexivity.
Qed.

(** *** The extension of a file name *)

Lemma rfind_from_spec (c : ascii) (p : list ascii) :
  forall i, 0 <= i ->
    (rfind_from c p i = -1 /\ ~ In c p) \/
    (exists k, rfind_from c p i = i + Z.of_nat k /\ (k < length p)%nat /\
               nth k p "."%char = c /\ ~ In c (skipn (S k) p)).
Proof.
  induction p as [|a r IH]; intros i Hi; simpl.
  - left. tauto.
  - destruct (IH (i + 1) ltac:(lia)) as [[Hj Hn]|[k [Hj [Hk [Hnth Hafter]]]]].
    + rewrite Hj. simpl. destruct (Ascii.eqb a c) eqn:E.
      * apply Ascii.eqb_eq in E. right. exists 0%nat. simpl.
        split; [lia|]. split; [lia|]. split; [exact E|exact Hn].
      * apply Ascii.eqb_neq in E. left. split; [reflexivity|]. intros [H|H]; auto.
    + rewrite Hj.
      assert ((0 <=? i + 1 + Z.of_nat k) = true) as -> by (apply Z.leb_le; lia).
      right. exists (S k). split; [lia|]. split; [simpl; lia|].
      split; [exact Hnth|exact Hafter].
Qed.

Lemma string_of_list_ascii_app (a b : list ascii) :
  string_of_list_ascii (a ++ b)
  = (string_of_list_ascii a ++ string_of_list_ascii b)%string.
Proof.
  induction a as [|x a IH]; [reflexivity|].
  change (String x (string_of_list_ascii (a ++ b))
          = String x (String.append (string_of_list_ascii a) (string_of_list_ascii b))).
  now rewrite IH.
Qed.

Lemma In_skipn_all {A : Type} (x : A) (m : nat) :
  forall l, In x (skipn m l) -> In x l.
Proof.
  induction m as [|m IH]; intros l H; [exact H|].
  destruct l as [|a l]; [exact H|]. right. now apply IH.
Qed.

Lemma In_skipn_le {A : Type} (x : A) (n : nat) :
  forall (l : list A) (m : nat), (n <= m)%nat -> In x (skipn m l) -> In x (skipn n l).
Proof.
  induction n as [|n IH]; intros l m Hle Hin.
  - now apply (In_skipn_all x m).
  - destruct m as [|m]; [lia|]. destruct l as [|a l]; [exact Hin|].
    simpl in *. apply (IH l m); [lia|exact Hin].
Qed.

Lemma skipn_nth_cons {A : Type} (d : A) (l : list A) :
  forall k, (k < length l)%nat -> skipn k l = nth k l d :: skipn (S k) l.
Proof.
  induction l as [|a r IH]; intros k Hk; simpl in *; [lia|].
  destruct k; [reflexivity|]. apply IH. lia.
Qed.

Lemma append_nil_r (s : string) : String.append s EmptyString = s.
Proof.
  induction s as [|c s IH]; [reflexivity|].
  change (String c (String.append s EmptyString) = String c s). now rewrite IH.
Qed.

(** What [splitext] returns: the two parts make up the path again; the
    extension is empty, or a dot followed by characters among which there
    is neither a dot nor a slash. *)
Lemma splitext_parts (path : string) :
  (fst (splitext path) ++ snd (splitext path))%string = path /\
  (snd (splitext path) = "" \/
   exists e, snd (splitext path) = String "."%char (string_of_list_ascii e) /\
             ~ In "."%char e /\ ~ In "/"%char e).
Proof.
  unfold splitext.
  set (p := list_ascii_of_string path).
  destruct ((rfind "/"%char p <? rfind "."%char p)
            && name_before_dot _ p _) eqn:E; simpl.
  - apply andb_true_iff in E. destruct E as [Hlt _]. apply Z.ltb_lt in Hlt.
    split.
    + rewrite <- string_of_list_ascii_app, firstn_skipn.
      apply string_of_list_ascii_of_string.
    + right. unfold rfind in *.
      destruct (rfind_from_spec "."%char p 0 ltac:(lia))
        as [[Hd _]|[k [Hd [Hk [Hnth Hafter]]]]].
      * destruct (rfind_from_spec "/"%char p 0 ltac:(lia)) as [[Hs _]|[ks [Hs _]]]; lia.
      * rewrite Hd. replace (Z.to_nat (0 + Z.of_nat k)) with k by lia.
        exists (skipn (S k) p). split; [|split].
        -- rewrite (skipn_nth_cons "."%char p k Hk), Hnth. reflexivity.
        -- exact Hafter.
        -- destruct (rfind_from_spec "/"%char p 0 ltac:(lia))
             as [[_ Hn]|[ks [Hs [_ [_ Hsafter]]]]].
           ++ intros H. apply Hn. now apply (In_skipn_all _ (S k)).
           ++ intros H. apply Hsafter.
              apply (In_skipn_le _ (S ks) p (S k)); [lia|exact H].
  - split; [|now left]. apply append_nil_r.
Qed.

(** *** Uploaded files *)

Lemma extension_shape (path : string) (allowed : list string) :
  In (Py.lower (snd (splitext path))) allowed -> ~ In "" allowed ->
  exists root e,
    path = (root ++ String "."%char (string_of_list_ascii e))%string /\
    In (Py.lower (String "."%char (string_of_list_ascii e))) allowed /\
    ~ In "."%char e /\ ~ In "/"%char e.
Proof.
  intros Hin Hne. destruct (splitext_parts path) as [Hparts [Hempty|[e [He [Hd Hs]]]]].
  - rewrite Hempty in Hin. simpl in Hin. contradiction.
  - exists (fst (splitext path)), e. rewrite <- He. auto.
Qed.

(** X17.  A video that has a name is accepted, unchanged, exactly when it
    is no larger than 100 MB (104857600 bytes) and the extension of its
    name, in lower case, is one of the five video extensions.  An accepted
    name therefore ends with a dot and an extension of that list, in any
    case, and that extension holds no further dot and no slash.  A larger
    file is refused for its size before its name is looked at; a name
    without extension is refused. *)
Theorem validate_video_checks_size_and_extension (f : uploaded_file) :
  Py.truthy (file_name f) = true ->
  (validate_video (Some f) = Ok (Some f)
   <-> file_size f <= 104857600 /\
       In (Py.lower (snd (splitext (file_name f)))) [".mp4"; ".mov"; ".avi"; ".mkv"; ".webm"]) /\
  (forall v, validate_video (Some f) = Ok v ->
             v = Some f /\
             exists root e,
               file_name f = (root ++ String "."%char (string_of_list_ascii e))%string /\
               In (Py.lower (String "."%char (string_of_list_ascii e)))
                  [".mp4"; ".mov"; ".avi"; ".mkv"; ".webm"] /\
               ~ In "."%char e /\ ~ In "/"%char e) /\
  (104857600 < file_size f ->
   validate_video (Some f)
   = Raise (ValidationError (JList [JStr "Video file size must be under 100MB"]))) /\
  (file_size f <= 104857600 -> snd (splitext (file_name f)) = "" ->
   validate_video (Some f)
   = Raise (ValidationError
              (JList [JStr "Video file must be one of: .mp4, .mov, .avi, .mkv, .webm"]))).
Proof.
  intros Ht.
  assert (validate_video (Some f) = Ok (Some f)
          <-> file_size f <= 104857600 /\
              In (Py.lower (snd (splitext (file_name f)))) video_extensions) as Hiff.
  { unfold validate_video, file_truthy. rewrite Ht.
    destruct (100 * 1024 * 1024 <? file_size f) eqn:Es.
    - apply Z.ltb_lt in Es. split; [discriminate|lia].
    - apply Z.ltb_ge in Es. cbv zeta.
      destruct (mem (Py.lower (snd (splitext (file_name f)))) video_extensions) eqn:Em;
        cbn [negb].
      + apply mem_In in Em. split; [intros _; split; [lia|exact Em]|reflexivity].
      + split; [discriminate|]. intros [_ H]. apply mem_In in H. congruence. }
  split; [exact Hiff|]. split; [|split].
  - intros v Hv.
    assert (v = Some f) as ->.
    { unfold validate_video, file_truthy in Hv. rewrite Ht in Hv.
      destruct (100 * 1024 * 1024 <? file_size f); [discriminate|]. cbv zeta in Hv.
      destruct (negb _); [discriminate|]. now injection Hv. }
    split; [reflexivity|]. apply Hiff in Hv. destruct Hv as [_ Hin].
    apply (extension_shape _ _ Hin). simpl. intuition discriminate.
  - intros Hbig. unfold validate_video, file_truthy. rewrite Ht.
    assert ((100 * 1024 * 1024 <? file_size f) = true) as -> by (apply Z.ltb_lt; lia).
    reflexivity.
  - intros Hsmall Hext. unfold validate_video, file_truthy. rewrite Ht.
    assert ((100 * 1024 * 1024 <? file_size f) = false) as -> by (apply Z.ltb_ge; lia).
    cbv zeta. rewrite Hext. reflexivity.
Qed.

Lemma validate_video_checks_size_and_extension_witness :
  validate_video (Some (mkFile "Pruning Cocoa.MP4" 104857600))
  = Ok (Some (mkFile "Pruning Cocoa.MP4" 104857600)) /\
  validate_video (Some (mkFile ".mp4" 1000))
  = Raise (ValidationError
             (JList [JStr "Video file must be one of: .mp4, .mov, .avi, .mkv, .webm"])).
Proof.
  destruct (validate_video_checks_size_and_extension (mkFile "Pruning Cocoa.MP4" 104857600)
              eq_refl) as [H _].
  destruct (validate_video_checks_size_and_extension (mkFile ".mp4" 1000) eq_refl)
    as [_ [_ [_ H']]].
  split.
  - apply H. split; [simpl; lia|]. simpl. auto.
  - apply H'; [simpl; lia|reflexivity].
Defined.

(** X18.  A thumbnail is optional: no file is accepted as it is.  One
    that has a name is accepted, unchanged, exactly when it is no larger
    than 5 MB (5242880 bytes) and the extension of its name, in lower
    case, is one of [.jpg], [.jpeg], [.png], [.webp]; a larger one is
    refused for its size. *)
Theorem validate_thumbnail_checks_size_and_extension (f : uploaded_file) :
  Py.truthy (file_name f) = true ->
  validate_thumbnail None = Ok None /\
  (validate_thumbnail (Some f) = Ok (Some f)
   <-> file_size f <= 5242880 /\
       In (Py.lower (snd (splitext (file_name f)))) [".jpg"; ".jpeg"; ".png"; ".webp"]) /\
  (forall v, validate_thumbnail (Some f) = Ok v ->
             v = Some f /\
             exists root e,
               file_name f = (root ++ String "."%char (string_of_list_ascii e))%string /\
               In (Py.lower (String "."%char (string_of_list_ascii e)))
                  [".jpg"; ".jpeg"; ".png"; ".webp"] /\
               ~ In "."%char e /\ ~ In "/"%char e) /\
  (5242880 < file_size f ->
   validate_thumbnail (Some f)
   = Raise (ValidationError (JList [JStr "Thumbnail file size must be under 5MB"]))).
Proof.
  intros Ht. split; [reflexivity|].
  assert (validate_thumbnail (Some f) = Ok (Some f)
          <-> file_size f <= 5242880 /\
              In (Py.lower (snd (splitext (file_name f)))) thumbnail_extensions) as Hiff.
  { unfold validate_thumbnail, file_truthy. rewrite Ht.
    destruct (5 * 1024 * 1024 <? file_size f) eqn:Es.
    - apply Z.ltb_lt in Es. split; [discriminate|lia].
    - apply Z.ltb_ge in Es. cbv zeta.
      destruct (mem (Py.lower (snd (splitext (file_name f)))) thumbnail_extensions) eqn:Em;
        cbn [negb].
      + apply mem_In in Em. split; [intros _; split; [lia|exact Em]|reflexivity].
      + split; [discriminate|]. intros [_ H]. apply mem_In in H. congruence. }
  split; [exact Hiff|]. split.
  - intros v Hv.
    assert (v = Some f) as ->.
    { unfold validate_thumbnail, file_truthy in Hv. rewrite Ht in Hv.
      destruct (5 * 1024 * 1024 <? file_size f); [discriminate|]. cbv zeta in Hv.
      destruct (negb _); [discriminate|]. now injection Hv. }
    split; [reflexivity|]. apply Hiff in Hv. destruct Hv as [_ Hin].
    apply (extension_shape _ _ Hin). simpl. intuition discriminate.
  - intros Hbig. unfold validate_thumbnail, file_truthy. rewrite Ht.
    assert ((5 * 1024 * 1024 <? file_size f) = true) as -> by (apply Z.ltb_lt; lia).
    reflexivity.
Qed.

Lemma validate_thumbnail_checks_size_and_extension_witness :
  validate_thumbnail (Some (mkFile "cover.jpeg" 5242881))
  = Raise (ValidationError (JList [JStr "Thumbnail file size must be under 5MB"])).
Proof.
  destruct (validate_thumbnail_checks_size_and_extension (mkFile "cover.jpeg" 5242881)
              eq_refl) as [_ [_ [_ H]]].
  apply H. simpl. lia.
Defined.

End SerializerFacts.

(** ** A first turn that fails *)

Module ChatFirstTurn.
Import Chat ChatFacts.

(** X19.  A request that names no session opens one before it calls the
    model.  When the model call then raises, the answer is the 500, which
    does not tell the identifier, and the new session stays: it is the
    caller's, active, without messages, and it is in the caller's session
    list from then on. *)
Theorem failed_first_turn_leaves_an_empty_session
    (generate : gen_request -> result string) (SYSTEM_INSTRUCTION : string)
    (str : exn -> string)
    (d : DB) (user : nat) (rq : ChatRequest) (uuid4 : string) (e : exn) :
  wf d ->
  Py.truthy (Py.strip (default "" (req_message rq))) = true ->
  from_option Py.truthy false (req_session_id rq) = false ->
  (forall s, In s (chat_sessions d) -> session_id s <> uuid4) ->
  model_reply generate SYSTEM_INSTRUCTION (Py.strip (default "" (req_message rq))) = Raise e ->
  exists d' calls,
    chat_with_ai generate SYSTEM_INSTRUCTION str d user rq uuid4
    = (mkResponse 500 (JObj [("error", JStr (str e))]), d', calls) /\
    chat_sessions d'
    = chat_sessions d ++ [mkChatSession (next_session_pk d) user uuid4 (now d) (now d) true] /\
    chat_messages d' = chat_messages d /\
    messages_of d' (mkChatSession (next_session_pk d) user uuid4 (now d) (now d) true) = [] /\
    In (mkChatSession (next_session_pk d) user uuid4 (now d) (now d) true)
       (active_sessions d' user) /\
    length (active_sessions d' user) = S (length (active_sessions d user)).
Proof.
  intros Hwf Hm Hs Hf Hr.
  rewrite (chat_with_ai_new generate SYSTEM_INSTRUCTION str d user rq uuid4 Hm Hs Hf).
  destruct (chat_turn_fail generate SYSTEM_INSTRUCTION str
              (snd (ChatSession_create d user uuid4))
              (mkChatSession (next_session_pk d) user uuid4 (now d) (now d) true)
              uuid4 _ e Hr) as [calls ->].
  rewrite (ChatSession_create_fresh d user uuid4 Hf). simpl.
  eexists _, calls. split; [reflexivity|]. simpl.
  split; [reflexivity|]. split; [reflexivity|]. split; [|split].
  - unfold messages_of. simpl.
    pose proof (wf_msgs_fk d Hwf) as Hfk.
    induction Hfk as [|m l Hm' _ IH]; simpl; [reflexivity|].
    assert ((cm_session m =? next_session_pk d)%nat = false) as ->
        by (apply Nat.eqb_neq; lia).
    exact IH.
  - unfold active_sessions, order_by_desc. apply order_by_In. apply filter_In. simpl.
    split; [apply in_or_app; right; now left|]. now rewrite Nat.eqb_refl.
  - unfold active_sessions, order_by_desc. rewrite !order_by_length. simpl.
    rewrite filter_app, length_app. simpl. rewrite Nat.eqb_refl. simpl. lia.
Qed.

Lemma failed_first_turn_leaves_an_empty_session_witness :
  exists d' calls,
    chat_with_ai broken_model instruction str_of db_one_turn 1
      (mkChatRequest (Some "And my beans?") None) "s-2"
    = (mkResponse 500 (JObj [("error", JStr "503")]), d', calls) /\
    length (active_sessions d' 1) = 2%nat.
Proof.
  destruct (failed_first_turn_leaves_an_empty_session broken_model instruction str_of
              db_one_turn 1 (mkChatRequest (Some "And my beans?") None) "s-2"
              (ModelError "503") db_one_turn_wf eq_refl eq_refl)
    as [d' [calls [E [_ [_ [_ [_ Hl]]]]]]].
  - intros s [<-|[]]. discriminate.
  - reflexivity.
  - exists d', calls. split; [exact E|]. rewrite Hl. reflexivity.
Defined.

End ChatFirstTurn.

(** ** Editing a post *)

Module CommunityEdit.
Import Community CommunityFacts.

Lemma find_map_upd (pk2 : nat) (post' : CommunityPost) (l : list CommunityPost) :
  List.find (fun p => (post_pk p =? pk2)%nat)
    (List.map (fun p => if (post_pk p =? post_pk post')%nat then post' else p) l)
  = match List.find (fun p => (post_pk p =? pk2)%nat) l with
    | Some p => Some (if (post_pk p =? post_pk post')%nat then post' else p)
    | None => None
    end.
Proof.
  induction l as [|p l IH]; simpl; [reflexivity|].
  destruct (post_pk p =? post_pk post')%nat eqn:E.
  - apply Nat.eqb_eq in E. rewrite <- E.
    destruct (post_pk p =? pk2)%nat; [now rewrite Nat.eqb_refl|]. rewrite E. exact IH.
  - destruct (post_pk p =? pk2)%nat; [now rewrite E|exact IH].
Qed.

(** X20.  An update of a post, by whomever and with whatever body: an
    answer other than 200 leaves the feed as it was; a 200 is given to the
    author only, and then every post is found as before with the same
    key, author and creation time, the post that was edited holding the
    new content and tags where the body gave them and the old ones where
    it did not; likes and comments are untouched. *)
Theorem update_changes_content_and_tags_only
    {payload : Type} (to_internal_value : payload -> post_attrs + json)
    (d : DB) (user pk : nat) (body : payload) :
  let r := update to_internal_value d user pk body in
  (status (fst r) <> 200 -> snd r = d) /\
  (status (fst r) = 200 ->
   exists post a,
     CommunityPost_get d pk = Ok post /\ author post = user /\
     to_internal_value body = inl a /\
     CommunityPost_get (snd r) pk
     = Ok (mkPost pk user (default (post_content post) (a_content a))
                  (default (tags post) (a_tags a)) (post_created_at post) (now d))) /\
  likes (snd r) = likes d /\ comments (snd r) = comments d /\
  (forall pk2 p, CommunityPost_get d pk2 = Ok p ->
                 exists p', CommunityPost_get (snd r) pk2 = Ok p' /\
                            post_pk p' = post_pk p /\ author p' = author p /\
                            post_created_at p' = post_created_at p /\
                            (pk2 <> pk -> p' = p)).
Proof.
  intros r. subst r. unfold update, get_object, is_valid, perform_update.
  destruct (CommunityPost_get d pk) as [post|e0] eqn:Hg.
  2:{ simpl. split; [auto|]. split; [discriminate|]. split; [reflexivity|].
      split; [reflexivity|]. intros pk2 p Hp. exists p. auto. }
  pose proof (CommunityPost_get_pk d pk post Hg) as Hpk.
  destruct (to_internal_value body) as [a|errors] eqn:Hv.
  2:{ simpl. split; [auto|]. split; [discriminate|]. split; [reflexivity|].
      split; [reflexivity|]. intros pk2 p Hp. exists p. auto. }
  destruct (author post =? user)%nat eqn:Ea; simpl.
  2:{ split; [auto|]. split; [discriminate|]. split; [reflexivity|].
      split; [reflexivity|]. intros pk2 p Hp. exists p. auto. }
  apply Nat.eqb_eq in Ea.
  assert (forall pk2,
             CommunityPost_get (CommunityPost_save d (apply_attrs a post)) pk2
             = match CommunityPost_get d pk2 with
               | Ok p => Ok (if (post_pk p =? pk)%nat
                             then stamped d (apply_attrs a post) else p)
               | Raise e => Raise e
               end) as Hget.
  { intros pk2. unfold CommunityPost_get, CommunityPost_save. simpl.
    rewrite (find_map_upd pk2 (stamped d (apply_attrs a post))). simpl. rewrite Hpk.
    destruct (List.find _ (posts d)); reflexivity. }
  split; [intros H; now destruct H|]. split.
  - intros _. exists post, a. split; [reflexivity|]. split; [exact Ea|].
    split; [reflexivity|]. rewrite Hget, Hg, Hpk, Nat.eqb_refl.
    unfold stamped, apply_attrs. simpl. now rewrite Hpk, Ea.
  - split; [reflexivity|]. split; [reflexivity|].
    intros pk2 p Hp. rewrite Hget, Hp. eexists. split; [reflexivity|].
    pose proof (CommunityPost_get_pk d pk2 p Hp) as Hpk2.
    destruct (post_pk p =? pk)%nat eqn:E.
    + apply Nat.eqb_eq in E. simpl.
      assert (p = post) as -> by (rewrite Hpk2 in E; subst pk2; congruence).
      repeat split; auto. intros Hne. congruence.
    + auto.
Qed.

End CommunityEdit.

(** ** Accounts and tokens ([auth_views.py], [LoginSerializer] and
    [ChangePasswordSerializer] of [serializers.py]) *)

Module Auth.

(** The columns of [User] that logging in and changing a password read or
    write. *)
Record User := mkUser {
  user_pk : nat;
  username : string;           (* unique *)
  email : string;              (* not unique *)
  phone_number : string;       (* unique *)
  password : string;           (* the stored hash *)
  is_active : bool
}.

(** [rest_framework.authtoken.models.Token]: [key] is the primary key,
    [user] a one-to-one field. *)
Record Token := mkToken { key : string; token_user : nat }.

Record DB := mkDB {
  users : list User;
  tokens : list Token
}.

(** *** Tokens *)

(** [Token.objects.filter(user=u).first()]. *)
Definition Token_of (d : DB) (u : User) : option Token :=
  List.find (fun t => (token_user t =? user_pk u)%nat) (tokens d).

(** [Token.objects.create(user=u)]; [fresh_key] is the key the new token is
    given.  Both columns are unique. *)
Definition Token_create (d : DB) (u : User) (fresh_key : string)
  : result (Token * DB) :=
  if existsb (fun t => (key t =? fresh_key)%string || (token_user t =? user_pk u)%nat)
             (tokens d)
  then Raise IntegrityError
  else
    let t := mkToken fresh_key (user_pk u) in
    Ok (t, mkDB (users d) (tokens d ++ [t])).

(** [Token.objects.get_or_create(user=u)]. *)
Definition Token_get_or_create (d : DB) (u : User) (fresh_key : string)
  : result (Token * bool * DB) :=
  match Token_of d u with
  | Some t => Ok (t, false, d)
  | None =>
      match Token_create d u fresh_key with
      | Ok (t, d') => Ok (t, true, d')
      | Raise e => Raise e
      end
  end.

(** [Token.objects.filter(user=u).delete()]. *)
Definition Token_delete (d : DB) (u : User) : DB :=
  mkDB (users d)
       (List.filter (fun t => negb (token_user t =? user_pk u)%nat) (tokens d)).

(** *** Users *)

(** [User.objects.get(...)] on a column. *)
Definition User_get (d : DB) (matches : User -> bool) : result User :=
  match List.filter matches (users d) with
  | [] => Raise DoesNotExist
  | [u] => Ok u
  | _ => Raise MultipleObjectsReturned
  end.

(** [user.save()]. *)
Definition User_save (d : DB) (u : User) : DB :=
  mkDB (List.map (fun v => if (user_pk v =? user_pk u)%nat then u else v) (users d))
       (tokens d).

(** *** Logging in *)

(** The fields of a login after their own validation; [None] is an absent
    field. *)
Record login_attrs := mkLogin {
  l_username : option string;
  l_email : option string;
  l_phone_number : option string;
  l_password : string
}.

(** [if x:] for an optional string. *)
Definition given (o : option string) : bool := from_option Py.truthy false o.

Definition non_field_error (msg : string) : exn :=
  ValidationError (JObj [("non_field_errors", JList [JStr msg])]).

Section Views.
(** [django.contrib.auth.authenticate(username=..., password=...)] on the
    stored users. *)
Variable authenticate : list User -> string -> string -> option User.
(** [UserSerializer(user).data]. *)
Variable user_data : User -> json.
(** [user.check_password(raw)] on the stored hash, [make_password(raw)] and
    the messages of [validate_password(raw)]. *)
Variable check_password : string -> string -> bool.
Variable make_password : string -> string.
Variable validate_password : string -> list string.

(** The [try] blocks of [LoginSerializer.validate]: only [DoesNotExist] is
    caught. *)
Definition authenticate_found (d : DB) (password : string) (r : result User)
  : result (option User) :=
  match r with
  | Ok user_obj => Ok (authenticate (users d) (username user_obj) password)
  | Raise DoesNotExist => Ok None
  | Raise e => Raise e
  end.

(** [LoginSerializer.validate]. *)
Definition LoginSerializer_validate (d : DB) (attrs : login_attrs) : result User :=
  let user :=
    if given (l_username attrs) then
      Ok (authenticate (users d) (default "" (l_username attrs)) (l_password attrs))
    else if given (l_email attrs) then
      authenticate_found d (l_password attrs)
        (User_get d (fun u => (email u =? default "" (l_email attrs))%string))
    else if given (l_phone_number attrs) then
      authenticate_found d (l_password attrs)
        (User_get d (fun u => (phone_number u =? default "" (l_phone_number attrs))%string))
    else Ok None in
  match user with
  | Raise e => Raise e
  | Ok None => Raise (non_field_error "Unable to log in with provided credentials.")
  | Ok (Some u) =>
      if negb (is_active u) then Raise (non_field_error "User account is disabled.")
      else Ok u
  end.

(** [login_view]: the errors of the serializer give the 400, any other
    exception goes to the framework. *)
Definition login_view (d : DB) (attrs : login_attrs) (fresh_key : string)
  : Response * DB :=
  match LoginSerializer_validate d attrs with
  | Ok u =>
      match Token_get_or_create d u fresh_key with
      | Ok (token, _, d') =>
          (mkResponse HTTP_200_OK
             (JObj [("message", JStr "Login successful");
                    ("user", user_data u);
                    ("token", JStr (key token))]), d')
      | Raise e => (exception_handler e, d)
      end
  | Raise (ValidationError errors) => (mkResponse HTTP_400_BAD_REQUEST errors, d)
  | Raise e => (exception_handler e, d)
  end.

(** [logout_view] for the authenticated user [u].  The tables are what the
    handler writes; the session that [logout(request)] flushes is not one of
    them. *)
Definition logout_view (d : DB) (u : User) : Response * DB :=
  let token_exists := existsb (fun t => (token_user t =? user_pk u)%nat) (tokens d) in
  let d' := if token_exists then Token_delete d u else d in
  (mkResponse HTTP_200_OK
     (JObj [("message", JStr "Successfully logged out");
            ("token_deleted", JBool token_exists)]), d').

(** *** Changing the password *)

(** The three fields of [ChangePasswordSerializer], all present and not
    blank. *)
Record password_attrs := mkPasswords {
  old_password : string;
  new_password : string;
  new_password_confirm : string
}.

(** The errors of the fields, in the order of their declaration:
    [validate_old_password] and the validator of [new_password]. *)
Definition field_errors (u : User) (attrs : password_attrs) : list (string * json) :=
  (if check_password (old_password attrs) (password u) then []
   else [("old_password", JList [JStr "Old password is incorrect."])])
  ++
  (match validate_password (new_password attrs) with
   | [] => []
   | msgs => [("new_password", JList (List.map JStr msgs))]
   end).

(** [serializer.is_valid()] and [serializer.errors]:
    [ChangePasswordSerializer.validate] runs when no field has an error. *)
Definition ChangePasswordSerializer_errors (u : User) (attrs : password_attrs)
  : option json :=
  match field_errors u attrs with
  | [] =>
      if negb (new_password attrs =? new_password_confirm attrs)%string
      then Some (JObj [("new_password", JList [JStr "Password fields didn't match."])])
      else None
  | errs => Some (JObj errs)
  end.

(** [user.set_password(raw)]. *)
Definition set_password (u : User) (raw : string) : User :=
  mkUser (user_pk u) (username u) (email u) (phone_number u) (make_password raw)
         (is_active u).

(** [change_password_view] for the authenticated user [u]. *)
Definition change_password_view (d : DB) (u : User) (attrs : password_attrs)
  (fresh_key : string) : Response * DB :=
  match ChangePasswordSerializer_errors u attrs with
  | Some errors => (mkResponse HTTP_400_BAD_REQUEST errors, d)
  | None =>
      let user := set_password u (new_password attrs) in
      let d1 := User_save d user in
      let d2 := Token_delete d1 user in
      match Token_create d2 user fresh_key with
      | Ok (token, d3) =>
          (mkResponse HTTP_200_OK
             (JObj [("message", JStr "Password changed successfully");
                    ("token", JStr (key token))]), d3)
      | Raise e => (exception_handler e, d2)
      end
  end.

End Views.

End Auth.

Module AuthFacts.
Import Auth.

(** What the unique columns of [Token] guarantee. *)
Definition tokens_ok (d : DB) : Prop :=
  NoDup (List.map token_user (tokens d)) /\ NoDup (List.map key (tokens d)).

Lemma validate_reads_users authenticate d d' a :
  users d = users d' ->
  LoginSerializer_validate authenticate d a = LoginSerializer_validate authenticate d' a.
Proof.
  intros H. unfold LoginSerializer_validate, authenticate_found, User_get.
  rewrite H. reflexivity.
Qed.

Lemma find_app_new {A} (f : A -> bool) l t :
  List.find f l = None -> f t = true -> List.find f (l ++ [t]) = Some t.
Proof.
  induction l as [|x l IH]; simpl; intros Hn Ht.
  - rewrite Ht. reflexivity.
  - destruct (f x); [discriminate|]. auto.
Qed.

Lemma find_app_other {A} (f : A -> bool) l t :
  f t = false -> List.find f (l ++ [t]) = List.find f l.
Proof.
  intros Ht. induction l as [|x l IH]; simpl.
  - rewrite Ht. reflexivity.
  - destruct (f x); auto.
Qed.

Lemma find_filter_kept {A} (f g : A -> bool) l :
  (forall x, f x = true -> g x = true) ->
  List.find f (List.filter g l) = List.find f l.
Proof.
  intros H. induction l as [|x l IH]; simpl; [reflexivity|].
  destruct (g x) eqn:Hg; simpl.
  - destruct (f x); auto.
  - destruct (f x) eqn:Hf; auto. rewrite (H x Hf) in Hg. discriminate.
Qed.

Lemma find_filter_none {A} (f g : A -> bool) l :
  (forall x, f x = true -> g x = false) ->
  List.find f (List.filter g l) = None.
Proof.
  intros H. induction l as [|x l IH]; simpl; [reflexivity|].
  destruct (g x) eqn:Hg; simpl; auto.
  destruct (f x) eqn:Hf; auto. rewrite (H x Hf) in Hg. discriminate.
Qed.

Lemma existsb_find {A} (f : A -> bool) l :
  existsb f l = match List.find f l with Some _ => true | None => false end.
Proof.
  induction l as [|x l IH]; simpl; [reflexivity|]. destruct (f x); auto.
Qed.

Lemma NoDup_map_filter_kept {A B} (h : A -> B) (g : A -> bool) l :
  NoDup (List.map h l) -> NoDup (List.map h (List.filter g l)).
Proof.
  induction l as [|x l IH]; simpl; intros H; [constructor|].
  inversion H as [|? ? Hx Hl]; subst.
  destruct (g x); simpl; auto.
  constructor; auto. intros Hin. apply Hx.
  apply in_map_iff in Hin as (y & Hy & Hiny). apply in_map_iff.
  exists y. split; auto. apply filter_In in Hiny. tauto.
Qed.

Lemma NoDup_map_snoc {A B} (h : A -> B) l t :
  NoDup (List.map h l) -> ~ In (h t) (List.map h l) ->
  NoDup (List.map h (l ++ [t])).
Proof.
  induction l as [|x l IH]; simpl; intros Hl Ht.
  - constructor; [intros []|constructor].
  - inversion Hl as [|? ? Hx Hl']; subst. constructor.
    + rewrite map_app, in_app_iff. simpl. intros [Hin|[Heq|[]]]; auto.
    + apply IH; auto.
Qed.

Lemma Token_create_ok d u k t d' :
  tokens_ok d -> Token_create d u k = Ok (t, d') ->
  t = mkToken k (user_pk u) /\ users d' = users d /\ tokens d' = tokens d ++ [t] /\
  Token_of d u = None /\ ~ In k (List.map key (tokens d)) /\ tokens_ok d'.
Proof.
  intros [Hu Hk] H. unfold Token_create in H.
  destruct (existsb _ (tokens d)) eqn:He; [discriminate|].
  injection H as <- <-. simpl.
  assert (Hnk : ~ In k (List.map key (tokens d))).
  { intros Hin. apply in_map_iff in Hin as (t & Ht & Hin).
    assert (existsb (fun t => (key t =? k)%string || (token_user t =? user_pk u)%nat)
                    (tokens d) = true).
    { apply existsb_exists. exists t. split; auto.
      apply orb_true_iff. left. apply String.eqb_eq. auto. }
    congruence. }
  assert (Hnu : ~ In (user_pk u) (List.map token_user (tokens d))).
  { intros Hin. apply in_map_iff in Hin as (t & Ht & Hin).
    assert (existsb (fun t => (key t =? k)%string || (token_user t =? user_pk u)%nat)
                    (tokens d) = true).
    { apply existsb_exists. exists t. split; auto.
      apply orb_true_iff. right. apply Nat.eqb_eq. auto. }
    congruence. }
  repeat split; auto.
  - unfold Token_of. destruct (List.find _ (tokens d)) as [t|] eqn:Hf; auto.
    apply find_some in Hf as [Hin Ht]. apply Nat.eqb_eq in Ht.
    exfalso. apply Hnu. apply in_map_iff. exists t. auto.
  - apply (NoDup_map_snoc token_user); auto.
  - apply (NoDup_map_snoc key); auto.
Qed.

Lemma Token_delete_ok d u :
  tokens_ok d ->
  tokens_ok (Token_delete d u) /\ Token_of (Token_delete d u) u = None /\
  (forall v, user_pk v <> user_pk u ->
             Token_of (Token_delete d u) v = Token_of d v) /\
  (forall t, In t (tokens d) -> token_user t = user_pk u ->
             ~ In (key t) (List.map key (tokens (Token_delete d u)))).
Proof.
  intros [Hu Hk]. split; [|split; [|split]].
  - split; simpl; apply NoDup_map_filter_kept; auto.
  - unfold Token_of. simpl. apply find_filter_none.
    intros x Hx. rewrite Hx. reflexivity.
  - intros v Hv. unfold Token_of. simpl. apply find_filter_kept.
    intros x Hx. apply Nat.eqb_eq in Hx. apply negb_true_iff. apply Nat.eqb_neq. lia.
  - intros t Hin Ht Hin'. simpl in Hin'.
    apply in_map_iff in Hin' as (t' & Hkey & Hin').
    apply filter_In in Hin' as [Hin' Hne].
    apply negb_true_iff in Hne. apply Nat.eqb_neq in Hne.
    assert (t' = t); [|subst; auto].
    clear - Hk Hin Hin' Hkey. induction (tokens d) as [|x l IH]; [destruct Hin|].
    simpl in Hk. inversion Hk as [|? ? Hx Hl]; subst.
    destruct Hin as [->|Hin], Hin' as [->|Hin']; auto.
    + exfalso. apply Hx. rewrite <- Hkey. apply in_map. auto.
    + exfalso. apply Hx. rewrite Hkey. apply in_map. auto.
Qed.

Lemma Token_create_raises d u k e :
  Token_create d u k = Raise e -> e = IntegrityError.
Proof.
  unfold Token_create. destruct (existsb _ (tokens d)); congruence.
Qed.

Lemma Token_create_fresh d u k :
  Token_of d u = None -> ~ In k (List.map key (tokens d)) ->
  Token_create d u k
  = Ok (mkToken k (user_pk u), mkDB (users d) (tokens d ++ [mkToken k (user_pk u)])).
Proof.
  intros Hu Hk. unfold Token_create.
  destruct (existsb _ (tokens d)) eqn:He; [|reflexivity].
  exfalso. apply existsb_exists in He as (t & Hin & Ht).
  apply orb_true_iff in Ht as [Ht|Ht].
  - apply String.eqb_eq in Ht. apply Hk. apply in_map_iff. exists t. auto.
  - unfold Token_of in Hu.
    apply (find_none _ _ Hu) in Hin. simpl in Hin. congruence.
Qed.

Lemma filter_nothing {A} (f : A -> bool) l :
  (forall x, In x l -> f x = false) -> List.filter f l = [].
Proof.
  induction l as [|x l IH]; simpl; intros H; [reflexivity|].
  rewrite (H x) by auto. apply IH. intros y Hy. apply H. auto.
Qed.

Lemma given_Some o : given o = true -> exists s, o = Some s /\ default "" o = s.
Proof.
  destruct o as [s|]; simpl; [|discriminate]. intros _. exists s. auto.
Qed.

(** Accounts for the examples; the example backend compares the password
    with the stored one as it is. *)
Definition plain_backend (us : list User) (name pw : string) : option User :=
  List.find (fun u => (username u =? name)%string && (password u =? pw)%string
                      && is_active u) us.

Definition name_only (u : User) : json := JStr (username u).

Definition ama : User := mkUser 1 "ama" "ama@farm.gh" "+233200000001" "cocoa" true.
Definition kojo : User := mkUser 2 "kojo" "kojo@farm.gh" "+233200000002" "maize" true.
Definition esi : User := mkUser 3 "esi" "ama@farm.gh" "+233200000003" "yam" true.

Definition accounts : DB := mkDB [ama; kojo] [mkToken "k-kojo" 2].
Definition accounts_after_login : DB :=
  mkDB [ama; kojo] [mkToken "k-kojo" 2; mkToken "k-ama" 1].
Definition shared_accounts : DB := mkDB [ama; kojo; esi] [].

Definition by_email (e pw : string) : login_attrs := mkLogin None (Some e) None pw.
Definition by_name (n pw : string) : login_attrs := mkLogin (Some n) None None pw.

Lemma accounts_tokens_ok : tokens_ok accounts.
Proof.
  split; simpl; (constructor; [intros []|constructor]).
Qed.

Lemma accounts_after_login_tokens_ok : tokens_ok accounts_after_login.
Proof.
  split; simpl.
  - constructor; [simpl; intros [H|[]]; discriminate|].
    constructor; [intros []|constructor].
  - constructor; [simpl; intros [H|[]]; discriminate|].
    constructor; [intros []|constructor].
Qed.

(** X21 ([login_view], [Token.objects.get_or_create]).  A successful login
    changes no user and leaves every user with at most one token; it
    answers with the token of the user the serializer accepted, touches no
    other user's token, and the same login repeated gets the same answer and
    changes nothing, whatever key a new token would have been given. *)
Theorem login_reuses_the_token authenticate user_data d a k1 r1 d1 :
  tokens_ok d ->
  login_view authenticate user_data d a k1 = (r1, d1) ->
  status r1 = HTTP_200_OK ->
  tokens_ok d1 /\ users d1 = users d /\
  (exists u t,
      LoginSerializer_validate authenticate d a = Ok u /\
      Token_of d1 u = Some t /\
      json_get "token" (data r1) = Some (JStr (key t)) /\
      forall v, user_pk v <> user_pk u -> Token_of d1 v = Token_of d v) /\
  forall k2, login_view authenticate user_data d1 a k2 = (r1, d1).
Proof.
  intros Hok H Hs. unfold login_view in H.
  destruct (LoginSerializer_validate authenticate d a) as [u|e] eqn:Hv.
  - unfold Token_get_or_create in H. destruct (Token_of d u) as [t|] eqn:Ht.
    + injection H as <- <-. split; [exact Hok|]. split; [reflexivity|]. split.
      * exists u, t. repeat split; auto.
      * intros k2. unfold login_view. rewrite Hv.
        unfold Token_get_or_create. rewrite Ht. reflexivity.
    + destruct (Token_create d u k1) as [[t d']|e] eqn:Hc.
      * injection H as <- <-.
        apply Token_create_ok in Hc as (-> & Hu & Htk & _ & _ & Hok'); auto.
        assert (Hmine : Token_of d' u = Some (mkToken k1 (user_pk u))).
        { unfold Token_of. rewrite Htk. apply find_app_new; auto.
          simpl. apply Nat.eqb_refl. }
        split; [exact Hok'|]. split; [exact Hu|]. split.
        -- exists u, (mkToken k1 (user_pk u)). repeat split; auto.
           intros v Hne. unfold Token_of. rewrite Htk. apply find_app_other.
           simpl. apply Nat.eqb_neq. auto.
        -- intros k2. unfold login_view.
           rewrite (validate_reads_users authenticate d' d a Hu), Hv.
           unfold Token_get_or_create. rewrite Hmine. reflexivity.
      * injection H as <- <-. destruct e; cbv in Hs; discriminate.
  - destruct e; injection H as <- <-; cbv in Hs; discriminate.
Qed.

Lemma login_reuses_the_token_witness :
  tokens_ok accounts_after_login /\
  forall k2,
    login_view plain_backend name_only accounts_after_login (by_name "ama" "cocoa") k2
    = (mkResponse HTTP_200_OK
         (JObj [("message", JStr "Login successful"); ("user", JStr "ama");
                ("token", JStr "k-ama")]),
       accounts_after_login).
Proof.
  destruct (login_reuses_the_token plain_backend name_only accounts
              (by_name "ama" "cocoa") "k-ama" _ _
              accounts_tokens_ok eq_refl eq_refl) as (Hok & _ & _ & Hagain).
  split; [exact Hok | exact Hagain].
Defined.

(** X22 ([LoginSerializer.validate], [login_view]).  A login is answered
    with 200 only for a user that [authenticate] returned for the password
    of the request and that is active; the name tried is the username of the
    request when there is one, and otherwise the username of a stored user
    that has the e-mail address of the request, or, with no address, its
    phone number. *)
Theorem login_accepts_only_authenticated_active_users
  authenticate user_data d a k r d' :
  login_view authenticate user_data d a k = (r, d') ->
  status r = HTTP_200_OK ->
  exists u name,
    authenticate (users d) name (l_password a) = Some u /\
    is_active u = true /\
    json_get "user" (data r) = Some (user_data u) /\
    if given (l_username a) then l_username a = Some name
    else exists row,
        In row (users d) /\ username row = name /\
        if given (l_email a) then l_email a = Some (email row)
        else given (l_phone_number a) = true /\
             l_phone_number a = Some (phone_number row).
Proof.
  intros H Hs. unfold login_view in H.
  destruct (LoginSerializer_validate authenticate d a) as [u|e] eqn:Hv.
  2:{ destruct e; injection H as <- <-; cbv in Hs; discriminate. }
  assert (Hdata : json_get "user" (data r) = Some (user_data u)).
  { destruct (Token_get_or_create d u k) as [[[t c] d2]|e].
    - injection H as <- <-. reflexivity.
    - injection H as <- <-. destruct e; cbv in Hs; discriminate. }
  clear H Hs. unfold LoginSerializer_validate in Hv.
  assert (Hrow : forall f,
             match authenticate_found authenticate d (l_password a) (User_get d f) with
             | Ok (Some u0) =>
                 if negb (is_active u0)
                 then Raise (non_field_error "User account is disabled.")
                 else Ok u0
             | Ok None =>
                 Raise (non_field_error "Unable to log in with provided credentials.")
             | Raise e => Raise e
             end = Ok u ->
             exists row, In row (users d) /\ f row = true /\
                         authenticate (users d) (username row) (l_password a) = Some u /\
                         is_active u = true).
  { intros f Hf. unfold authenticate_found, User_get in Hf.
    destruct (List.filter f (users d)) as [|row [|row' rest]] eqn:Hfil;
      try discriminate.
    assert (Hin : In row (List.filter f (users d))) by (rewrite Hfil; left; reflexivity).
    apply filter_In in Hin as [Hin Hmatch].
    destruct (authenticate (users d) (username row) (l_password a)) as [u0|] eqn:Ha;
      [|discriminate].
    destruct (is_active u0) eqn:Hact; simpl in Hf; [|discriminate].
    injection Hf as <-. exists row. auto. }
  destruct (given (l_username a)) eqn:Hgu.
  - destruct (given_Some _ Hgu) as (s & Hs & Hdef). rewrite Hdef in Hv.
    destruct (authenticate (users d) s (l_password a)) as [u0|] eqn:Ha;
      [|discriminate].
    destruct (is_active u0) eqn:Hact; simpl in Hv; [|discriminate].
    injection Hv as <-. exists u0, s. auto.
  - destruct (given (l_email a)) eqn:Hge.
    + destruct (Hrow _ Hv) as (row & Hin & Hmatch & Ha & Hact).
      exists u, (username row). repeat split; auto.
      exists row. repeat split; auto.
      destruct (given_Some _ Hge) as (s & Hs & Hdef).
      apply String.eqb_eq in Hmatch. rewrite Hdef in Hmatch. congruence.
    + destruct (given (l_phone_number a)) eqn:Hgp; [|discriminate].
      destruct (Hrow _ Hv) as (row & Hin & Hmatch & Ha & Hact).
      exists u, (username row). repeat split; auto.
      exists row. repeat split; auto.
      destruct (given_Some _ Hgp) as (s & Hs & Hdef).
      apply String.eqb_eq in Hmatch. rewrite Hdef in Hmatch. congruence.
Qed.

Lemma login_accepts_only_authenticated_active_users_witness :
  exists u name,
    plain_backend (users accounts) name "cocoa" = Some u /\
    is_active u = true /\
    json_get "user"
      (data (fst (login_view plain_backend name_only accounts
                    (by_email "ama@farm.gh" "cocoa") "k-ama")))
    = Some (name_only u) /\
    exists row, In row (users accounts) /\ username row = name /\
                Some "ama@farm.gh" = Some (email row).
Proof.
  destruct (login_accepts_only_authenticated_active_users plain_backend name_only
              accounts (by_email "ama@farm.gh" "cocoa") "k-ama" _ _ eq_refl eq_refl)
    as (u & name & Ha & Hact & Hdata & Hrow).
  exists u, name. repeat split; auto.
Defined.

(** The account a login names by a column is unknown, or it is the only
    one and [authenticate] refuses its username with the password. *)
Definition unknown_or_refused
    (authenticate : list User -> string -> string -> option User)
    (d : DB) (pw : string) (matches : User -> bool) : Prop :=
  (forall u, In u (users d) -> matches u = false) \/
  (exists u, List.filter matches (users d) = [u] /\
             authenticate (users d) (username u) pw = None).

(** X23 ([login_view], [LoginSerializer.validate]).  A login that names
    its account by e-mail address, or with no address by phone number, is
    answered in the same way when no stored account has that address or
    number and when the one account that has it is refused by
    [authenticate]; and that answer is the one a refused username gets and
    the one a login without any identifier gets: 400 with the same body,
    and nothing is written.  Only the first identifier the request gives
    counts, in the order username, e-mail address, phone number. *)
Theorem unknown_account_and_refused_password_look_alike
  authenticate user_data d a k :
  (if given (l_username a)
   then authenticate (users d) (default "" (l_username a)) (l_password a) = None
   else if given (l_email a)
   then unknown_or_refused authenticate d (l_password a)
          (fun u => (email u =? default "" (l_email a))%string)
   else if given (l_phone_number a)
   then unknown_or_refused authenticate d (l_password a)
          (fun u => (phone_number u =? default "" (l_phone_number a))%string)
   else True) ->
  login_view authenticate user_data d a k
  = (mkResponse HTTP_400_BAD_REQUEST
       (JObj [("non_field_errors",
               JList [JStr "Unable to log in with provided credentials."])]), d).
Proof.
  intros H. unfold login_view, LoginSerializer_validate.
  assert (Hcol : forall matches,
             unknown_or_refused authenticate d (l_password a) matches ->
             authenticate_found authenticate d (l_password a) (User_get d matches)
             = Ok None).
  { intros matches [Hnone|(u & Hone & Href)]; unfold authenticate_found, User_get.
    - rewrite (filter_nothing matches (users d) Hnone). reflexivity.
    - rewrite Hone, Href. reflexivity. }
  destruct (given (l_username a)).
  - rewrite H. reflexivity.
  - destruct (given (l_email a)); [rewrite (Hcol _ H); reflexivity|].
    destruct (given (l_phone_number a)); [rewrite (Hcol _ H); reflexivity|].
    reflexivity.
Qed.

Definition root : User := mkUser 4 "root" "" "" "admin" true.

(** An unknown address beside a known phone number, on accounts one of
    which has neither address nor number; the known address with a wrong
    password; a refused username. *)
Lemma unknown_account_and_refused_password_look_alike_witness :
  let d := mkDB [ama; kojo; root] [] in
  login_view plain_backend name_only d
    (mkLogin None (Some "nobody@farm.gh") (Some "+233200000001") "cocoa") "k"
  = login_view plain_backend name_only d (by_email "ama@farm.gh" "wrong") "k" /\
  login_view plain_backend name_only d (by_email "ama@farm.gh" "wrong") "k"
  = login_view plain_backend name_only d (by_name "ama" "wrong") "k".
Proof.
  intros d.
  rewrite (unknown_account_and_refused_password_look_alike plain_backend name_only d
             (mkLogin None (Some "nobody@farm.gh") (Some "+233200000001") "cocoa") "k").
  2:{ simpl. left. intros u [<-|[<-|[<-|[]]]]; reflexivity. }
  rewrite (unknown_account_and_refused_password_look_alike plain_backend name_only d
             (by_email "ama@farm.gh" "wrong") "k").
  2:{ simpl. right. exists ama. split; reflexivity. }
  rewrite (unknown_account_and_refused_password_look_alike plain_backend name_only d
             (by_name "ama" "wrong") "k").
  2:{ reflexivity. }
  split; reflexivity.
Defined.

(** X24 ([LoginSerializer.validate], [login_view]).  [email] is not a unique
    column: when the request has no username and two stored users have its
    e-mail address, the lookup's [MultipleObjectsReturned] is not caught and
    the request ends in 500, whatever the password; nothing is written. *)
Theorem login_by_shared_email_answers_500
  authenticate user_data d a k u1 u2 rest :
  given (l_username a) = false ->
  given (l_email a) = true ->
  List.filter (fun u => (email u =? default "" (l_email a))%string) (users d)
  = u1 :: u2 :: rest ->
  login_view authenticate user_data d a k
  = (mkResponse HTTP_500_INTERNAL_SERVER_ERROR JNull, d).
Proof.
  intros Hu He Hf. unfold login_view, LoginSerializer_validate.
  rewrite Hu, He. unfold authenticate_found, User_get. rewrite Hf. reflexivity.
Qed.

Lemma login_by_shared_email_answers_500_witness :
  status (fst (login_view plain_backend name_only shared_accounts
                 (by_email "ama@farm.gh" "cocoa") "k"))
  = HTTP_500_INTERNAL_SERVER_ERROR.
Proof.
  rewrite (login_by_shared_email_answers_500 plain_backend name_only shared_accounts
             (by_email "ama@farm.gh" "cocoa") "k" ama esi [] eq_refl eq_refl eq_refl).
  reflexivity.
Defined.

(** X25 ([logout_view]).  Logging out answers 200 and says whether a token
    was deleted; afterwards the caller has no token and the key of the old
    one is no longer stored, every other user keeps theirs, and no user is
    changed.  A later login of the caller is given a new token. *)
Theorem logout_revokes_only_the_callers_token d u r d' :
  tokens_ok d ->
  logout_view d u = (r, d') ->
  status r = HTTP_200_OK /\
  json_get "token_deleted" (data r)
  = Some (JBool (match Token_of d u with Some _ => true | None => false end)) /\
  users d' = users d /\ tokens_ok d' /\
  Token_of d' u = None /\
  (forall v, user_pk v <> user_pk u -> Token_of d' v = Token_of d v) /\
  (forall t, Token_of d u = Some t -> ~ In (key t) (List.map key (tokens d'))) /\
  (forall authenticate user_data a k,
      LoginSerializer_validate authenticate d a = Ok u ->
      ~ In k (List.map key (tokens d')) ->
      exists d2, login_view authenticate user_data d' a k
                 = (mkResponse HTTP_200_OK
                      (JObj [("message", JStr "Login successful");
                             ("user", user_data u);
                             ("token", JStr k)]), d2)).
Proof.
  intros Hok H. unfold logout_view in H. rewrite existsb_find in H.
  fold (Token_of d u) in H. injection H as Hr Hd. subst r. simpl.
  assert (Hmain :
    users d' = users d /\ tokens_ok d' /\ Token_of d' u = None /\
    (forall v, user_pk v <> user_pk u -> Token_of d' v = Token_of d v) /\
    (forall t, Token_of d u = Some t -> ~ In (key t) (List.map key (tokens d')))).
  { destruct (Token_delete_ok d u Hok) as (Hok' & Hnone & Hothers & Hkey).
    destruct (Token_of d u) as [t|] eqn:Ht; subst d'.
    - repeat split; auto; try apply Hok'.
      intros t' Ht'. injection Ht' as <-.
      unfold Token_of in Ht. apply find_some in Ht as [Hin Hmine].
      apply Nat.eqb_eq in Hmine. apply Hkey; auto.
    - repeat split; auto; try apply Hok. intros t' Ht'. discriminate. }
  destruct Hmain as (Hu & Hok' & Hnone & Hothers & Hkey).
  repeat split; auto; try apply Hok'.
  intros authenticate user_data a k Hv Hk.
  unfold login_view. rewrite (validate_reads_users authenticate d' d a Hu), Hv.
  unfold Token_get_or_create. rewrite Hnone.
  rewrite (Token_create_fresh d' u k Hnone Hk). eexists. reflexivity.
Qed.

Lemma logout_revokes_only_the_callers_token_witness :
  Token_of (snd (logout_view accounts kojo)) kojo = None /\
  Token_of (snd (logout_view accounts kojo)) ama = Token_of accounts ama.
Proof.
  destruct (logout_revokes_only_the_callers_token accounts kojo _ _
              accounts_tokens_ok eq_refl)
    as (_ & _ & _ & _ & Hnone & Hothers & _).
  split; [exact Hnone|]. apply Hothers. simpl. lia.
Defined.

(** X26 ([change_password_view], [ChangePasswordSerializer]).  A refused
    change (400) writes nothing.  An accepted one (200) had the right old
    password, a new password that passes the validators and equals its
    confirmation; it stores the hash of the new password for the caller,
    replaces the caller's token by the one in the answer, so that the old
    key is no longer stored, and touches no other user's token. *)
Theorem change_password_rotates_the_token
  check_password make_password validate_password d u a k r d' :
  tokens_ok d ->
  change_password_view check_password make_password validate_password d u a k
  = (r, d') ->
  (status r = HTTP_400_BAD_REQUEST -> d' = d) /\
  (status r = HTTP_200_OK ->
   check_password (old_password a) (password u) = true /\
   validate_password (new_password a) = [] /\
   new_password a = new_password_confirm a /\
   json_get "token" (data r) = Some (JStr k) /\
   tokens_ok d' /\
   Token_of d' u = Some (mkToken k (user_pk u)) /\
   (forall v, user_pk v <> user_pk u -> Token_of d' v = Token_of d v) /\
   (forall t, Token_of d u = Some t -> key t <> k ->
              ~ In (key t) (List.map key (tokens d'))) /\
   (forall v, In v (users d') -> user_pk v = user_pk u ->
              password v = make_password (new_password a))).
Proof.
  intros Hok H. unfold change_password_view in H.
  destruct (ChangePasswordSerializer_errors check_password validate_password u a)
    as [errs|] eqn:He.
  { injection H as <- <-. split; [reflexivity|]. intros Hs. cbv in Hs. discriminate. }
  set (user := set_password make_password u (new_password a)) in *.
  set (d1 := User_save d user) in *.
  assert (Hok1 : tokens_ok d1) by exact Hok.
  destruct (Token_delete_ok d1 user Hok1) as (Hok2 & Hnone & Hothers & Hkey).
  destruct (Token_create (Token_delete d1 user) user k) as [[t d3]|e] eqn:Hc.
  2:{ apply Token_create_raises in Hc. subst e. injection H as <- <-.
      split; intros Hs; cbv in Hs; discriminate. }
  injection H as <- <-. split; [intros Hs; cbv in Hs; discriminate|]. intros _.
  apply Token_create_ok in Hc as (-> & Hu3 & Htk3 & _ & _ & Hok3); auto.
  unfold ChangePasswordSerializer_errors, field_errors in He.
  destruct (check_password (old_password a) (password u)) eqn:Hold;
    [|discriminate].
  destruct (validate_password (new_password a)) as [|m ms] eqn:Hnew;
    [|discriminate].
  simpl in He.
  destruct (new_password a =? new_password_confirm a)%string eqn:Hsame;
    [|discriminate].
  apply String.eqb_eq in Hsame.
  repeat split; auto.
  - apply Hok3.
  - apply Hok3.
  - unfold Token_of. rewrite Htk3. apply find_app_new.
    + exact Hnone.
    + simpl. apply Nat.eqb_refl.
  - intros v Hv. unfold Token_of. rewrite Htk3. rewrite find_app_other.
    + apply (Hothers v). exact Hv.
    + simpl. apply Nat.eqb_neq. auto.
  - intros t Ht Hne Hin. rewrite Htk3, map_app, in_app_iff in Hin.
    destruct Hin as [Hin|[Hin|[]]].
    + unfold Token_of in Ht. apply find_some in Ht as [Hin_t Hmine].
      apply Nat.eqb_eq in Hmine. apply (Hkey t); auto.
    + simpl in Hin. congruence.
  - intros v Hin Hpk. rewrite Hu3 in Hin. simpl in Hin.
    apply in_map_iff in Hin as (w & Hw & Hin).
    destruct (user_pk w =? user_pk u)%nat eqn:Hwu.
    + subst v. reflexivity.
    + subst v. apply Nat.eqb_neq in Hwu. contradiction.
Qed.

Definition hash_of (raw : string) : string := "h:" ++ raw.
Definition same_hash (raw stored : string) : bool := (hash_of raw =? stored)%string.
Definition any_password (raw : string) : list string := [].

Definition hashed_accounts : DB :=
  mkDB [mkUser 1 "ama" "ama@farm.gh" "+233200000001" "h:cocoa" true]
       [mkToken "k-old" 1].

Lemma change_password_rotates_the_token_witness :
  let u := mkUser 1 "ama" "ama@farm.gh" "+233200000001" "h:cocoa" true in
  let out := change_password_view same_hash hash_of any_password hashed_accounts u
               (mkPasswords "cocoa" "cassava" "cassava") "k-new" in
  Token_of (snd out) u = Some (mkToken "k-new" 1) /\
  ~ In "k-old" (List.map key (tokens (snd out))).
Proof.
  intros u out.
  assert (Hok : tokens_ok hashed_accounts).
  { split; simpl; (constructor; [intros []|constructor]). }
  destruct (change_password_rotates_the_token same_hash hash_of any_password
              hashed_accounts u (mkPasswords "cocoa" "cassava" "cassava") "k-new"
              _ _ Hok eq_refl) as [_ H].
  destruct (H eq_refl) as (_ & _ & _ & _ & _ & Hnew & _ & Hgone & _).
  split; [exact Hnew|]. apply (Hgone (mkToken "k-old" 1)); [reflexivity|discriminate].
Defined.

End AuthFacts.

(** ** The session lookup of a chat request, and what escapes it *)

Module ChatLookup.
Import Chat ChatFacts.

(** C8, amended.  On a well-formed database, for a chat request whose
    message is not blank and whose [session_id] is not empty: the answer is
    200 only when a session of that identifier owned by the caller is
    stored; when no session has the identifier, and when one has it but
    belongs to another user, the answer is the same 404 with the same body,
    the database is untouched and the model is not called, and the history
    endpoint answers the two cases with that same 404.  A [session_id] that
    is the empty string is no identifier: the request is handled exactly as
    the request without [session_id], which opens a new session.  A blank
    message is refused with the 400 before any session is looked up,
    whatever the identifier. *)
Theorem chat_lookup_needs_a_nonempty_identifier
    (generate : gen_request -> result string) (SYSTEM_INSTRUCTION : string)
    (str : exn -> string) (d : DB) (user : nat) (rq : ChatRequest) (uuid4 : string) :
  wf d ->
  (forall sid,
      req_session_id rq = Some sid -> Py.truthy sid = true ->
      Py.truthy (Py.strip (default "" (req_message rq))) = true ->
      (status (fst (fst (chat_with_ai generate SYSTEM_INSTRUCTION str d user rq uuid4))) = 200 ->
       exists s, In s (chat_sessions d) /\ session_id s = sid /\ cs_user s = user) /\
      ((forall s, In s (chat_sessions d) -> session_id s <> sid) ->
       chat_with_ai generate SYSTEM_INSTRUCTION str d user rq uuid4
       = (mkResponse 404 (JObj [("error", JStr "Session not found or access denied")]), d, [])
       /\ get_chat_history d user sid
          = mkResponse 404 (JObj [("error", JStr "Session not found or access denied")])) /\
      ((exists s, In s (chat_sessions d) /\ session_id s = sid /\ cs_user s <> user) ->
       chat_with_ai generate SYSTEM_INSTRUCTION str d user rq uuid4
       = (mkResponse 404 (JObj [("error", JStr "Session not found or access denied")]), d, [])
       /\ get_chat_history d user sid
          = mkResponse 404 (JObj [("error", JStr "Session not found or access denied")]))) /\
  (req_session_id rq = Some "" ->
   chat_with_ai generate SYSTEM_INSTRUCTION str d user rq uuid4
   = chat_with_ai generate SYSTEM_INSTRUCTION str d user
       (mkChatRequest (req_message rq) None) uuid4) /\
  (Py.truthy (Py.strip (default "" (req_message rq))) = false ->
   chat_with_ai generate SYSTEM_INSTRUCTION str d user rq uuid4
   = (mkResponse 400 (JObj [("error", JStr "Message is required")]), d, [])).
Proof.
  intros Hwf. split; [|split].
  - intros sid Hs Ht Hm.
    exact (chat_session_lookup_signals_alike generate SYSTEM_INSTRUCTION str
             d user rq uuid4 sid Hwf Hs Ht Hm).
  - intros Hs. unfold chat_with_ai. rewrite Hs. reflexivity.
  - intros Hm. unfold chat_with_ai. rewrite Hm. reflexivity.
Qed.

Lemma chat_lookup_needs_a_nonempty_identifier_witness :
  chat_with_ai advisor instruction str_of db_one_turn 2 next_question "u"
  = (mkResponse 404 (JObj [("error", JStr "Session not found or access denied")]),
     db_one_turn, []) /\
  chat_with_ai advisor instruction str_of db_one_turn 2
    (mkChatRequest (Some "What should I do next?") (Some "s-9")) "u"
  = (mkResponse 404 (JObj [("error", JStr "Session not found or access denied")]),
     db_one_turn, []).
Proof.
  destruct (chat_lookup_needs_a_nonempty_identifier advisor instruction str_of
              db_one_turn 2 next_question "u" db_one_turn_wf) as [H1 _].
  destruct (chat_lookup_needs_a_nonempty_identifier advisor instruction str_of
              db_one_turn 2 (mkChatRequest (Some "What should I do next?") (Some "s-9"))
              "u" db_one_turn_wf) as [H2 _].
  split.
  - destruct (H1 "s-1" eq_refl eq_refl eq_refl) as [_ [_ H]].
    apply H. exists session_one. split; [now left|]. split; [reflexivity|discriminate].
  - destruct (H2 "s-9" eq_refl eq_refl eq_refl) as [_ [H _]].
    apply H. intros s [<-|[]]. discriminate.
Defined.

(** C8 as it stands fails: a request of user 2 that carries the empty
    string as its [session_id], on a database where no session has that
    identifier, is answered 200; the handler has opened a session for it. *)
Lemma empty_session_id_is_answered_200 :
  let rq := mkChatRequest (Some "Which maize variety suits a short season?") (Some "") in
  let out := chat_with_ai advisor instruction str_of db_one_turn 2 rq "u" in
  req_session_id rq = Some "" /\
  (forall s, In s (chat_sessions db_one_turn) -> session_id s <> "") /\
  status (fst (fst out)) = 200 /\
  json_get "session_id" (data (fst (fst out))) = Some (JStr "u") /\
  (exists s, In s (chat_sessions (snd (fst out))) /\ session_id s = "u" /\ cs_user s = 2%nat) /\
  length (chat_sessions (snd (fst out))) = S (length (chat_sessions db_one_turn)).
Proof.
  intros rq out. split; [reflexivity|]. split.
  { intros s [<-|[]]. discriminate. }
  vm_compute. split; [reflexivity|]. split; [reflexivity|]. split; [|reflexivity].
  eexists. split; [right; left; reflexivity|]. split; reflexivity.
Qed.

End ChatLookup.

(** ** The daily tip when the cache backend fails *)

(** [cache.get] and [cache.set] are calls to a backend, and a backend that
    is out of reach raises.  The handler makes up to three of them: the
    read of today's entry and the write of the new tip, both inside the
    [try], and the read of yesterday's entry, inside the [except] block and
    under no [try] of its own. *)
Module TipOutage.
Import Tip.

(** The calls to the backend, with the time they are made at. *)
Inductive cache_call : Type :=
| CacheGet (key : Z) (t : Z)
| CacheSet (key : Z) (v : string) (timeout : Z) (t : Z).

(** What leaves a block of the handler: one of the exceptions of [exn], or
    the exception of the cache backend, with its message. *)
Inductive raised : Type :=
| Exn (e : exn)
| CacheError (msg : string).

Section Handler.
Variable generate : gen_request -> result string.
(** The calls at which the backend raises, and the message it raises
    with. *)
Variable outage : cache_call -> option string.

(** [cache.get(key)] at time [t]. *)
Definition cache_get (c : gmap Z entry) (key : Z) (t : Z) : option string + raised :=
  match outage (CacheGet key t) with
  | Some msg => inr (CacheError msg)
  | None => inl (Tip.cache_get c key t)
  end.

(** [cache.set(key, v, timeout=timeout)] at time [t]; a call that raises
    has stored nothing. *)
Definition cache_set (c : gmap Z entry) (key : Z) (v : string) (timeout t : Z)
  : gmap Z entry + raised :=
  match outage (CacheSet key v timeout t) with
  | Some msg => inr (CacheError msg)
  | None => inl (Tip.cache_set c key v timeout t)
  end.

(** The [try] block, entered at time [t0]; the model call, when it is
    made, returns or raises at time [t0 + dt].  The last component is the
    time the block is left at. *)
Definition try_block (c : gmap Z entry) (t0 dt : Z)
  : (Response + raised) * gmap Z entry * list gen_request * Z :=
  let today := date_of t0 in
  let cache_key := today in
  match cache_get c cache_key t0 with
  | inr x => (inr x, c, [], t0)
  | inl cached =>
      match truthy_opt cached with
      | Some cached_tip => (inl (tip_response cached_tip true today), c, [], t0)
      | None =>
          match generate tip_request with
          | Ok text =>
              let tip := Py.strip text in
              match cache_set c cache_key tip (60 * 60 * 48) (t0 + dt) with
              | inl c' => (inl (tip_response tip false today), c', [tip_request], t0 + dt)
              | inr x => (inr x, c, [tip_request], t0 + dt)
              end
          | Raise e => (inr (Exn e), c, [tip_request], t0 + dt)
          end
      end
  end.

(** The [except Exception] block, entered at time [t]. *)
Definition except_block (c : gmap Z entry) (t : Z) (rnd : nat) : Response + raised :=
  let yesterday := date_of (t - one_day) in
  match cache_get c yesterday t with
  | inr x => inr x
  | inl yesterday_tip =>
      match truthy_opt yesterday_tip with
      | Some tip => inl (fallback_response tip true yesterday)
      | None =>
          match random_choice rnd DEFAULT_FALLBACK_TIPS with
          | Ok fallback_tip => inl (fallback_response fallback_tip false (date_of t))
          | Raise e => inr (Exn e)
          end
      end
  end.

Definition get_daily_farming_tip (c : gmap Z entry) (t0 dt : Z) (rnd : nat)
  : (Response + raised) * gmap Z entry * list gen_request :=
  match try_block c t0 dt with
  | (inl r, c', calls, _) => (inl r, c', calls)
  | (inr _, c', calls, t) => (except_block c' t rnd, c', calls)
  end.

End Handler.



End TipOutage.

Module TipOutageFacts.
Import Tip TipFacts TipOutage.






(** *** Instances *)



Definition cache_up (call : cache_call) : option string := None.




End TipOutageFacts.

